(** * plapper: the littledb key-value store and its jsonify codec

    A shallow embedding of [src/plapper/jsonify.py] and
    [src/plapper/littledb.py], and the properties of the store's
    specification stated and settled over it.

    Conventions of the embedding.
    - Python values are the inductive [pyval]; a [dict] is an association
      list in insertion order (the order [json.dumps] writes), a [str] is a
      [string] whose characters are the code points 0..255, [bytes] is a
      [list byte].  Floating point numbers, tuples and time zones are not
      part of the model.
    - A call that may raise returns a [result]: [Ok v] or [Raise e].
      [Raise Unmodelled] marks an input that leaves the modelled values
      (a floating point number in a text, a code point above 255).
    - Objects have no [__getstate__] unless their class defines one (the
      CPython versions the code was written for); the modelled classes
      define neither [__getstate__] nor [__setstate__]. *)

From Stdlib Require Import ZArith List String Ascii Bool Lia.
From Stdlib Require Import Strings.Byte.
From Stdlib Require Import DecimalString DecimalZ DecimalFacts DecimalPos.
Import ListNotations.
Local Open Scope string_scope.
Local Open Scope Z_scope.
Set Warnings "-register-all".

(** ** Exceptions and results *)

Inductive exn : Type :=
| KeyError (key : string)
| NameError (name : string)
| UnboundLocalError (name : string)
| NotImplementedError (msg : string)
| AttributeError (attr : string)
| TypeError
| ValueError
| JSONDecodeError
| UnicodeDecodeError
| OverflowError
| InterfaceError
| OperationalError (msg : string)
| Unmodelled.

Inductive result (A : Type) : Type :=
| Ok (a : A)
| Raise (e : exn).
Arguments Ok {A} a.
Arguments Raise {A} e.

Definition bind {A B : Type} (r : result A) (k : A -> result B) : result B :=
  match r with
  | Ok a => k a
  | Raise e => Raise e
  end.

Notation "'do' x <- r ; k" := (bind r (fun x => k))
  (at level 10, x name, r at level 100, k at level 200).

Definition is_ok {A : Type} (r : result A) : bool :=
  match r with Ok _ => true | Raise _ => false end.

(** ** Python values *)

(** A class as far as [jsonify] looks at it: its [__name__], whether it has
    the [Jsonable] mix-in's [__json__] method, and whether it (or a base
    other than [object]) defines [__init__], which decides whether
    [object.__new__] tolerates extra arguments. *)
Record pyclass : Type := mkclass {
  cls_name : string;
  cls_has_json : bool;
  cls_has_init : bool
}.

Inductive pykey : Type :=
| KStr (s : string)
| KInt (z : Z).

Inductive pyval : Type :=
| PNone
| PBool (b : bool)
| PInt (z : Z)
| PStr (s : string)
| PBytes (b : list byte)
| PList (xs : list pyval)
| PDict (items : list (pykey * pyval))
| PDate (year month day : Z)
| PDateTime (year month day hour minute second microsecond : Z)
| PInst (cls : pyclass) (attrs : list (string * pyval)).

Definition pykey_eqb (a b : pykey) : bool :=
  match a, b with
  | KStr s, KStr t => String.eqb s t
  | KInt x, KInt y => Z.eqb x y
  | _, _ => false
  end.

(** [d.get(k)] on an association list. *)
Fixpoint dict_get {V : Type} (k : pykey) (d : list (pykey * V)) : option V :=
  match d with
  | [] => None
  | (k', v) :: rest => if pykey_eqb k k' then Some v else dict_get k rest
  end.

(** [del d[k]] (every entry, there is at most one in a dict). *)
Fixpoint dict_remove {V : Type} (k : pykey) (d : list (pykey * V)) : list (pykey * V) :=
  match d with
  | [] => []
  | (k', v) :: rest =>
      if pykey_eqb k k' then dict_remove k rest else (k', v) :: dict_remove k rest
  end.

(** [d[k] = v]: an existing key keeps its place, a new one goes last. *)
Fixpoint dict_set {V : Type} (k : pykey) (v : V) (d : list (pykey * V)) : list (pykey * V) :=
  match d with
  | [] => [(k, v)]
  | (k', v') :: rest =>
      if pykey_eqb k k' then (k', v) :: rest else (k', v') :: dict_set k v rest
  end.

(** [dict(pairs)]: later pairs overwrite earlier ones. *)
Definition dict_of_pairs {V : Type} (pairs : list (pykey * V)) : list (pykey * V) :=
  fold_left (fun d kv => dict_set (fst kv) (snd kv) d) pairs [].

(** [d.pop(k, default)]: the value, if any, and the dict without the key. *)
Definition dict_pop {V : Type} (k : pykey) (d : list (pykey * V)) : option V * list (pykey * V) :=
  (dict_get k d, dict_remove k d).

(** Python truth value of an object. *)
Definition truthy (v : pyval) : bool :=
  match v with
  | PNone => false
  | PBool b => b
  | PInt z => negb (Z.eqb z 0)
  | PStr s => negb (String.eqb s "")
  | PBytes b => match b with [] => false | _ => true end
  | PList xs => match xs with [] => false | _ => true end
  | PDict items => match items with [] => false | _ => true end
  | PDate _ _ _ => true
  | PDateTime _ _ _ _ _ _ _ => true
  | PInst _ _ => true
  end.

(** ** JSON documents, as [json] reads and writes them *)

Inductive json : Type :=
| JNull
| JBool (b : bool)
| JInt (z : Z)
| JStr (s : string)
| JArr (xs : list json)
| JObj (members : list (string * json)).

(** ** jsonify: the encoder *)

Definition DATETIME_FMT : string := "%Y%m%dT%H:%M:%S.%f".
Definition DATE_FMT : string := "%Y%m%d".

(** [Jsonable.__json__]: the attributes whose name does not start with two
    underscores, and the class name under ['__class__'].  (The attributes of
    an instance are its data attributes; methods are filtered out by the
    source and are not part of [attrs].) *)
Definition public_attr (a : string) : bool := negb (String.prefix "__" a).

Definition Jsonable_json (cls : pyclass) (attrs : list (string * pyval)) : pyval :=
  PDict (dict_set (KStr "__class__") (PStr (cls_name cls))
           (map (fun av => (KStr (fst av), snd av))
                (filter (fun av => public_attr (fst av)) attrs))).

(** [JsonifyEncoder.default], called by [json] on an object it cannot
    serialize itself.  The two methods are looked up first; [datetime] is
    tested before [date], of which it is a subclass; anything else goes to
    [JSONEncoder.default], which raises [TypeError]. *)
Definition JsonifyEncoder_default (obj : pyval) : result pyval :=
  match obj with
  | PInst cls attrs =>
      if cls_has_json cls then Ok (Jsonable_json cls attrs) else Raise TypeError
  | PDateTime y m d hh mm ss us =>
      Ok (PDict [ (KStr "__class__", PStr "_datetime");
                  (KStr "__newargs__",
                   PList [PInt y; PInt m; PInt d; PInt hh; PInt mm; PInt ss; PInt us]) ])
  | PDate y m d =>
      Ok (PDict [ (KStr "__class__", PStr "_date");
                  (KStr "__newargs__", PList [PInt y; PInt m; PInt d]) ])
  | _ => Raise TypeError
  end.

(** ** The [json] library: writing a document

    [json.dumps] with its defaults: [ensure_ascii=True], the separators
    [", "] and [": "]. *)

Definition dquote : ascii := "034"%char.
Definition backslash : ascii := "\"%char.

Definition hex_digit (n : N) : ascii :=
  if (n <? 10)%N then ascii_of_N (48 + n) else ascii_of_N (87 + n).

(** [py_encode_basestring_ascii]: the replacement of one character. *)
Definition escape_char (c : ascii) : string :=
  let n := N_of_ascii c in
  if Ascii.eqb c dquote then String backslash (String dquote "")
  else if Ascii.eqb c backslash then String backslash (String backslash "")
  else if (n =? 8)%N then "\b"
  else if (n =? 12)%N then "\f"
  else if (n =? 10)%N then "\n"
  else if (n =? 13)%N then "\r"
  else if (n =? 9)%N then "\t"
  else if ((n <? 32) || (126 <? n))%N then
    String backslash
      (String "u" (String "0" (String "0"
         (String (hex_digit (n / 16)) (String (hex_digit (n mod 16)) "")))))
  else String c "".

Fixpoint escape_string (s : string) : string :=
  match s with
  | EmptyString => ""
  | String c rest => escape_char c ++ escape_string rest
  end.

Definition quote_string (s : string) : string :=
  String dquote (escape_string s ++ String dquote "").

(** [int.__repr__]: decimal digits, a minus sign for negative numbers. *)
Definition string_of_Z (z : Z) : string := NilEmpty.string_of_int (Z.to_int z).

Fixpoint json_text (t : json) : string :=
  match t with
  | JNull => "null"
  | JBool true => "true"
  | JBool false => "false"
  | JInt z => string_of_Z z
  | JStr s => quote_string s
  | JArr xs =>
      "[" ++
      (fix items (l : list json) : string :=
         match l with
         | [] => "]"
         | x :: rest =>
             json_text x ++ match rest with [] => "]" | _ => ", " ++ items rest end
         end) xs
  | JObj ms =>
      "{" ++
      (fix members (l : list (string * json)) : string :=
         match l with
         | [] => "}"
         | (k, v) :: rest =>
             quote_string k ++ ": " ++ json_text v ++
             match rest with [] => "}" | _ => ", " ++ members rest end
         end) ms
  end.

(** ** The [json] library: reading a document *)

Definition is_ws (c : ascii) : bool :=
  let n := N_of_ascii c in ((n =? 32) || (n =? 9) || (n =? 10) || (n =? 13))%N.

Fixpoint skip_ws (s : string) : string :=
  match s with
  | String c rest => if is_ws c then skip_ws rest else s
  | EmptyString => s
  end.

Definition hex_value (c : ascii) : option N :=
  let n := N_of_ascii c in
  if ((48 <=? n) && (n <=? 57))%N then Some (n - 48)%N
  else if ((97 <=? n) && (n <=? 102))%N then Some (n - 87)%N
  else if ((65 <=? n) && (n <=? 70))%N then Some (n - 55)%N
  else None.

(** The character a one-letter escape stands for ([BACKSLASH] in
    [json.decoder]). *)
Definition unescape (c : ascii) : option ascii :=
  if Ascii.eqb c dquote then Some dquote
  else if Ascii.eqb c backslash then Some backslash
  else if Ascii.eqb c "/" then Some "/"%char
  else if Ascii.eqb c "b" then Some (ascii_of_N 8)
  else if Ascii.eqb c "f" then Some (ascii_of_N 12)
  else if Ascii.eqb c "n" then Some (ascii_of_N 10)
  else if Ascii.eqb c "r" then Some (ascii_of_N 13)
  else if Ascii.eqb c "t" then Some (ascii_of_N 9)
  else None.

(** [py_scanstring] in strict mode, after the opening quote: the decoded
    string and the text after the closing quote.  An escape [\uXXXX] above
    code point 255 is outside the modelled strings. *)
Fixpoint scan_string (s : string) : result (string * string) :=
  match s with
  | EmptyString => Raise JSONDecodeError
  | String c rest =>
      if Ascii.eqb c dquote then Ok ("", rest)
      else if Ascii.eqb c backslash then
        match rest with
        | EmptyString => Raise JSONDecodeError
        | String e rest1 =>
            if Ascii.eqb e "u" then
              match rest1 with
              | String h1 (String h2 (String h3 (String h4 rest2))) =>
                  match hex_value h1, hex_value h2, hex_value h3, hex_value h4 with
                  | Some a, Some b, Some c3, Some d =>
                      if ((a =? 0) && (b =? 0))%N then
                        do r <- scan_string rest2;
                        Ok (String (ascii_of_N (16 * c3 + d)) (fst r), snd r)
                      else Raise Unmodelled
                  | _, _, _, _ => Raise JSONDecodeError
                  end
              | _ => Raise JSONDecodeError
              end
            else
              match unescape e with
              | Some ch =>
                  do r <- scan_string rest1;
                  Ok (String ch (fst r), snd r)
              | None => Raise JSONDecodeError
              end
        end
      else if (N_of_ascii c <? 32)%N then Raise JSONDecodeError
      else
        do r <- scan_string rest;
        Ok (String c (fst r), snd r)
  end.

Definition digit_of (c : ascii) : option (Decimal.uint -> Decimal.uint) :=
  match c with
  | "0"%char => Some Decimal.D0 | "1"%char => Some Decimal.D1
  | "2"%char => Some Decimal.D2 | "3"%char => Some Decimal.D3
  | "4"%char => Some Decimal.D4 | "5"%char => Some Decimal.D5
  | "6"%char => Some Decimal.D6 | "7"%char => Some Decimal.D7
  | "8"%char => Some Decimal.D8 | "9"%char => Some Decimal.D9
  | _ => None
  end.

Definition is_digit (c : ascii) : bool :=
  match digit_of c with Some _ => true | None => false end.

(** The longest run of digits at the head of the text. *)
Fixpoint scan_digits (s : string) : Decimal.uint * string :=
  match s with
  | String c rest =>
      match digit_of c with
      | Some d => let r := scan_digits rest in (d (fst r), snd r)
      | None => (Decimal.Nil, s)
      end
  | EmptyString => (Decimal.Nil, s)
  end.

(** The integer part of [NUMBER_RE]: [0] or a run of digits not starting
    with [0]. *)
Definition scan_int_part (s : string) : option (Decimal.uint * string) :=
  match s with
  | String c rest =>
      if Ascii.eqb c "0" then Some (Decimal.D0 Decimal.Nil, rest)
      else if is_digit c then Some (scan_digits s)
      else None
  | EmptyString => None
  end.

(** Whether the text goes on with a fraction or an exponent, which makes
    the number a float. *)
Definition starts_float_tail (s : string) : bool :=
  match s with
  | String "." (String c _) => is_digit c
  | String e (String c rest) =>
      if (Ascii.eqb e "e" || Ascii.eqb e "E")%bool then
        if is_digit c then true
        else if (Ascii.eqb c "+" || Ascii.eqb c "-")%bool then
          match rest with String c2 _ => is_digit c2 | EmptyString => false end
        else false
      else false
  | _ => false
  end.

Definition scan_number (neg : bool) (s : string) : result (pyval * string) :=
  match scan_int_part s with
  | Some (u, rest) =>
      if starts_float_tail rest then Raise Unmodelled
      else Ok (PInt (Z.of_int (if neg then Decimal.Neg u else Decimal.Pos u)), rest)
  | None =>
      if (neg && String.prefix "Infinity" s)%bool then Raise Unmodelled
      else Raise JSONDecodeError
  end.

(** The pairs of a JSON object become [dict(pairs)]. *)
Definition dict_of_members (ms : list (string * pyval)) : pyval :=
  PDict (dict_of_pairs (map (fun kv => (KStr (fst kv), snd kv)) ms)).

Section Scanner.

(** The decoder's [object_hook], called on every JSON object as soon as it
    is complete. *)
Variable object_hook : pyval -> result pyval.

(** [scan_once]: one value at the head of the text.  [fuel] bounds the
    nesting and the number of members; [json_loads] gives enough of it for
    the whole text. *)
Fixpoint parse_value (fuel : nat) (s : string) : result (pyval * string) :=
  match fuel with
  | O => Raise Unmodelled
  | S f =>
      match s with
      | EmptyString => Raise JSONDecodeError
      | String c rest =>
          if Ascii.eqb c dquote then
            do r <- scan_string rest; Ok (PStr (fst r), snd r)
          else if Ascii.eqb c "{" then
            match skip_ws rest with
            | String c1 rest1 =>
                if Ascii.eqb c1 "}" then
                  do o <- object_hook (dict_of_members []); Ok (o, rest1)
                else
                  do r <- parse_members f (String c1 rest1);
                  do o <- object_hook (dict_of_members (fst r));
                  Ok (o, snd r)
            | EmptyString => Raise JSONDecodeError
            end
          else if Ascii.eqb c "[" then
            match skip_ws rest with
            | String c1 rest1 =>
                if Ascii.eqb c1 "]" then Ok (PList [], rest1)
                else do r <- parse_items f (String c1 rest1); Ok (PList (fst r), snd r)
            | EmptyString => Raise JSONDecodeError
            end
          else if String.prefix "null" s then Ok (PNone, substring 4 (length s - 4) s)
          else if String.prefix "true" s then Ok (PBool true, substring 4 (length s - 4) s)
          else if String.prefix "false" s then Ok (PBool false, substring 5 (length s - 5) s)
          else if (String.prefix "NaN" s || String.prefix "Infinity" s)%bool then Raise Unmodelled
          else if Ascii.eqb c "-" then scan_number true rest
          else scan_number false s
      end
  end
(** The items of an array, from the first character of an item to the
    character after the closing bracket. *)
with parse_items (fuel : nat) (s : string) : result (list pyval * string) :=
  match fuel with
  | O => Raise Unmodelled
  | S f =>
      do r <- parse_value f s;
      match skip_ws (snd r) with
      | String c rest =>
          if Ascii.eqb c "," then
            do r' <- parse_items f (skip_ws rest);
            Ok (fst r :: fst r', snd r')
          else if Ascii.eqb c "]" then Ok ([fst r], rest)
          else Raise JSONDecodeError
      | EmptyString => Raise JSONDecodeError
      end
  end
(** The members of an object, from the quote that opens a key to the
    character after the closing brace. *)
with parse_members (fuel : nat) (s : string) : result (list (string * pyval) * string) :=
  match fuel with
  | O => Raise Unmodelled
  | S f =>
      match s with
      | String c rest =>
          if Ascii.eqb c dquote then
            do k <- scan_string rest;
            match skip_ws (snd k) with
            | String c1 rest1 =>
                if Ascii.eqb c1 ":" then
                  do r <- parse_value f (skip_ws rest1);
                  match skip_ws (snd r) with
                  | String c2 rest2 =>
                      if Ascii.eqb c2 "," then
                        do r' <- parse_members f (skip_ws rest2);
                        Ok ((fst k, fst r) :: fst r', snd r')
                      else if Ascii.eqb c2 "}" then Ok ([(fst k, fst r)], rest2)
                      else Raise JSONDecodeError
                  | EmptyString => Raise JSONDecodeError
                  end
                else Raise JSONDecodeError
            | EmptyString => Raise JSONDecodeError
            end
          else Raise JSONDecodeError
      | EmptyString => Raise JSONDecodeError
      end
  end.

(** [JSONDecoder.decode]: leading white space, one value, and nothing but
    white space after it. *)
Definition json_loads (s : string) : result pyval :=
  do r <- parse_value (S (String.length s)) (skip_ws s);
  match skip_ws (snd r) with
  | EmptyString => Ok (fst r)
  | _ => Raise JSONDecodeError
  end.

(** What the decoder builds from a document: the reading of [json_text t],
    without the text in between. *)
Fixpoint py_of_json (t : json) : result pyval :=
  match t with
  | JNull => Ok PNone
  | JBool b => Ok (PBool b)
  | JInt z => Ok (PInt z)
  | JStr s => Ok (PStr s)
  | JArr xs =>
      do ys <- (fix items (l : list json) : result (list pyval) :=
                  match l with
                  | [] => Ok []
                  | x :: rest =>
                      do y <- py_of_json x; do ys <- items rest; Ok (y :: ys)
                  end) xs;
      Ok (PList ys)
  | JObj ms =>
      do ps <- (fix members (l : list (string * json)) : result (list (string * pyval)) :=
                  match l with
                  | [] => Ok []
                  | (k, v) :: rest =>
                      do y <- py_of_json v; do ps <- members rest; Ok ((k, y) :: ps)
                  end) ms;
      object_hook (dict_of_members ps)
  end.

End Scanner.

(** ** jsonify: [dumps]

    [json.dumps(obj, cls=JsonifyEncoder)].  The [json] library writes
    [None], booleans, integers, strings, lists and dicts itself, a dict key
    being a string or the decimal text of an integer; every other object is
    handed to [JsonifyEncoder.default], whose result is encoded in its
    place.  [to_json] is that traversal, written by structural recursion;
    [to_json_default] below shows that on the objects [json] does not know
    it is the encoding of what [JsonifyEncoder_default] returns. *)

Definition key_text (k : pykey) : string :=
  match k with
  | KStr s => s
  | KInt z => string_of_Z z
  end.

Fixpoint to_json (v : pyval) : result json :=
  match v with
  | PNone => Ok JNull
  | PBool b => Ok (JBool b)
  | PInt z => Ok (JInt z)
  | PStr s => Ok (JStr s)
  | PBytes _ => Raise TypeError
  | PList xs =>
      do ys <- (fix items (l : list pyval) : result (list json) :=
                  match l with
                  | [] => Ok []
                  | x :: rest => do y <- to_json x; do ys <- items rest; Ok (y :: ys)
                  end) xs;
      Ok (JArr ys)
  | PDict items =>
      do ms <- (fix members (l : list (pykey * pyval)) : result (list (string * json)) :=
                  match l with
                  | [] => Ok []
                  | (k, x) :: rest =>
                      do y <- to_json x; do ms <- members rest; Ok ((key_text k, y) :: ms)
                  end) items;
      Ok (JObj ms)
  | PDate y m d =>
      Ok (JObj [ ("__class__", JStr "_date");
                 ("__newargs__", JArr [JInt y; JInt m; JInt d]) ])
  | PDateTime y m d hh mm ss us =>
      Ok (JObj [ ("__class__", JStr "_datetime");
                 ("__newargs__",
                  JArr [JInt y; JInt m; JInt d; JInt hh; JInt mm; JInt ss; JInt us]) ])
  | PInst cls attrs =>
      if cls_has_json cls then
        do ms <- (fix members (l : list (string * pyval)) : result (list (string * json)) :=
                    match l with
                    | [] => Ok []
                    | (a, x) :: rest =>
                        if public_attr a then
                          do y <- to_json x; do ms <- members rest; Ok ((a, y) :: ms)
                        else members rest
                    end) attrs;
        Ok (JObj (ms ++ [("__class__", JStr (cls_name cls))]))
      else Raise TypeError
  end.

Definition dumps (obj : pyval) : result string :=
  do t <- to_json obj; Ok (json_text t).

(** ** jsonify: the decoder *)

(** What a name of the namespace can be bound to, as far as
    [decode_object] uses it. *)
Inductive nsobj : Type :=
| ObjNone
| ObjDateClass
| ObjDateTimeClass
| ObjDictClass
| ObjClass (c : pyclass)
| ObjOther.

(** A namespace is a [dict], such as [globals()] or [locals()]. *)
Definition namespace : Type := list (string * nsobj).

Fixpoint ns_get (name : string) (ns : namespace) : option nsobj :=
  match ns with
  | [] => None
  | (n, o) :: rest => if String.eqb name n then Some o else ns_get name rest
  end.

(** [ns.setdefault(name, o)] *)
Definition ns_setdefault (name : string) (o : nsobj) (ns : namespace) : namespace :=
  match ns_get name ns with
  | Some _ => ns
  | None => (ns ++ [(name, o)])%list
  end.

(** [JsonifyDecoder.__init__]: [namespace or {}], then the two built-in
    names unless the namespace binds them already. *)
Definition JsonifyDecoder_init (ns : option namespace) : namespace :=
  let ns0 := match ns with Some n => n | None => [] end in
  ns_setdefault "_datetime" ObjDateTimeClass (ns_setdefault "_date" ObjDateClass ns0).

(** The methods of a [dict] object. *)
Definition dict_methods : list string :=
  ["clear"; "copy"; "fromkeys"; "get"; "items"; "keys"; "pop"; "popitem";
   "setdefault"; "update"; "values"].

(** The special attributes of a [dict] object that are methods or strings
    (the list of CPython 3.8; later versions add a few). *)
Definition dict_special_names : list string :=
  ["__contains__"; "__delattr__"; "__delitem__"; "__dir__"; "__doc__"; "__eq__";
   "__format__"; "__ge__"; "__getattribute__"; "__getitem__"; "__gt__";
   "__init__"; "__init_subclass__"; "__iter__"; "__le__"; "__len__"; "__lt__";
   "__ne__"; "__new__"; "__reduce__"; "__reduce_ex__"; "__repr__";
   "__reversed__"; "__setattr__"; "__setitem__"; "__sizeof__"; "__str__";
   "__subclasshook__"].

Definition mem_string (s : string) (l : list string) : bool :=
  existsb (String.eqb s) l.

(** [getattr(namespace, name)] on a namespace that is a [dict]: the
    attributes of the dict object itself, never its items.  [None] stands
    for [AttributeError]. *)
Definition dict_getattr (name : string) : option nsobj :=
  if mem_string name dict_methods then Some ObjOther
  else if String.eqb name "__class__" then Some ObjDictClass
  else if String.eqb name "__hash__" then Some ObjNone
  else if mem_string name dict_special_names then Some ObjOther
  else None.

(** [try: cls = getattr(ns, clsname) except AttributeError: cls = ns.get(clsname)] *)
Definition resolve_class (ns : namespace) (clsname : string) : nsobj :=
  match dict_getattr clsname with
  | Some o => o
  | None => match ns_get clsname ns with Some o => o | None => ObjNone end
  end.

(** An argument of [date] or [datetime] as a C [int]. *)
Definition as_c_int (v : pyval) : result Z :=
  match v with
  | PInt z => if ((-2147483648 <=? z) && (z <=? 2147483647))%bool then Ok z else Raise OverflowError
  | PBool b => Ok (if b then 1 else 0)
  | _ => Raise TypeError
  end.

Definition is_leap (y : Z) : bool :=
  ((y mod 4 =? 0) && (negb (y mod 100 =? 0) || (y mod 400 =? 0)))%bool.

Definition days_in_month (y m : Z) : Z :=
  if m =? 2 then (if is_leap y then 29 else 28)
  else if ((m =? 4) || (m =? 6) || (m =? 9) || (m =? 11))%bool then 30
  else 31.

Definition valid_date (y m d : Z) : bool :=
  ((1 <=? y) && (y <=? 9999) && (1 <=? m) && (m <=? 12) &&
   (1 <=? d) && (d <=? days_in_month y m))%bool.

Definition valid_time (hh mm ss us : Z) : bool :=
  ((0 <=? hh) && (hh <=? 23) && (0 <=? mm) && (mm <=? 59) &&
   (0 <=? ss) && (ss <=? 59) && (0 <=? us) && (us <=? 999999))%bool.

(** Whether the first argument selects the constructors' unpickling path
    (a string holding the pickled state), which is outside the model. *)
Definition pickled_state (n : nat) (args : list pyval) : bool :=
  match args with
  | PStr s :: _ => Nat.eqb (String.length s) n
  | _ => false
  end.

Fixpoint c_ints (args : list pyval) : result (list Z) :=
  match args with
  | [] => Ok []
  | a :: rest => do z <- as_c_int a; do zs <- c_ints rest; Ok (z :: zs)
  end.

(** [date.__new__(date, *args)] *)
Definition date_new (args : list pyval) : result pyval :=
  if pickled_state 4 args then Raise Unmodelled
  else match args with
  | [_; _; _] =>
      do zs <- c_ints args;
      match zs with
      | [y; m; d] => if valid_date y m d then Ok (PDate y m d) else Raise ValueError
      | _ => Raise TypeError
      end
  | _ => Raise TypeError
  end.

(** [datetime.__new__(datetime, *args)]: three to seven integers, and
    possibly a [tzinfo], which can only be [None] here. *)
Definition datetime_new (args : list pyval) : result pyval :=
  if pickled_state 10 args then Raise Unmodelled
  else if (Nat.ltb (List.length args) 3 || Nat.ltb 8 (List.length args))%bool then Raise TypeError
  else
    do zs <- c_ints (firstn 7 args);
    let field (i : nat) := nth i zs 0 in
    if negb (valid_date (field 0%nat) (field 1%nat) (field 2%nat)) then Raise ValueError
    else if negb (valid_time (field 3%nat) (field 4%nat) (field 5%nat) (field 6%nat)) then Raise ValueError
    else match nth_error args 7 with
         | None | Some PNone =>
             Ok (PDateTime (field 0%nat) (field 1%nat) (field 2%nat)
                           (field 3%nat) (field 4%nat) (field 5%nat) (field 6%nat))
         | Some _ => Raise TypeError
         end.

(** [cls.__new__(cls, *args)] *)
Definition class_new (cls : nsobj) (args : list pyval) : result pyval :=
  match cls with
  | ObjDateClass => date_new args
  | ObjDateTimeClass => datetime_new args
  | ObjDictClass => Ok (PDict [])
  | ObjClass c =>
      match args with
      | [] => Ok (PInst c [])
      | _ => if cls_has_init c then Ok (PInst c []) else Raise TypeError
      end
  | ObjOther | ObjNone => Raise TypeError
  end.

(** The arguments [*x] unpacks: the items of a list, the characters of a
    string, the keys of a dict; other objects are not iterable. *)
Definition star_args (x : option pyval) : result (list pyval) :=
  match x with
  | None => Ok []
  | Some (PList xs) => Ok xs
  | Some (PStr s) => Ok (map (fun c => PStr (String c "")) (list_ascii_of_string s))
  | Some (PDict items) =>
      Ok (map (fun kv => match fst kv with KStr s => PStr s | KInt z => PInt z end) items)
  | Some _ => Raise TypeError
  end.

(** [setattr(inst, k, v)]: instances of the modelled classes keep their
    attributes in a [__dict__]; dates, date-times and dicts have none. *)
Fixpoint attr_set (k : string) (v : pyval) (attrs : list (string * pyval)) : list (string * pyval) :=
  match attrs with
  | [] => [(k, v)]
  | (k', v') :: rest =>
      if String.eqb k k' then (k', v) :: rest else (k', v') :: attr_set k v rest
  end.

Definition py_setattr (inst : pyval) (k : string) (v : pyval) : result pyval :=
  match inst with
  | PInst c attrs => Ok (PInst c (attr_set k v attrs))
  | _ => Raise (AttributeError k)
  end.

(** [for k in result: if not k.startswith('__'): setattr(inst, k, result[k])] *)
Fixpoint set_public_attrs (inst : pyval) (state : list (pykey * pyval)) : result pyval :=
  match state with
  | [] => Ok inst
  | (KStr k, v) :: rest =>
      if public_attr k then do inst' <- py_setattr inst k v; set_public_attrs inst' rest
      else set_public_attrs inst rest
  | (KInt _, _) :: _ => Raise (AttributeError "startswith")
  end.

Section Decoder.

(** [self._namespace] *)
Variable ns : namespace.

(** The part of [decode_object] after the pairs are decoded, on a dict. *)
Definition decode_tagged (result0 : list (pykey * pyval)) : result pyval :=
  let result1 := dict_of_pairs result0 in
  let (clsname, result2) := dict_pop (KStr "__class__") result1 in
  match clsname with
  | Some marker =>
      if truthy marker then
        match marker with
        | PStr name =>
            match resolve_class ns name with
            | ObjNone => Raise (NameError name)
            | cls =>
                let (newargs, result3) := dict_pop (KStr "__newargs__") result2 in
                do args <- star_args newargs;
                do inst <- class_new cls args;
                set_public_attrs inst result3
            end
        | _ => Raise TypeError
        end
      else Ok (PDict result2)
  | None => Ok (PDict result2)
  end.

(** [JsonifyDecoder.decode_object] *)
Fixpoint decode_object (obj : pyval) : result pyval :=
  match obj with
  | PList xs =>
      do ys <- (fix pairs (l : list pyval) : result (list pyval) :=
                  match l with
                  | [] => Ok []
                  | val :: rest =>
                      do val' <- match val with
                                 | PDict _ | PList _ => decode_object val
                                 | _ => Ok val
                                 end;
                      do ys <- pairs rest;
                      Ok (val' :: ys)
                  end) xs;
      Ok (PList ys)
  | PDict items =>
      do result0 <- (fix pairs (l : list (pykey * pyval)) : result (list (pykey * pyval)) :=
                       match l with
                       | [] => Ok []
                       | (key, val) :: rest =>
                           do val' <- match val with
                                      | PDict _ | PList _ => decode_object val
                                      | _ => Ok val
                                      end;
                           do ys <- pairs rest;
                           Ok ((key, val') :: ys)
                       end) items;
      decode_tagged result0
  | _ => Raise (UnboundLocalError "pairs")
  end.

End Decoder.

(** The global names of the [jsonify] module when it is imported: the names
    the interpreter sets, the imported modules, the two format strings, the
    three classes and the two functions. *)
Definition Jsonable : pyclass :=
  {| cls_name := "Jsonable"; cls_has_json := true; cls_has_init := false |}.
Definition JsonifyEncoder : pyclass :=
  {| cls_name := "JsonifyEncoder"; cls_has_json := false; cls_has_init := true |}.
Definition JsonifyDecoder : pyclass :=
  {| cls_name := "JsonifyDecoder"; cls_has_json := false; cls_has_init := true |}.

Definition jsonify_globals : namespace :=
  [ ("__name__", ObjOther); ("__doc__", ObjOther); ("__package__", ObjOther);
    ("__loader__", ObjOther); ("__spec__", ObjOther); ("__file__", ObjOther);
    ("__cached__", ObjOther); ("__builtins__", ObjOther);
    ("__all__", ObjOther);
    ("datetime", ObjOther); ("inspect", ObjOther); ("json", ObjOther);
    ("DATETIME_FMT", ObjOther); ("DATE_FMT", ObjOther);
    ("Jsonable", ObjClass Jsonable);
    ("JsonifyEncoder", ObjClass JsonifyEncoder);
    ("JsonifyDecoder", ObjClass JsonifyDecoder);
    ("dumps", ObjOther); ("loads", ObjOther) ].

(** [jsonify.loads(s, namespace=None)]: an omitted namespace is the module's
    [globals()]. *)
Definition loads (s : string) (ns : option namespace) : result pyval :=
  let ns1 := match ns with Some n => n | None => jsonify_globals end in
  json_loads (decode_object (JsonifyDecoder_init (Some ns1))) s.

(** ** Strings and bytes: UTF-8 *)

Definition byte_of_N (n : N) : byte := byte_of_ascii (ascii_of_N n).

(** [str.encode('utf-8')] on the modelled strings: one byte below code
    point 128, two bytes from there to 255. *)
Fixpoint utf8_encode (s : string) : list byte :=
  match s with
  | EmptyString => []
  | String c rest =>
      let n := N_of_ascii c in
      if (n <? 128)%N then byte_of_N n :: utf8_encode rest
      else byte_of_N (192 + n / 64) :: byte_of_N (128 + n mod 64) :: utf8_encode rest
  end.

(** [bytes.decode('utf-8')].  A sequence that is no UTF-8 raises
    [UnicodeDecodeError]; a lead byte above [0xC3] either does the same or
    starts a code point above 255, which the modelled strings do not
    have. *)
Fixpoint utf8_decode (b : list byte) : result string :=
  match b with
  | [] => Ok ""
  | x :: rest =>
      let n := Byte.to_N x in
      if (n <? 128)%N then
        do s <- utf8_decode rest; Ok (String (ascii_of_N n) s)
      else if ((n =? 194) || (n =? 195))%N then
        match rest with
        | y :: rest' =>
            let m := Byte.to_N y in
            if ((128 <=? m) && (m <? 192))%N then
              do s <- utf8_decode rest';
              Ok (String (ascii_of_N ((n - 192) * 64 + (m - 128))) s)
            else Raise UnicodeDecodeError
        | [] => Raise UnicodeDecodeError
        end
      else if ((n <? 194) || (244 <? n))%N then Raise UnicodeDecodeError
      else Raise Unmodelled
  end.

(** ** littledb: the adapters *)

(** A codec: the [from_dict] and [to_dict] methods of an adapter. *)
Record codec : Type := mkcodec {
  from_dict : pyval -> result (list byte);
  to_dict : list byte -> result pyval
}.

(** [JsonAdapter] *)
Definition JsonAdapter_from_dict (obj : pyval) : result (list byte) :=
  do s <- dumps obj; Ok (utf8_encode s).

Definition JsonAdapter_to_dict (data : list byte) : result pyval :=
  do s <- utf8_decode data; loads s None.

Definition JsonAdapter_codec : codec :=
  {| from_dict := JsonAdapter_from_dict; to_dict := JsonAdapter_to_dict |}.

(** The classes built with the metaclass [RegistrableMeta]. *)
Inductive adapter_class : Type :=
| Adapter
| PickleAdapter
| JsonAdapter
| MsgPackAdapter.

Definition adapter_format (cls : adapter_class) : option string :=
  match cls with
  | Adapter => None
  | PickleAdapter => Some "pickle"
  | JsonAdapter => Some "json"
  | MsgPackAdapter => Some "msgpack"
  end.

Definition format_eqb (a b : option string) : bool :=
  match a, b with
  | None, None => true
  | Some s, Some t => String.eqb s t
  | _, _ => false
  end.

(** The registry: an ordered dict from format name to class. *)
Definition registry_t : Type := list (option string * adapter_class).

Fixpoint registry_get (format : option string) (r : registry_t) : option adapter_class :=
  match r with
  | [] => None
  | (f, cls) :: rest => if format_eqb format f then Some cls else registry_get format rest
  end.

Fixpoint registry_set (format : option string) (cls : adapter_class) (r : registry_t) : registry_t :=
  match r with
  | [] => [(format, cls)]
  | (f, c) :: rest =>
      if format_eqb format f then (f, cls) :: rest else (f, c) :: registry_set format cls rest
  end.

(** [RegistrableMeta.__init__]: [cls.registry[cls.format] = cls], run when
    a class statement (or the call that builds [Adapter]) is executed. *)
Definition RegistrableMeta_init (cls : adapter_class) (r : registry_t) : registry_t :=
  registry_set (adapter_format cls) cls r.

(** The registry once the module is loaded: [Adapter], [PickleAdapter],
    [JsonAdapter], and [MsgPackAdapter] when [umsgpack] could be
    imported. *)
Definition registry (have_umsgpack : bool) : registry_t :=
  let r := RegistrableMeta_init JsonAdapter
             (RegistrableMeta_init PickleAdapter
                (RegistrableMeta_init Adapter [])) in
  if have_umsgpack then RegistrableMeta_init MsgPackAdapter r else r.

(** [RegistrableMeta.from_format] *)
Definition from_format (have_umsgpack : bool) (format : option string) : option adapter_class :=
  registry_get format (registry have_umsgpack).

(** Whether instances of the class have [from_dict] and [to_dict]: the
    base class defines neither. *)
Definition has_codec_methods (cls : adapter_class) : bool :=
  match cls with
  | Adapter => false
  | _ => true
  end.

Section Libraries.

(** [pickle.dumps] and [pickle.loads], and [umsgpack.packb] and
    [umsgpack.unpackb] with the extension handlers of [MsgPackAdapter]
    when the library is there. *)
Variable pickle : codec.
Variable umsgpack : option codec.


End Libraries.

(** ** The database under the store *)

Inductive sqlval : Type :=
| SqlNull
| SqlInteger (z : Z)
| SqlText (s : string)
| SqlBlob (b : list byte).

Fixpoint zeros (n : nat) : string :=
  match n with
  | O => ""
  | S m => String "0" (zeros m)
  end.

(** ["%0<width>d" % z] for a number that is not negative. *)
Definition zero_pad (width : nat) (z : Z) : string :=
  let s := string_of_Z z in zeros (width - String.length s) ++ s.

Definition date_isoformat (y m d : Z) : string :=
  zero_pad 4 y ++ "-" ++ zero_pad 2 m ++ "-" ++ zero_pad 2 d.

Definition datetime_isoformat (y m d hh mm ss us : Z) : string :=
  date_isoformat y m d ++ " " ++ zero_pad 2 hh ++ ":" ++ zero_pad 2 mm ++ ":" ++ zero_pad 2 ss
  ++ (if us =? 0 then "" else "." ++ zero_pad 6 us).

(** Binding a Python object to a statement parameter: the types [sqlite3]
    supports, and its default adapters for dates and date-times. *)
Definition bind_parameter (v : pyval) : result sqlval :=
  match v with
  | PNone => Ok SqlNull
  | PBool b => Ok (SqlInteger (if b then 1 else 0))
  | PInt z =>
      if ((- 2 ^ 63 <=? z) && (z <? 2 ^ 63))%bool then Ok (SqlInteger z)
      else Raise OverflowError
  | PStr s => Ok (SqlText s)
  | PBytes b => Ok (SqlBlob b)
  | PDate y m d => Ok (SqlText (date_isoformat y m d))
  | PDateTime y m d hh mm ss us => Ok (SqlText (datetime_isoformat y m d hh mm ss us))
  | PList _ | PDict _ | PInst _ _ => Raise InterfaceError
  end.

(** A column value as the Python object a cursor returns. *)
Definition column_value (c : sqlval) : pyval :=
  match c with
  | SqlNull => PNone
  | SqlInteger z => PInt z
  | SqlText s => PStr s
  | SqlBlob b => PBytes b
  end.

(** A table of [SQL_CREATE_TABLE]: rows of [key] and [content], kept in
    the order of the keys (the table is [WITHOUT ROWID]). *)
Definition table : Type := list (string * sqlval).

(** [DELETE] of the rows with the given key. *)
Fixpoint delete_rows (key : string) (rows : table) : table :=
  match rows with
  | [] => []
  | (k, c) :: rest =>
      if String.eqb key k then delete_rows key rest else (k, c) :: delete_rows key rest
  end.

(** [INSERT] of a row at its place in key order. *)
Fixpoint insert_row (key : string) (content : sqlval) (rows : table) : table :=
  match rows with
  | [] => [(key, content)]
  | (k, c) :: rest =>
      if String.leb key k then (key, content) :: rows
      else (k, c) :: insert_row key content rest
  end.

(** [INSERT OR REPLACE]: the rows that conflict on the primary key are
    deleted, then the new row is inserted. *)
Definition insert_or_replace (key : string) (content : sqlval) (rows : table) : table :=
  insert_row key content (delete_rows key rows).

(** [SELECT content FROM t WHERE key = ?] and [fetchone()]. *)
Fixpoint select_content (key : string) (rows : table) : option sqlval :=
  match rows with
  | [] => None
  | (k, c) :: rest => if String.eqb key k then Some c else select_content key rest
  end.

(** [SELECT key FROM t] *)
Definition select_keys (rows : table) : list string := map fst rows.

(** A database: its tables by name. *)
Definition database : Type := list (string * table).

Fixpoint find_table (name : string) (db : database) : option table :=
  match db with
  | [] => None
  | (n, t) :: rest => if String.eqb name n then Some t else find_table name rest
  end.

Fixpoint update_table (name : string) (t : table) (db : database) : database :=
  match db with
  | [] => []
  | (n, t') :: rest =>
      if String.eqb name n then (n, t) :: rest else (n, t') :: update_table name t rest
  end.

(** [CREATE TABLE IF NOT EXISTS] *)
Definition create_table (name : string) (db : database) : database :=
  match find_table name db with
  | Some _ => db
  | None => (db ++ [(name, [])])%list
  end.

(** ** littledb: the store *)

(** A connection: whether it is open, and the database as the transaction
    in progress has it when there is one ([con.in_transaction]). *)
Record connection : Type := mkcon {
  con_open : bool;
  con_txn : option database
}.

(** A [LittleDB] object for one thread: the file name, the committed
    content of the database, the connection kept in the thread-local
    storage, and the formats whose adapter was instantiated. *)
Record LittleDB : Type := mkdb {
  filename : string;
  disk : database;
  local_connection : option connection;
  _adapters : list (option string * adapter_class)
}.

(** [LittleDB(filename)] *)
Definition LittleDB_init (fname : string) : LittleDB :=
  {| filename := fname; disk := []; local_connection := None; _adapters := [] |}.

(** [sqlite3.connect(filename)]: a database in memory starts empty. *)
Definition connect (self : LittleDB) : LittleDB :=
  {| filename := filename self;
     disk := if String.eqb (filename self) ":memory:" then [] else disk self;
     local_connection := Some {| con_open := true; con_txn := None |};
     _adapters := _adapters self |}.

(** [LittleDB.connection]: the thread's connection if it has one that is
    still open, a new one otherwise. *)
Definition LittleDB_connection (self : LittleDB) : LittleDB :=
  match local_connection self with
  | Some con => if con_open con then self else connect self
  | None => connect self
  end.

Definition in_transaction (self : LittleDB) : bool :=
  match local_connection self with
  | Some con => match con_txn con with Some _ => true | None => false end
  | None => false
  end.

(** The database as the connection sees it. *)
Definition current_db (self : LittleDB) : database :=
  match local_connection self with
  | Some {| con_txn := Some db |} => db
  | _ => disk self
  end.

Definition set_txn (txn : option database) (self : LittleDB) : LittleDB :=
  {| filename := filename self;
     disk := disk self;
     local_connection := Some {| con_open := true; con_txn := txn |};
     _adapters := _adapters self |}.

(** [BEGIN], as [sqlite3] issues it before a data-changing statement when
    no transaction is open. *)
Definition implicit_begin (self : LittleDB) : LittleDB :=
  if in_transaction self then self else set_txn (Some (disk self)) self.

(** [con.commit()] *)
Definition con_commit (self : LittleDB) : LittleDB :=
  match local_connection self with
  | Some {| con_txn := Some db |} =>
      {| filename := filename self;
         disk := db;
         local_connection := Some {| con_open := true; con_txn := None |};
         _adapters := _adapters self |}
  | _ => self
  end.

(** [con.rollback()] *)
Definition con_rollback (self : LittleDB) : LittleDB :=
  match local_connection self with
  | Some {| con_txn := Some _ |} => set_txn None self
  | _ => self
  end.

(** [with con: body]: commit when the body returns, roll back and raise
    again when it raises. *)
Definition with_con {A : Type} (body : LittleDB -> LittleDB * result A) (self : LittleDB)
  : LittleDB * result A :=
  let (self1, r) := body self in
  match r with
  | Ok a => (con_commit self1, Ok a)
  | Raise e => (con_rollback self1, Raise e)
  end.

(** [con.execute(SQL_INSERT_DOCUMENT, (key, data))]: the statement is
    prepared, a transaction is begun if none is open, the parameters are
    bound and the row is written. *)
Definition execute_insert (name key : string) (data : pyval) (self : LittleDB)
  : LittleDB * result unit :=
  match find_table name (current_db self) with
  | None => (self, Raise (OperationalError "no such table"))
  | Some rows =>
      let self1 := implicit_begin self in
      match bind_parameter data with
      | Raise e => (self1, Raise e)
      | Ok content =>
          (set_txn (Some (update_table name (insert_or_replace key content rows)
                                       (current_db self1))) self1,
           Ok tt)
      end
  end.

(** [con.execute(SQL_CREATE_TABLE)]: a schema statement opens no
    transaction; it is written at once unless one is open. *)
Definition execute_create (name : string) (self : LittleDB) : LittleDB * result unit :=
  match local_connection self with
  | Some {| con_txn := Some db |} => (set_txn (Some (create_table name db)) self, Ok tt)
  | _ =>
      ({| filename := filename self;
          disk := create_table name (disk self);
          local_connection := local_connection self;
          _adapters := _adapters self |}, Ok tt)
  end.

(** [LittleDB.begin] *)
Definition LittleDB_begin (self : LittleDB) : LittleDB * result unit :=
  let self1 := LittleDB_connection self in
  if in_transaction self1 then
    (self1, Raise (OperationalError "cannot start a transaction within a transaction"))
  else (set_txn (Some (disk self1)) self1, Ok tt).

(** [LittleDB.commit] *)
Definition LittleDB_commit (self : LittleDB) : LittleDB :=
  con_commit (LittleDB_connection self).

(** [LittleDB.close]: closing a connection drops what was not committed. *)
Definition LittleDB_close (self : LittleDB) : LittleDB :=
  match local_connection self with
  | Some _ =>
      {| filename := filename self;
         disk := disk self;
         local_connection := Some {| con_open := false; con_txn := None |};
         _adapters := _adapters self |}
  | None => self
  end.

(** ** littledb: collections *)

(** A [Collection]: the table name, the format, and the adapter whose
    bound methods are [_from_dict] and [_to_dict].  The store it belongs
    to is the [LittleDB] passed to every operation. *)
Record Collection : Type := mkcoll {
  name : string;
  format : option string;
  adapter : adapter_class
}.

(** [Collection.__init__]: reading [adapter.from_dict] raises
    [AttributeError] on an adapter that has no such method. *)
Definition Collection_init (cname : string) (fmt : option string) (a : adapter_class)
  : result Collection :=
  if has_codec_methods a then Ok {| name := cname; format := fmt; adapter := a |}
  else Raise (AttributeError "from_dict").

Section CollectionMethods.

(** [self._from_dict] and [self._to_dict] *)
Variable self_codec : codec.

(** [Collection.get] *)
Definition Collection_get (self : Collection) (key : string) (db : LittleDB)
  : LittleDB * result pyval :=
  let db1 := LittleDB_connection db in
  match find_table (name self) (current_db db1) with
  | None => (db1, Raise (OperationalError "no such table"))
  | Some rows =>
      match select_content key rows with
      | None => (db1, Raise (KeyError key))
      | Some content =>
          match column_value content with
          | PBytes b => (db1, to_dict self_codec b)
          | val => (db1, Ok val)
          end
      end
  end.

(** [Collection.set] *)
Definition Collection_set (self : Collection) (key : string) (data : pyval) (db : LittleDB)
  : LittleDB * result unit :=
  let db1 := LittleDB_connection db in
  match (match data with
         | PDict _ => do b <- from_dict self_codec data; Ok (PBytes b)
         | _ => Ok data
         end) with
  | Raise e => (db1, Raise e)
  | Ok data1 =>
      if in_transaction db1 then execute_insert (name self) key data1 db1
      else with_con (execute_insert (name self) key data1) db1
  end.

(** [Collection.keys] *)
Definition Collection_keys (self : Collection) (db : LittleDB)
  : LittleDB * result (list string) :=
  let db1 := LittleDB_connection db in
  match find_table (name self) (current_db db1) with
  | None => (db1, Raise (OperationalError "no such table"))
  | Some rows => (db1, Ok (select_keys rows))
  end.

End CollectionMethods.

(** [Collection.begin] and [Collection.commit] *)
Definition Collection_begin (self : Collection) (db : LittleDB) : LittleDB * result unit :=
  LittleDB_begin db.

Definition Collection_commit (self : Collection) (db : LittleDB) : LittleDB :=
  con_commit (LittleDB_connection db).

(** ['{}'.format(format)] *)
Definition format_text (fmt : option string) : string :=
  match fmt with
  | Some f => f
  | None => "None"
  end.

(** [LittleDB.get_collection].  The local variable [adapter] is bound only
    when the format is not yet in [self._adapters]. *)
Definition LittleDB_get_collection (have_umsgpack : bool) (self : LittleDB)
    (cname : string) (fmt : option string) : LittleDB * result Collection :=
  let lookup :=
    match registry_get fmt (_adapters self) with
    | Some _ => Ok (self, None)
    | None =>
        match from_format have_umsgpack fmt with
        | None =>
            Raise (NotImplementedError
                     ("No adapter found for format '" ++ format_text fmt ++ "'."))
        | Some cls =>
            Ok ({| filename := filename self;
                   disk := disk self;
                   local_connection := local_connection self;
                   _adapters := registry_set fmt cls (_adapters self) |}, Some cls)
        end
    end in
  match lookup with
  | Raise e => (self, Raise e)
  | Ok (self1, adapter_var) =>
      let (self2, _) := with_con (execute_create cname) (LittleDB_connection self1) in
      match adapter_var with
      | None => (self2, Raise (UnboundLocalError "adapter"))
      | Some a => (self2, Collection_init cname fmt a)
      end
  end.

(** ** littledb: the date handlers of [MsgPackAdapter] *)

(** [umsgpack.Ext]: the code of an application type and its data. *)
Record Ext : Type := mkExt {
  ext_type : Z;
  ext_data : list byte
}.

(** [obj.isoformat()]: a date-time, which is a date too, puts a [T] and
    the time after the date. *)
Definition isoformat (obj : pyval) : result string :=
  match obj with
  | PDate y m d => Ok (date_isoformat y m d)
  | PDateTime y m d hh mm ss us =>
      Ok (date_isoformat y m d ++ "T" ++ zero_pad 2 hh ++ ":" ++ zero_pad 2 mm ++ ":"
          ++ zero_pad 2 ss ++ (if us =? 0 then "" else "." ++ zero_pad 6 us))
  | _ => Raise (AttributeError "isoformat")
  end.

(** [MsgPackAdapter.from_date] *)
Definition MsgPackAdapter_from_date (date : pyval) : result Ext :=
  do s <- isoformat date; Ok {| ext_type := 16; ext_data := utf8_encode s |}.

(** [data.split(sep)] on bytes, for a separator of one byte. *)
Fixpoint bytes_split (sep : byte) (data : list byte) : list (list byte) :=
  match data with
  | [] => [[]]
  | x :: rest =>
      if Byte.eqb x sep then [] :: bytes_split sep rest
      else match bytes_split sep rest with
           | field :: fields => (x :: field) :: fields
           | [] => [[x]]
           end
  end.

(** The white space [int] skips around a number. *)
Definition py_isspace (c : ascii) : bool :=
  let n := N_of_ascii c in ((n =? 32) || ((9 <=? n) && (n <=? 13)))%N.

Fixpoint lstrip (s : string) : string :=
  match s with
  | String c rest => if py_isspace c then lstrip rest else s
  | EmptyString => s
  end.

Fixpoint rstrip (s : string) : string :=
  match s with
  | String c rest =>
      match rstrip rest with
      | EmptyString => if py_isspace c then EmptyString else String c EmptyString
      | rest' => String c rest'
      end
  | EmptyString => EmptyString
  end.

(** The underscores of a number: one at a time, between two digits. *)
Fixpoint drop_underscores (after_digit : bool) (s : string) : option string :=
  match s with
  | EmptyString => Some EmptyString
  | String c rest =>
      if Ascii.eqb c "_" then
        if after_digit then
          match rest with
          | String c2 _ => if is_digit c2 then drop_underscores false rest else None
          | EmptyString => None
          end
        else None
      else
        match drop_underscores (is_digit c) rest with
        | Some r => Some (String c r)
        | None => None
        end
  end.

(** [int(data)] on bytes: white space, a sign, decimal digits, white
    space.  A text of more than 4300 digits is turned down by the later
    versions of the interpreter only, and is not modelled. *)
Definition int_of_bytes (data : list byte) : result Z :=
  let s := lstrip (string_of_list_byte data) in
  let signed :=
    match s with
    | String c rest =>
        if Ascii.eqb c "-" then (true, rest)
        else if Ascii.eqb c "+" then (false, rest)
        else (false, s)
    | EmptyString => (false, s)
    end in
  match drop_underscores false (rstrip (snd signed)) with
  | None => Raise ValueError
  | Some digits =>
      match scan_digits digits with
      | (Decimal.Nil, _) => Raise ValueError
      | (u, EmptyString) =>
          if Nat.ltb 4300 (String.length digits) then Raise Unmodelled
          else Ok (if fst signed then - Z.of_uint u else Z.of_uint u)
      | (_, String _ _) => Raise ValueError
      end
  end.

(** [(int(v) for v in fields)], as the call that unpacks it reads it. *)
Fixpoint ints_of_bytes (fields : list (list byte)) : result (list pyval) :=
  match fields with
  | [] => Ok []
  | v :: rest => do z <- int_of_bytes v; do zs <- ints_of_bytes rest; Ok (PInt z :: zs)
  end.

(** [MsgPackAdapter.to_date] *)
Definition MsgPackAdapter_to_date (ext : Ext) : result pyval :=
  do args <- ints_of_bytes (bytes_split "-"%byte (ext_data ext)); date_new args.

(** ** tests/dbtest.py: the benchmark client of the store

    [LittleDBTest] keeps the store in [self._conn] and the collection
    [get_db] returned in [self._db]; the store is the [LittleDB] passed to
    every method here.  The clock of the decorator [timed] is not part of
    the model: a timed method is its body. *)


Section DBTest.

(** The codec of [self.format] and the collection [self._db]. *)
Variable self_codec : codec.
Variable _db : Collection.

(** [DBTest.write]: [self._db[k] = v], and [__setitem__] is [set]. *)
Definition DBTest_write (k : string) (v : pyval) (conn : LittleDB) : LittleDB * result unit :=
  Collection_set self_codec _db k v conn.

(** [DBTest.read]: [return self._db[k]], and [__getitem__] is [get]. *)
Definition DBTest_read (k : string) (conn : LittleDB) : LittleDB * result pyval :=
  Collection_get self_codec _db k conn.

(** [LittleDBTest.begin], [commit] and [close] *)
Definition LittleDBTest_begin (conn : LittleDB) : LittleDB * result unit :=
  LittleDB_begin conn.

Definition LittleDBTest_commit (conn : LittleDB) : LittleDB :=
  LittleDB_commit conn.

Definition LittleDBTest_close (conn : LittleDB) : LittleDB :=
  LittleDB_close conn.

(** [for i, v in enumerate(iter): self.write(str(i), v)], from the index
    [i] on. *)
Fixpoint write_each (i : Z) (vals : list pyval) (conn : LittleDB) : LittleDB * result unit :=
  match vals with
  | [] => (conn, Ok tt)
  | v :: rest =>
      let (conn1, r) := DBTest_write (string_of_Z i) v conn in
      match r with
      | Ok _ => write_each (i + 1) rest conn1
      | Raise e => (conn1, Raise e)
      end
  end.

(** [DBTest.test_writes] *)
Definition DBTest_test_writes (vals : list pyval) (conn : LittleDB) : LittleDB * result unit :=
  let (conn1, r) := LittleDBTest_begin conn in
  match r with
  | Raise e => (conn1, Raise e)
  | Ok _ =>
      let (conn2, r2) := write_each 0 vals conn1 in
      match r2 with
      | Raise e => (conn2, Raise e)
      | Ok _ => (LittleDBTest_commit conn2, Ok tt)
      end
  end.

End DBTest.

(** * The vocabulary of the properties *)

(** ** Stores and collections *)

(** The formats a store has instantiated are formats of the registry:
    [get_collection] is the only writer of [_adapters]. *)
Definition adapters_registered (have_umsgpack : bool) (self : LittleDB) : Prop :=
  forall f c, registry_get f (_adapters self) = Some c -> from_format have_umsgpack f = Some c.

(** What [set] hands to the database: the encoded bytes of a dict, any
    other object as it is, bound as a statement parameter. *)
Definition stored_content (c : codec) (data : pyval) : result sqlval :=
  do data1 <- match data with
              | PDict _ => do b <- from_dict c data; Ok (PBytes b)
              | _ => Ok data
              end;
  bind_parameter data1.

(** What [get] returns for a stored content. *)
Definition loaded_value (c : codec) (content : sqlval) : result pyval :=
  match column_value content with
  | PBytes b => to_dict c b
  | val => Ok val
  end.


(** The operations a client performs on a collection. *)
Inductive collection_op : Type :=
| OpSet (key : string) (data : pyval)
| OpGet (key : string)
| OpKeys
| OpBegin
| OpCommit.

Definition run_op (c : codec) (self : Collection) (db : LittleDB) (op : collection_op)
  : LittleDB :=
  match op with
  | OpSet key data => fst (Collection_set c self key data db)
  | OpGet key => fst (Collection_get c self key db)
  | OpKeys => fst (Collection_keys self db)
  | OpBegin => fst (Collection_begin self db)
  | OpCommit => Collection_commit self db
  end.

Definition run_ops (c : codec) (self : Collection) (ops : list collection_op) (db : LittleDB)
  : LittleDB :=
  fold_left (run_op c self) ops db.




(** A collection of JSON documents in a new store, for the examples. *)
Definition documents : Collection :=
  {| name := "documents"; format := Some "json"; adapter := JsonAdapter |}.

Definition documents_db : LittleDB :=
  fst (LittleDB_get_collection false (LittleDB_init ":memory:") "documents" (Some "json")).

Definition table_exists (self : Collection) (db : LittleDB) : Prop :=
  find_table (name self) (current_db (LittleDB_connection db)) <> None.

(** The values a collection gives back as they were stored: [None], an
    integer that fits SQLite's 64 bits, a string, and a dict that the
    collection's codec encodes and decodes to itself. *)
Inductive kept (c : codec) : pyval -> Prop :=
| kept_none : kept c PNone
| kept_int (z : Z) : - 2 ^ 63 <= z < 2 ^ 63 -> kept c (PInt z)
| kept_str (s : string) : kept c (PStr s)
| kept_dict (items : list (pykey * pyval)) (b : list byte) :
    from_dict c (PDict items) = Ok b ->
    to_dict c b = Ok (PDict items) ->
    kept c (PDict items).

(** The document of the specification's scenario. *)
Definition doc1 : pyval :=
  PDict [(KStr "id", PInt 42); (KStr "today", PDate 2020 1 1)].

(** ** Documents and their text *)

(** What [strftime] gives for the two formats the module defines and the
    specification names; the encoder does not call it. *)
Definition strftime_date (y m d : Z) : string :=
  zero_pad 4 y ++ zero_pad 2 m ++ zero_pad 2 d.

Definition strftime_datetime (y m d hh mm ss us : Z) : string :=
  strftime_date y m d ++ "T" ++ zero_pad 2 hh ++ ":" ++ zero_pad 2 mm ++ ":" ++ zero_pad 2 ss
  ++ "." ++ zero_pad 6 us.

(** The text after a value inside a document: nothing, or a separator or a
    closing bracket. *)
Definition delimited (rest : string) : Prop :=
  match rest with
  | EmptyString => True
  | String c _ => c = ","%char \/ c = "]"%char \/ c = "}"%char
  end.

(** The items and the members of [json_text], by name. *)
Fixpoint items_text (l : list json) : string :=
  match l with
  | [] => "]"
  | x :: rest => json_text x ++ match rest with [] => "]" | _ => ", " ++ items_text rest end
  end.

Fixpoint members_text (l : list (string * json)) : string :=
  match l with
  | [] => "}"
  | (k, v) :: rest =>
      quote_string k ++ ": " ++ json_text v ++
      match rest with [] => "}" | _ => ", " ++ members_text rest end
  end.

(** The number of values and of list positions of a document: fuel enough
    to read its text. *)
Fixpoint jsize (t : json) : nat :=
  match t with
  | JArr xs =>
      S ((fix go (l : list json) : nat :=
            match l with [] => O | x :: r => S (jsize x + go r) end) xs)
  | JObj ms =>
      S ((fix go (l : list (string * json)) : nat :=
            match l with [] => O | (_, v) :: r => S (jsize v + go r) end) ms)
  | _ => 1%nat
  end.

Fixpoint items_size (l : list json) : nat :=
  match l with [] => O | x :: r => S (jsize x + items_size r) end.

Fixpoint members_size (l : list (string * json)) : nat :=
  match l with [] => O | (_, v) :: r => S (jsize v + members_size r) end.

(** The two loops of [py_of_json], by name. *)
Section NamedLoops.

Variable hook : pyval -> result pyval.

Fixpoint py_of_items (l : list json) : result (list pyval) :=
  match l with
  | [] => Ok []
  | x :: rest => do y <- py_of_json hook x; do ys <- py_of_items rest; Ok (y :: ys)
  end.

Fixpoint py_of_members (l : list (string * json)) : result (list (string * pyval)) :=
  match l with
  | [] => Ok []
  | (k, v) :: rest =>
      do y <- py_of_json hook v; do ps <- py_of_members rest; Ok ((k, y) :: ps)
  end.

End NamedLoops.

(** The first character of a value's text: it is no white space and
    closes nothing. *)
Definition value_start (c : ascii) : bool :=
  negb (is_ws c) && negb (Ascii.eqb c "]") && negb (Ascii.eqb c "}").

(** What reading the text of a document gives, for fuel [fuel]. *)
Definition reads_back (hook : pyval -> result pyval) (t : json) : Prop :=
  forall (fuel : nat) (rest : string),
    (jsize t <= fuel)%nat -> delimited rest ->
    parse_value hook fuel (json_text t ++ rest)
    = (do v <- py_of_json hook t; Ok (v, rest)).

(** ** Decoded values *)

(** No key occurs twice. *)
Fixpoint unique_keys {V : Type} (d : list (pykey * V)) : bool :=
  match d with
  | [] => true
  | (k, _) :: rest =>
      match dict_get k rest with
      | None => unique_keys rest
      | Some _ => false
      end
  end.

(** The two loops of [decode_object], by name. *)
Definition decode_value (ns : namespace) (val : pyval) : result pyval :=
  match val with
  | PDict _ | PList _ => decode_object ns val
  | _ => Ok val
  end.

Fixpoint decode_values (ns : namespace) (l : list pyval) : result (list pyval) :=
  match l with
  | [] => Ok []
  | val :: rest =>
      do val' <- decode_value ns val; do ys <- decode_values ns rest; Ok (val' :: ys)
  end.

Fixpoint decode_items (ns : namespace) (l : list (pykey * pyval))
  : result (list (pykey * pyval)) :=
  match l with
  | [] => Ok []
  | (key, val) :: rest =>
      do val' <- decode_value ns val; do ys <- decode_items ns rest; Ok ((key, val') :: ys)
  end.

(** A value is settled when no dict in it, through lists and dicts,
    carries the marker key or repeats a key: what [decode_object] has
    already worked on. *)
Fixpoint settled (v : pyval) : Prop :=
  match v with
  | PList xs =>
      (fix all (l : list pyval) : Prop :=
         match l with [] => True | x :: r => settled x /\ all r end) xs
  | PDict items =>
      (fix all (l : list (pykey * pyval)) : Prop :=
         match l with [] => True | (_, x) :: r => settled x /\ all r end) items
      /\ unique_keys items = true
      /\ dict_get (KStr "__class__") items = None
  | _ => True
  end.

Fixpoint all_settled (l : list pyval) : Prop :=
  match l with [] => True | x :: r => settled x /\ all_settled r end.

Fixpoint items_settled (l : list (pykey * pyval)) : Prop :=
  match l with [] => True | (_, x) :: r => settled x /\ items_settled r end.

(** The objects [cls.__new__] makes. *)
Definition atomic (v : pyval) : Prop :=
  match v with
  | PDate _ _ _ | PDateTime _ _ _ _ _ _ _ | PInst _ _ | PDict [] => True
  | _ => False
  end.

(** The dict the decoder builds from the decoded members of an object, and
    its marker. *)
Definition members_dict (ps : list (string * pyval)) : list (pykey * pyval) :=
  dict_of_pairs (map (fun kv => (KStr (fst kv), snd kv)) ps).

Definition marker_of (ps : list (string * pyval)) : option pyval :=
  dict_get (KStr "__class__") (members_dict ps).

Definition default_namespace : namespace := JsonifyDecoder_init (Some jsonify_globals).

(** The names that resolve to a class in the default namespace. *)
Definition default_classes : list string :=
  ["_date"; "_datetime"; "Jsonable"; "JsonifyEncoder"; "JsonifyDecoder"; "__class__"].






Fixpoint to_members (l : list (pykey * pyval)) : result (list (string * json)) :=
  match l with
  | [] => Ok []
  | (k, x) :: rest =>
      do y <- to_json x; do ms <- to_members rest; Ok ((key_text k, y) :: ms)
  end.

(** The loop of [to_json] over the attributes of an instance, by name. *)
Fixpoint to_attrs (l : list (string * pyval)) : result (list (string * json)) :=
  match l with
  | [] => Ok []
  | (a, x) :: rest =>
      if public_attr a then
        do y <- to_json x; do ms <- to_attrs rest; Ok ((a, y) :: ms)
      else to_attrs rest
  end.


(** ** Histories of writes, stores in files, instances and texts *)

(** The keys of a list are in strictly ascending order (by code point, the
    order of SQLite's [BINARY] collation on the modelled strings). *)
Fixpoint ascending (ks : list string) : bool :=
  match ks with
  | k :: rest =>
      match rest with
      | k' :: _ => String.ltb k k' && ascending rest
      | [] => true
      end
  | [] => true
  end.

(** A client that writes items one after the other,
    [for k, v in kvs: coll[k] = v]; the first error ends the loop. *)
Fixpoint set_items (c : codec) (self : Collection) (kvs : list (string * pyval))
    (db : LittleDB) : LittleDB * result unit :=
  match kvs with
  | [] => (db, Ok tt)
  | (k, v) :: rest =>
      let (db1, r) := Collection_set c self k v db in
      match r with
      | Ok _ => set_items c self rest db1
      | Raise e => (db1, Raise e)
      end
  end.

(** The store keeps its database in a file: the name is neither SQLite's
    name for a database in memory nor the empty name of a temporary
    database, both private to one connection. *)
Definition file_backed (db : LittleDB) : Prop :=
  filename db <> ":memory:" /\ filename db <> "".

(** A collection of JSON documents in a new store kept in a file. *)
Definition documents_file_db : LittleDB :=
  fst (LittleDB_get_collection false (LittleDB_init "plapper.db") "documents" (Some "json")).

(** The table names [SQL_CREATE_TABLE] can be formatted with: between the
    double quotes of the statement the name is one identifier when it holds
    no double quote and no NUL character, and SQLite reserves the names
    that start with [sqlite_], in any case of the letters. *)
Definition lower (c : ascii) : ascii :=
  let n := N_of_ascii c in
  if ((65 <=? n) && (n <=? 90))%N then ascii_of_N (n + 32) else c.

Fixpoint lower_string (s : string) : string :=
  match s with
  | EmptyString => EmptyString
  | String c rest => String (lower c) (lower_string rest)
  end.

Definition table_name_ok (n : string) : bool :=
  negb (existsb (fun c => Ascii.eqb c dquote || Ascii.eqb c zero)%bool
          (list_ascii_of_string n))
  && negb (String.prefix "sqlite_" (lower_string n)).



(** A namespace (a dict) that leaves the two built-in names to the
    decoder. *)
Definition keeps_builtin_names (ns : namespace) : Prop :=
  ns_get "_date" ns = None /\ ns_get "_datetime" ns = None.


(** The class of the example at the end of [jsonify]. *)
Definition Bunch : pyclass :=
  {| cls_name := "Bunch"; cls_has_json := true; cls_has_init := true |}.

(** The text of a tagged date with the given arguments. *)
Definition date_text (y m d : Z) : string :=
  json_text (JObj [ ("__class__", JStr "_date");
                    ("__newargs__", JArr [JInt y; JInt m; JInt d]) ]).

(** The text of a number in decimal digits, zeros in front or not. *)
Definition digit_text (s : string) : bool :=
  forallb is_digit (list_ascii_of_string s).

(** A text of ASCII characters only. *)
Definition ascii_text (s : string) : bool :=
  forallb (fun c => (N_of_ascii c <? 128)%N) (list_ascii_of_string s).





(** The value of the last item a client wrote under a key. *)
Fixpoint last_value (k : string) (kvs : list (string * pyval)) : option pyval :=
  match kvs with
  | [] => None
  | (k', v) :: rest =>
      match last_value k rest with
      | Some w => Some w
      | None => if String.eqb k k' then Some v else None
      end
  end.

(** * Properties *)

(** ** Results, strings and small facts used throughout *)

Lemma bind_ok {A B : Type} (r : result A) (k : A -> result B) (b : B) :
  bind r k = Ok b -> exists a, r = Ok a /\ k a = Ok b.
Proof.
  destruct r as [a|e]; simpl; intro H.
  - exists a; split; [reflexivity | exact H].
  - discriminate H.
Qed.

Lemma pykey_eqb_refl (k : pykey) : pykey_eqb k k = true.
Proof.
  destruct k as [s|z]; simpl.
  - apply String.eqb_refl.
  - apply Z.eqb_refl.
Qed.

Lemma pykey_eqb_eq (a b : pykey) : pykey_eqb a b = true <-> a = b.
Proof.
  destruct a as [s|x], b as [t|y]; simpl; split; intro H; try discriminate.
  - apply String.eqb_eq in H; congruence.
  - inversion H; apply String.eqb_refl.
  - apply Z.eqb_eq in H; congruence.
  - inversion H; apply Z.eqb_refl.
Qed.

Lemma format_eqb_refl (f : option string) : format_eqb f f = true.
Proof. destruct f as [s|]; simpl; [apply String.eqb_refl | reflexivity]. Qed.

Lemma format_eqb_eq (a b : option string) : format_eqb a b = true <-> a = b.
Proof.
  destruct a as [s|], b as [t|]; simpl; split; intro H; try discriminate; try reflexivity.
  - apply String.eqb_eq in H; congruence.
  - inversion H; apply String.eqb_refl.
Qed.

(** ** The registry and [get_collection] *)

Lemma registry_get_set_same (f : option string) (c : adapter_class) (r : registry_t) :
  registry_get f (registry_set f c r) = Some c.
Proof.
  induction r as [|[f' c'] r IH]; simpl.
  - now rewrite format_eqb_refl.
  - destruct (format_eqb f f') eqn:E; simpl; rewrite E; [reflexivity | exact IH].
Qed.

Lemma registry_get_set_other (f g : option string) (c : adapter_class) (r : registry_t) :
  format_eqb g f = false ->
  registry_get g (registry_set f c r) = registry_get g r.
Proof.
  intro Hgf. induction r as [|[f' c'] r IH]; simpl.
  - now rewrite Hgf.
  - destruct (format_eqb f f') eqn:E; simpl.
    + apply format_eqb_eq in E; subst f'. now rewrite Hgf.
    + destruct (format_eqb g f'); [reflexivity | exact IH].
Qed.

Lemma adapters_registered_init (have_umsgpack : bool) (fname : string) :
  adapters_registered have_umsgpack (LittleDB_init fname).
Proof. intros f c H; discriminate H. Qed.

Lemma find_table_create (n : string) (db : database) :
  find_table n (create_table n db) <> None.
Proof.
  unfold create_table. destruct (find_table n db) eqn:E.
  - rewrite E; discriminate.
  - clear E. induction db as [|[m t] db IH]; simpl.
    + rewrite String.eqb_refl; discriminate.
    + destruct (String.eqb n m); [discriminate | exact IH].
Qed.

(** What the [with] block of [get_collection] leaves behind: the table
    exists in the committed database, no transaction is open, and the
    adapters are untouched. *)
Lemma create_committed (cname : string) (st : LittleDB) :
  let st' := fst (with_con (execute_create cname) (LittleDB_connection st)) in
  find_table cname (disk st') <> None /\
  current_db st' = disk st' /\
  in_transaction st' = false /\
  _adapters st' = _adapters st.
Proof.
  destruct st as [fn dk [[op [tx|]]|] ad]; try destruct op;
    cbn; repeat split; try reflexivity; apply find_table_create.
Qed.

Lemma get_collection_adapters (have_umsgpack : bool) (self : LittleDB)
    (cname : string) (fmt : option string) :
  adapters_registered have_umsgpack self ->
  adapters_registered have_umsgpack
    (fst (LittleDB_get_collection have_umsgpack self cname fmt)).
Proof.
  intro Hinv. unfold LittleDB_get_collection.
  destruct (registry_get fmt (_adapters self)) eqn:Hc.
  - pose proof (create_committed cname self) as (_ & _ & _ & Had).
    destruct (with_con (execute_create cname) (LittleDB_connection self)) as [s2 r2].
    simpl in *. intros f c H. apply Hinv. now rewrite <- Had.
  - destruct (from_format have_umsgpack fmt) as [cls|] eqn:Hf; [|exact Hinv].
    set (self1 := {| filename := filename self; disk := disk self;
                     local_connection := local_connection self;
                     _adapters := registry_set fmt cls (_adapters self) |}).
    pose proof (create_committed cname self1) as (_ & _ & _ & Had).
    destruct (with_con (execute_create cname) (LittleDB_connection self1)) as [s2 r2].
    simpl in Had.
    assert (Hs2 : adapters_registered have_umsgpack s2).
    { intros f c H. rewrite Had in H.
      destruct (format_eqb f fmt) eqn:E.
      - apply format_eqb_eq in E; subst f.
        rewrite registry_get_set_same in H. congruence.
      - rewrite registry_get_set_other in H by exact E. now apply Hinv. }
    destruct (Collection_init cname fmt cls); exact Hs2.
Qed.

(** C5.  For every store whose cached adapters come from the registry (as
    they do in every store [get_collection] has worked on), every table
    name and every format that the registry does not hold,
    [get_collection] raises [NotImplementedError] -- the store's
    "format not found" -- and returns the store as it was: no connection
    is opened and no table is created. *)
Theorem C5_unregistered_format_raises (have_umsgpack : bool) (self : LittleDB)
    (cname : string) (fmt : option string) :
  adapters_registered have_umsgpack self ->
  from_format have_umsgpack fmt = None ->
  LittleDB_get_collection have_umsgpack self cname fmt
  = (self, Raise (NotImplementedError
                    ("No adapter found for format '" ++ format_text fmt ++ "'."))).
Proof.
  intros Hinv Hnone. unfold LittleDB_get_collection.
  destruct (registry_get fmt (_adapters self)) as [c|] eqn:Hc.
  - apply Hinv in Hc. congruence.
  - now rewrite Hnone.
Qed.

Lemma C5_unregistered_format_witness :
  LittleDB_get_collection false (LittleDB_init ":memory:") "documents" (Some "msgpack")
  = (LittleDB_init ":memory:",
     Raise (NotImplementedError "No adapter found for format 'msgpack'.")).
Proof.
  apply (C5_unregistered_format_raises false (LittleDB_init ":memory:") "documents" (Some "msgpack")).
  - apply adapters_registered_init.
  - reflexivity.
Defined.




(** ** Tables *)

Lemma string_compare_refl (s : string) : String.compare s s = Eq.
Proof.
  induction s as [|a s IH]; simpl; [reflexivity|].
  unfold Ascii.compare. now rewrite N.compare_refl.
Qed.

Lemma string_leb_refl (s : string) : String.leb s s = true.
Proof. unfold String.leb. now rewrite string_compare_refl. Qed.

Lemma select_delete_same (key : string) (rows : table) :
  select_content key (delete_rows key rows) = None.
Proof.
  induction rows as [|[k c] rows IH]; simpl; [reflexivity|].
  destruct (String.eqb key k) eqn:E; [exact IH|]. simpl. now rewrite E.
Qed.

Lemma select_delete_other (key k' : string) (rows : table) :
  k' <> key ->
  select_content k' (delete_rows key rows) = select_content k' rows.
Proof.
  intro Hne. induction rows as [|[k c] rows IH]; simpl; [reflexivity|].
  destruct (String.eqb key k) eqn:E.
  - apply String.eqb_eq in E; subst k.
    apply String.eqb_neq in Hne. now rewrite Hne.
  - simpl. destruct (String.eqb k' k); [reflexivity | exact IH].
Qed.

Lemma select_insert_same (key : string) (c : sqlval) (rows : table) :
  select_content key (insert_row key c rows) = Some c.
Proof.
  induction rows as [|[k c'] rows IH]; simpl.
  - now rewrite String.eqb_refl.
  - destruct (String.leb key k) eqn:L; simpl.
    + now rewrite String.eqb_refl.
    + destruct (String.eqb key k) eqn:E; [|exact IH].
      apply String.eqb_eq in E; subst k. rewrite string_leb_refl in L. discriminate L.
Qed.

Lemma select_insert_other (key k' : string) (c : sqlval) (rows : table) :
  k' <> key ->
  select_content k' (insert_row key c rows) = select_content k' rows.
Proof.
  intro Hne. apply String.eqb_neq in Hne.
  induction rows as [|[k c'] rows IH]; simpl.
  - now rewrite Hne.
  - destruct (String.leb key k); simpl.
    + now rewrite Hne.
    + destruct (String.eqb k' k); [reflexivity | exact IH].
Qed.

Lemma select_replace_same (key : string) (c : sqlval) (rows : table) :
  select_content key (insert_or_replace key c rows) = Some c.
Proof. apply select_insert_same. Qed.

Lemma select_replace_other (key k' : string) (c : sqlval) (rows : table) :
  k' <> key ->
  select_content k' (insert_or_replace key c rows) = select_content k' rows.
Proof.
  intro Hne. unfold insert_or_replace.
  rewrite select_insert_other by exact Hne. now apply select_delete_other.
Qed.

Lemma count_keys_delete (key : string) (rows : table) :
  count_occ string_dec (select_keys (delete_rows key rows)) key = 0%nat.
Proof.
  induction rows as [|[k c] rows IH]; simpl; [reflexivity|].
  destruct (String.eqb key k) eqn:E; [exact IH|].
  simpl. destruct (string_dec k key) as [->|_]; [|exact IH].
  rewrite String.eqb_refl in E. discriminate E.
Qed.

Lemma count_keys_insert (key : string) (c : sqlval) (rows : table) :
  count_occ string_dec (select_keys (insert_row key c rows)) key
  = S (count_occ string_dec (select_keys rows) key).
Proof.
  induction rows as [|[k c'] rows IH]; simpl.
  - destruct (string_dec key key); [reflexivity | contradiction].
  - destruct (String.leb key k); simpl.
    + destruct (string_dec key key); [reflexivity | contradiction].
    + destruct (string_dec k key); rewrite IH; reflexivity.
Qed.

(** After [INSERT OR REPLACE] the key is in the table exactly once,
    whatever the table held. *)
Lemma count_keys_replace (key : string) (c : sqlval) (rows : table) :
  count_occ string_dec (select_keys (insert_or_replace key c rows)) key = 1%nat.
Proof.
  unfold insert_or_replace. now rewrite count_keys_insert, count_keys_delete.
Qed.

Lemma find_update_same (n : string) (t t0 : table) (db : database) :
  find_table n db = Some t0 ->
  find_table n (update_table n t db) = Some t.
Proof.
  induction db as [|[m t'] db IH]; simpl; [discriminate|].
  destruct (String.eqb n m) eqn:E; simpl; rewrite E; [reflexivity | exact IH].
Qed.

(** ** Connections and transactions *)

Lemma connection_shape (db : LittleDB) :
  exists dk tx,
    LittleDB_connection db
    = {| filename := filename db; disk := dk;
         local_connection := Some {| con_open := true; con_txn := tx |};
         _adapters := _adapters db |}.
Proof.
  destruct db as [fn dk [[[|] tx]|] ad]; cbn; do 2 eexists; reflexivity.
Qed.


Section CollectionFacts.

Variable c : codec.
Variable self : Collection.

(** [set] on an existing table with a value that can be stored: the call
    returns, the connection stays the thread's connection, and the table
    is the old one with the row replaced. *)
Lemma Collection_set_ok (key : string) (data : pyval) (db : LittleDB)
    (rows : table) (content : sqlval) :
  find_table (name self) (current_db (LittleDB_connection db)) = Some rows ->
  stored_content c data = Ok content ->
  exists db2,
    Collection_set c self key data db = (db2, Ok tt) /\
    LittleDB_connection db2 = db2 /\
    in_transaction db2 = in_transaction (LittleDB_connection db) /\
    find_table (name self) (current_db db2) = Some (insert_or_replace key content rows).
Proof.
  intros Hfind Hst. unfold Collection_set.
  destruct (connection_shape db) as (dk & tx & E). rewrite E in *. clear E.
  unfold stored_content in Hst. apply bind_ok in Hst. destruct Hst as (data1 & Hd & Hb).
  rewrite Hd.
  destruct tx as [d|]; cbn in Hfind |- *.
  - unfold execute_insert. cbn. rewrite Hfind, Hb. cbn.
    eexists; repeat split. cbn. eapply find_update_same; eauto.
  - unfold with_con, execute_insert. cbn. rewrite Hfind, Hb. cbn.
    eexists; repeat split. cbn. eapply find_update_same; eauto.
Qed.

Lemma Collection_get_row (key : string) (db : LittleDB) (rows : table) (content : sqlval) :
  find_table (name self) (current_db (LittleDB_connection db)) = Some rows ->
  select_content key rows = Some content ->
  Collection_get c self key db = (LittleDB_connection db, loaded_value c content).
Proof.
  intros Hfind Hsel. unfold Collection_get, loaded_value. rewrite Hfind, Hsel.
  destruct (column_value content); reflexivity.
Qed.

End CollectionFacts.


(** ** Histories of a collection *)

Lemma Collection_get_state (c : codec) (self : Collection) (key : string) (db : LittleDB) :
  fst (Collection_get c self key db) = LittleDB_connection db.
Proof.
  unfold Collection_get.
  destruct (find_table (name self) (current_db (LittleDB_connection db))) as [rs|];
    [destruct (select_content key rs) as [ct|]; [destruct (column_value ct)|] |];
    reflexivity.
Qed.






(** ** [set] followed by [get] *)

Lemma kept_stored (c : codec) (v : pyval) :
  kept c v ->
  exists content, stored_content c v = Ok content /\ loaded_value c content = Ok v.
Proof.
  intros [|z Hz|s|items b Hf Ht]; unfold stored_content, loaded_value;
    cbn [bind bind_parameter].
  - eexists; split; reflexivity.
  - assert (E : ((- 2 ^ 63 <=? z) && (z <? 2 ^ 63))%bool = true).
    { apply andb_true_intro. split; [apply Z.leb_le | apply Z.ltb_lt]; lia. }
    rewrite E. eexists; split; reflexivity.
  - eexists; split; reflexivity.
  - rewrite Hf. cbn [bind bind_parameter]. eexists; split; [reflexivity | exact Ht].
Qed.

Section SetThenGet.

Variable c : codec.
Variable self : Collection.

(** [set] never removes the collection's table; when it returns, the value
    could be stored and its row is in the table. *)
Lemma Collection_set_cases (key : string) (data : pyval) (db : LittleDB) (rows : table) :
  find_table (name self) (current_db (LittleDB_connection db)) = Some rows ->
  let db2 := fst (Collection_set c self key data db) in
  LittleDB_connection db2 = db2 /\
  ((exists content,
      stored_content c data = Ok content /\
      snd (Collection_set c self key data db) = Ok tt /\
      find_table (name self) (current_db db2) = Some (insert_or_replace key content rows))
   \/
   (exists e,
      stored_content c data = Raise e /\
      snd (Collection_set c self key data db) = Raise e /\
      find_table (name self) (current_db db2) = Some rows)).
Proof.
  intro Hf. cbv zeta.
  destruct (stored_content c data) as [content|e] eqn:Hst.
  - destruct (Collection_set_ok c self key data db rows content Hf Hst)
      as (db2 & Hset & Hcon & _ & Hf2).
    rewrite Hset. cbn [fst snd]. split; [exact Hcon|]. left. eauto.
  - revert Hst Hf. unfold Collection_set, stored_content.
    destruct (connection_shape db) as (dk & tx & E). rewrite E. clear E.
    destruct (match data with
              | PDict _ => do b <- from_dict c data; Ok (PBytes b)
              | _ => Ok data
              end) as [data1|e1]; cbn [bind]; intros Hb Hf.
    + destruct tx as [d|]; cbn in Hf;
        unfold with_con, execute_insert; cbn; rewrite Hf, Hb; cbn;
        (split; [reflexivity|]); right; eauto.
    + inversion Hb; subst. cbn. split; [reflexivity|]. right. eauto.
Qed.

(** C1, as the code has it.  On a collection whose table exists, for every
    key and every value that is [None], an integer of at most 64 bits, a
    string, or a dict that the collection's codec encodes and decodes to
    itself, [set(k, v)] returns and a following [get(k)] returns [v]; for a
    boolean [get(k)] returns the integer 1 or 0 that Python compares equal
    to it. *)
Theorem C1_set_then_get (key : string) (v : pyval) (db : LittleDB) :
  table_exists self db ->
  let db2 := fst (Collection_set c self key v db) in
  (kept c v ->
     snd (Collection_set c self key v db) = Ok tt /\
     snd (Collection_get c self key db2) = Ok v) /\
  (forall b : bool, v = PBool b ->
     snd (Collection_set c self key v db) = Ok tt /\
     snd (Collection_get c self key db2) = Ok (PInt (if b then 1 else 0))).
Proof.
  unfold table_exists. intro Hex. cbv zeta.
  destruct (find_table (name self) (current_db (LittleDB_connection db)))
    as [rows|] eqn:Hf; [clear Hex | contradiction Hex; reflexivity].
  assert (Hgen : forall content,
             stored_content c v = Ok content ->
             snd (Collection_set c self key v db) = Ok tt /\
             snd (Collection_get c self key (fst (Collection_set c self key v db)))
             = loaded_value c content).
  { intros content Hst.
    destruct (Collection_set_ok c self key v db rows content Hf Hst)
      as (db2 & Hset & Hcon & _ & Hf2).
    rewrite Hset. cbn [fst snd]. split; [reflexivity|].
    rewrite <- Hcon in Hf2.
    rewrite (Collection_get_row c self key db2 _ content Hf2 (select_replace_same _ _ _)).
    reflexivity. }
  split.
  - intro Hk. destruct (kept_stored c v Hk) as (content & Hst & Hl).
    destruct (Hgen content Hst) as [H1 H2]. split; [exact H1|]. now rewrite H2.
  - intros b ->. apply (Hgen (SqlInteger (if b then 1 else 0))). reflexivity.
Qed.

(** C7, as the code has it.  On a collection whose table exists, after
    [set(k, v1)] and a [set(k, v2)] that returns, the key is listed once by
    [keys()], the row of the key holds what [set] stores for [v2], and
    [get(k)] returns [v2] when [v2] is [None], an integer of at most 64
    bits, a string, or a dict that the codec encodes and decodes to
    itself. *)
Theorem C7_upsert (key : string) (v1 v2 : pyval) (db : LittleDB) :
  table_exists self db ->
  let db1 := fst (Collection_set c self key v1 db) in
  let db2 := fst (Collection_set c self key v2 db1) in
  snd (Collection_set c self key v2 db1) = Ok tt ->
  (exists ks, snd (Collection_keys self db2) = Ok ks /\
              count_occ string_dec ks key = 1%nat) /\
  (exists content, stored_content c v2 = Ok content /\
                   snd (Collection_get c self key db2) = loaded_value c content) /\
  (kept c v2 -> snd (Collection_get c self key db2) = Ok v2).
Proof.
  unfold table_exists. intro Hex. cbv zeta.
  destruct (find_table (name self) (current_db (LittleDB_connection db)))
    as [rows|] eqn:Hf; [clear Hex | contradiction Hex; reflexivity].
  destruct (Collection_set_cases key v1 db rows Hf) as [Hcon1 Hcase1].
  set (db1 := fst (Collection_set c self key v1 db)) in *.
  assert (Hrows1 : exists rows1, find_table (name self) (current_db (LittleDB_connection db1))
                                 = Some rows1).
  { rewrite Hcon1. destruct Hcase1 as [(ct & _ & _ & H)|(e & _ & _ & H)]; eauto. }
  destruct Hrows1 as (rows1 & Hf1).
  destruct (Collection_set_cases key v2 db1 rows1 Hf1) as [Hcon2 Hcase2].
  intro Hok.
  destruct Hcase2 as [(ct & Hst & _ & Hf2)|(e & _ & Hr & _)]; [|congruence].
  set (db2 := fst (Collection_set c self key v2 db1)) in *.
  rewrite <- Hcon2 in Hf2.
  assert (Hget : snd (Collection_get c self key db2) = loaded_value c ct).
  { rewrite (Collection_get_row c self key db2 _ ct Hf2 (select_replace_same _ _ _)).
    reflexivity. }
  split; [|split].
  - unfold Collection_keys. rewrite Hf2. cbn [snd].
    eexists. split; [reflexivity|]. apply count_keys_replace.
  - exists ct. split; [exact Hst | exact Hget].
  - intro Hk. destruct (kept_stored c v2 Hk) as (ct' & Hst' & Hl).
    rewrite Hget. congruence.
Qed.

End SetThenGet.

Lemma kept_doc1 : kept JsonAdapter_codec doc1.
Proof.
  eapply kept_dict.
  - vm_compute. reflexivity.
  - vm_compute. reflexivity.
Defined.

Lemma documents_table_exists : table_exists documents documents_db.
Proof. vm_compute. discriminate. Defined.

Lemma C1_set_then_get_witness :
  snd (Collection_set JsonAdapter_codec documents "doc1" doc1 documents_db) = Ok tt /\
  snd (Collection_get JsonAdapter_codec documents "doc1"
         (fst (Collection_set JsonAdapter_codec documents "doc1" doc1 documents_db)))
  = Ok doc1.
Proof.
  apply (proj1 (C1_set_then_get JsonAdapter_codec documents "doc1" doc1 documents_db
                  documents_table_exists)).
  exact kept_doc1.
Defined.

(** C1 as stated fails for a byte string: [set] stores it as it is, and
    [get] hands every byte string it reads to the codec.  Under the JSON
    format the bytes [raw] are no JSON document. *)
Lemma C1_raw_bytes_counterexample :
  let v := PBytes (list_byte_of_string "raw") in
  snd (Collection_set JsonAdapter_codec documents "doc1" v documents_db) = Ok tt /\
  snd (Collection_get JsonAdapter_codec documents "doc1"
         (fst (Collection_set JsonAdapter_codec documents "doc1" v documents_db)))
  = Raise JSONDecodeError.
Proof. vm_compute. split; reflexivity. Qed.

Lemma C7_upsert_witness :
  let db1 := fst (Collection_set JsonAdapter_codec documents "x" (PInt 1) documents_db) in
  let db2 := fst (Collection_set JsonAdapter_codec documents "x" (PInt 2) db1) in
  (exists ks, snd (Collection_keys documents db2) = Ok ks /\
              count_occ string_dec ks "x" = 1%nat) /\
  (exists content, stored_content JsonAdapter_codec (PInt 2) = Ok content /\
                   snd (Collection_get JsonAdapter_codec documents "x" db2)
                   = loaded_value JsonAdapter_codec content) /\
  (kept JsonAdapter_codec (PInt 2) ->
   snd (Collection_get JsonAdapter_codec documents "x" db2) = Ok (PInt 2)).
Proof.
  apply (C7_upsert JsonAdapter_codec documents "x" (PInt 1) (PInt 2) documents_db).
  - exact documents_table_exists.
  - vm_compute. reflexivity.
Defined.

(** C7 as stated fails when the second value is a byte string: the row is
    replaced and the key is there once, but [get] decodes the bytes and
    returns the integer 2, not the byte string. *)
Lemma C7_raw_bytes_counterexample :
  let v2 := PBytes (list_byte_of_string "2") in
  let db1 := fst (Collection_set JsonAdapter_codec documents "x" (PInt 1) documents_db) in
  snd (Collection_set JsonAdapter_codec documents "x" v2 db1) = Ok tt /\
  snd (Collection_get JsonAdapter_codec documents "x"
         (fst (Collection_set JsonAdapter_codec documents "x" v2 db1)))
  = Ok (PInt 2).
Proof. vm_compute. split; reflexivity. Qed.

(** ** The encoding of dates and date-times *)



(** ** Counterexamples of the decoder *)

(** C3 as stated fails: with the namespace omitted the marker [Jsonable]
    resolves to the class of that name in the module's globals, and the
    tagged object decodes to an instance. *)
Lemma C3_module_class_counterexample :
  loads (json_text (JObj [("__class__", JStr "Jsonable"); ("a", JInt 1)])) None
  = Ok (PInst Jsonable [("a", PInt 1)]).
Proof. vm_compute. reflexivity. Qed.


(** C6 as stated fails twice.  A marker that is the empty string is not
    looked up at all: the object comes back as a plain mapping without the
    marker.  A marker that names a method of [dict] is found by [getattr]
    on the namespace, and the decoding ends in [TypeError], not
    [NameError]. *)
Lemma C6_unresolved_marker_counterexample :
  loads (json_text (JObj [("__class__", JStr ""); ("a", JInt 1)])) (Some [])
  = Ok (PDict [(KStr "a", PInt 1)]) /\
  loads (json_text (JObj [("__class__", JStr "keys"); ("a", JInt 1)])) (Some [])
  = Raise TypeError.
Proof. vm_compute. split; reflexivity. Qed.

(** ** Reading back what [json_text] writes *)

Lemma sapp_assoc (a b c : string) : (a ++ b) ++ c = a ++ (b ++ c).
Proof. induction a as [|x a IH]; simpl; [reflexivity | now rewrite IH]. Qed.

Lemma sapp_nil_r (a : string) : a ++ "" = a.
Proof. induction a as [|x a IH]; simpl; [reflexivity | now rewrite IH]. Qed.

Lemma scan_escape_char (ch : ascii) (rest : string) :
  scan_string (escape_char ch ++ rest)
  = (do r <- scan_string rest; Ok (String ch (fst r), snd r)).
Proof.
  destruct ch as [[] [] [] [] [] [] [] []]; reflexivity.
Qed.

Lemma scan_escape_string (s rest : string) :
  scan_string (escape_string s ++ String dquote rest) = Ok (s, rest).
Proof.
  induction s as [|ch s IH]; simpl.
  - reflexivity.
  - rewrite sapp_assoc, scan_escape_char, IH. reflexivity.
Qed.

Lemma delimited_no_digit (rest : string) :
  delimited rest -> scan_digits rest = (Decimal.Nil, rest).
Proof.
  destruct rest as [|c r]; simpl; [reflexivity|].
  intros [-> | [-> | ->]]; reflexivity.
Qed.

Lemma delimited_no_float (rest : string) :
  delimited rest -> starts_float_tail rest = false.
Proof.
  destruct rest as [|c r]; simpl; [reflexivity|].
  intros [-> | [-> | ->]]; destruct r; reflexivity.
Qed.

Lemma delimited_skip_ws (rest : string) :
  delimited rest -> skip_ws rest = rest.
Proof.
  destruct rest as [|c r]; simpl; [reflexivity|].
  intros [-> | [-> | ->]]; reflexivity.
Qed.

Lemma scan_digits_uint (u : Decimal.uint) (rest : string) :
  delimited rest ->
  scan_digits (NilEmpty.string_of_uint u ++ rest) = (u, rest).
Proof.
  intro Hd. induction u; simpl; try (rewrite IHu; reflexivity).
  now apply delimited_no_digit.
Qed.

Lemma to_uint_head (p : positive) :
  exists u, Pos.to_uint p = u /\ u <> Decimal.Nil /\ forall u', u <> Decimal.D0 u'.
Proof.
  exists (Pos.to_uint p). split; [reflexivity|]. split.
  - apply Unsigned.to_uint_nonnil.
  - intros u' E.
    assert (Hn : Decimal.unorm (Pos.to_uint p) = Pos.to_uint p).
    { rewrite <- (Unsigned.to_of (Pos.to_uint p)), Unsigned.of_to. reflexivity. }
    rewrite E in Hn. unfold Decimal.unorm in Hn. rewrite nzhead_D0 in Hn.
    destruct (Decimal.nzhead u') eqn:Hz;
      try (apply (nzhead_nonzero u' u'); congruence).
    apply (Unsigned.to_uint_nonzero p). rewrite E. symmetry. exact Hn.
Qed.

Section NumberText.

Variable hook : pyval -> result pyval.

Lemma parse_uint_text (neg : bool) (u : Decimal.uint) (rest : string) :
  delimited rest ->
  u <> Decimal.Nil -> (forall u', u <> Decimal.D0 u') ->
  scan_number neg (NilEmpty.string_of_uint u ++ rest)
  = Ok (PInt (Z.of_int (if neg then Decimal.Neg u else Decimal.Pos u)), rest).
Proof.
  intros Hd Hnil Hz. unfold scan_number.
  assert (Hs : scan_int_part (NilEmpty.string_of_uint u ++ rest) = Some (u, rest)).
  { pose proof (scan_digits_uint u rest Hd) as Hsd.
    destruct u; try (contradiction Hnil; reflexivity);
      try (exfalso; eapply Hz; reflexivity);
      unfold scan_int_part; cbn [NilEmpty.string_of_uint append];
      cbn [NilEmpty.string_of_uint append] in Hsd; rewrite Hsd; reflexivity. }
  rewrite Hs. now rewrite delimited_no_float.
Qed.

Lemma parse_int_text (z : Z) (f : nat) (rest : string) :
  delimited rest ->
  parse_value hook (S f) (string_of_Z z ++ rest) = Ok (PInt z, rest).
Proof.
  intro Hd. unfold string_of_Z.
  rewrite <- (DecimalZ.of_to z) at 2.
  destruct z as [|p|p]; cbn [Z.to_int NilEmpty.string_of_int].
  - cbn. rewrite (delimited_no_float rest Hd). reflexivity.
  - destruct (to_uint_head p) as (u & Hu & Hnil & Hz). rewrite Hu.
    rewrite <- (parse_uint_text false u rest Hd Hnil Hz).
    destruct u; try (contradiction Hnil; reflexivity);
      try (exfalso; eapply Hz; reflexivity); reflexivity.
  - destruct (to_uint_head p) as (u & Hu & Hnil & Hz). rewrite Hu.
    cbn [append].
    rewrite <- (parse_uint_text true u rest Hd Hnil Hz).
    destruct u; try (contradiction Hnil; reflexivity);
      try (exfalso; eapply Hz; reflexivity); reflexivity.
Qed.

End NumberText.

Lemma json_text_arr (xs : list json) : json_text (JArr xs) = "[" ++ items_text xs.
Proof. reflexivity. Qed.

Lemma json_text_obj (ms : list (string * json)) : json_text (JObj ms) = "{" ++ members_text ms.
Proof. reflexivity. Qed.

Lemma jsize_arr (xs : list json) : jsize (JArr xs) = S (items_size xs).
Proof. reflexivity. Qed.

Lemma jsize_obj (ms : list (string * json)) : jsize (JObj ms) = S (members_size ms).
Proof. reflexivity. Qed.

(** Induction on documents, with the hypothesis for every item and every
    member. *)
Lemma json_ind2 (P : json -> Prop) :
  P JNull -> (forall b, P (JBool b)) -> (forall z, P (JInt z)) -> (forall s, P (JStr s)) ->
  (forall xs, Forall P xs -> P (JArr xs)) ->
  (forall ms, Forall (fun kv => P (snd kv)) ms -> P (JObj ms)) ->
  forall t, P t.
Proof.
  intros Hn Hb Hi Hs Ha Ho.
  fix IH 1. intros [| b | z | s | xs | ms].
  - exact Hn.
  - apply Hb.
  - apply Hi.
  - apply Hs.
  - apply Ha. induction xs as [|x xs IHxs]; constructor; [apply IH | exact IHxs].
  - apply Ho. induction ms as [|[k v] ms IHms]; constructor; [apply IH | exact IHms].
Qed.

Section Scan.

Variable hook : pyval -> result pyval.

Lemma py_of_json_arr (xs : list json) :
  py_of_json hook (JArr xs) = (do ys <- py_of_items hook xs; Ok (PList ys)).
Proof. reflexivity. Qed.

Lemma py_of_json_obj (ms : list (string * json)) :
  py_of_json hook (JObj ms) = (do ps <- py_of_members hook ms; hook (dict_of_members ps)).
Proof. reflexivity. Qed.

End Scan.

Lemma uint_text_start (u : Decimal.uint) :
  u <> Decimal.Nil ->
  exists c r, NilEmpty.string_of_uint u = String c r /\ value_start c = true.
Proof.
  destruct u; intro H; try (contradiction H; reflexivity);
    cbn [NilEmpty.string_of_uint]; do 2 eexists; split; reflexivity.
Qed.

Lemma json_text_start (t : json) :
  exists c r, json_text t = String c r /\ value_start c = true.
Proof.
  destruct t as [| [|] | z | s | xs | ms]; try (do 2 eexists; split; reflexivity).
  unfold json_text, string_of_Z.
  destruct z as [|p|p]; cbn [Z.to_int NilEmpty.string_of_int].
  - do 2 eexists; split; reflexivity.
  - apply uint_text_start, Unsigned.to_uint_nonnil.
  - do 2 eexists; split; reflexivity.
Qed.

Lemma value_start_skip (c : ascii) (r : string) :
  value_start c = true -> skip_ws (String c r) = String c r.
Proof.
  unfold value_start. intro H. cbn [skip_ws].
  destruct (is_ws c); [discriminate H | reflexivity].
Qed.

Lemma substring_all (s : string) : substring 0 (String.length s) s = s.
Proof. induction s as [|c s IH]; simpl; [reflexivity | now rewrite IH]. Qed.

Lemma prefix_empty (s : string) : String.prefix "" s = true.
Proof. destruct s; reflexivity. Qed.

Section ReadBack.

Variable hook : pyval -> result pyval.

Lemma delimited_close (c : ascii) (r : string) :
  c = ","%char \/ c = "]"%char \/ c = "}"%char -> delimited (String c r).
Proof. intro H; exact H. Qed.

Lemma skip_ws_comma (s : string) : skip_ws (String "," s) = String "," s.
Proof. reflexivity. Qed.

Lemma skip_ws_colon (s : string) : skip_ws (String ":" s) = String ":" s.
Proof. reflexivity. Qed.

Lemma skip_ws_close (s : string) : skip_ws (String "]" s) = String "]" s.
Proof. reflexivity. Qed.

Lemma skip_ws_brace (s : string) : skip_ws (String "}" s) = String "}" s.
Proof. reflexivity. Qed.

Lemma skip_ws_space (s : string) : skip_ws (String " " s) = skip_ws s.
Proof. reflexivity. Qed.

Lemma skip_ws_value (t : json) (rest : string) :
  skip_ws (json_text t ++ rest) = json_text t ++ rest.
Proof.
  destruct (json_text_start t) as (c & r & E & Hc). rewrite E.
  cbn [append]. now apply value_start_skip.
Qed.

Lemma skip_ws_items (xs : list json) (rest : string) :
  xs <> [] -> skip_ws (items_text xs ++ rest) = items_text xs ++ rest.
Proof.
  destruct xs as [|x xs]; intro H; [contradiction H; reflexivity|].
  cbn [items_text]. rewrite sapp_assoc. apply skip_ws_value.
Qed.

Lemma skip_ws_quote (s : string) : skip_ws (String dquote s) = String dquote s.
Proof. reflexivity. Qed.

Lemma parse_items_text (xs : list json) :
  Forall (reads_back hook) xs -> xs <> [] ->
  forall (fuel : nat) (rest : string),
    (items_size xs <= fuel)%nat ->
    parse_items hook fuel (items_text xs ++ rest)
    = (do ys <- py_of_items hook xs; Ok (ys, rest)).
Proof.
  induction 1 as [|x xs Hx Hxs IH]; intros Hne fuel rest Hfuel; [contradiction Hne; reflexivity|].
  cbn [items_size] in Hfuel. destruct fuel as [|f]; [lia|].
  cbn [items_text py_of_items parse_items]. rewrite sapp_assoc.
  destruct xs as [|y ys].
  - rewrite (Hx f ("]" ++ rest)) by (try lia; cbn; auto).
    destruct (py_of_json hook x) as [v|e]; cbn; reflexivity.
  - rewrite (Hx f ((", " ++ items_text (y :: ys)) ++ rest)) by (try lia; cbn; auto).
    destruct (py_of_json hook x) as [v|e]; [|reflexivity].
    cbn [bind fst snd].
    change ((", " ++ items_text (y :: ys)) ++ rest)
      with (String "," (String " " (items_text (y :: ys) ++ rest))).
    rewrite skip_ws_comma. cbv iota beta.
    change (Ascii.eqb "," ",") with true. cbv iota.
    rewrite skip_ws_space, skip_ws_items by discriminate.
    rewrite IH by (try discriminate; lia).
    destruct (py_of_items hook (y :: ys)) as [vs|e]; reflexivity.
Qed.

Lemma parse_members_text (ms : list (string * json)) :
  Forall (fun kv => reads_back hook (snd kv)) ms -> ms <> [] ->
  forall (fuel : nat) (rest : string),
    (members_size ms <= fuel)%nat ->
    parse_members hook fuel (members_text ms ++ rest)
    = (do ps <- py_of_members hook ms; Ok (ps, rest)).
Proof.
  induction 1 as [|[k x] ms Hx Hms IH]; intros Hne fuel rest Hfuel;
    [contradiction Hne; reflexivity|].
  cbn [members_size] in Hfuel. cbn [snd] in Hx. destruct fuel as [|f]; [lia|].
  cbn [members_text py_of_members parse_members].
  unfold quote_string. cbn [append]. rewrite Ascii.eqb_refl.
  rewrite !sapp_assoc. cbn [append]. rewrite scan_escape_string.
  cbn [bind fst snd]. rewrite skip_ws_colon. cbv iota beta.
  change (Ascii.eqb ":" ":") with true. cbv iota.
  rewrite skip_ws_space, sapp_assoc, skip_ws_value.
  destruct ms as [|[k' y] ms'].
  - rewrite Hx by (try lia; cbn; auto).
    destruct (py_of_json hook x) as [v|e]; cbn; reflexivity.
  - rewrite Hx by (try lia; cbn; auto).
    destruct (py_of_json hook x) as [v|e]; [|reflexivity].
    cbn [bind fst snd append].
    rewrite skip_ws_comma. cbv iota beta.
    change (Ascii.eqb "," ",") with true. cbv iota.
    rewrite skip_ws_space.
    assert (Hq : skip_ws (members_text ((k', y) :: ms') ++ rest)
                 = members_text ((k', y) :: ms') ++ rest) by reflexivity.
    rewrite Hq.
    rewrite IH by (try discriminate; lia).
    destruct (py_of_members hook ((k', y) :: ms')) as [vs|e]; reflexivity.
Qed.

(** Reading the text [json_text] writes for a document gives what the
    decoder builds from the document, and leaves the text that follows. *)
Lemma parse_json_text (t : json) : reads_back hook t.
Proof.
  induction t as [| b | z | s | xs IHxs | ms IHms] using json_ind2;
    intros fuel rest Hfuel Hd; (destruct fuel as [|f]; [cbn in Hfuel; lia|]).
  - cbn. now rewrite prefix_empty, Nat.sub_0_r, substring_all.
  - destruct b; cbn; now rewrite prefix_empty, Nat.sub_0_r, substring_all.
  - cbn [json_text py_of_json bind]. now apply parse_int_text.
  - cbn [json_text py_of_json bind quote_string append parse_value].
    rewrite Ascii.eqb_refl. rewrite sapp_assoc. cbn [append].
    now rewrite scan_escape_string.
  - rewrite json_text_arr, py_of_json_arr, jsize_arr in *.
    cbn [append parse_value]. 
    change (Ascii.eqb "[" dquote) with false.
    change (Ascii.eqb "[" "{") with false.
    change (Ascii.eqb "[" "[") with true. cbv iota.
    destruct xs as [|x xs].
    + reflexivity.
    + rewrite skip_ws_items by discriminate.
      set (txt := items_text (x :: xs) ++ rest).
      assert (Hs : exists c r, txt = String c r /\ Ascii.eqb c "]" = false).
      { destruct (json_text_start x) as (c & r & E & Hc).
        unfold txt. cbn [items_text]. rewrite E. cbn [append].
        do 2 eexists. split; [reflexivity|].
        unfold value_start in Hc. destruct (Ascii.eqb c "]"); [|reflexivity].
        rewrite andb_false_r in Hc. discriminate Hc. }
      destruct Hs as (c & r & Es & Hb).
      rewrite Es. cbv iota. rewrite Hb. rewrite <- Es. unfold txt.
      rewrite parse_items_text by (try discriminate; try assumption; lia).
      destruct (py_of_items hook (x :: xs)); reflexivity.
  - rewrite json_text_obj, py_of_json_obj, jsize_obj in *.
    cbn [append parse_value].
    change (Ascii.eqb "{" dquote) with false.
    change (Ascii.eqb "{" "{") with true. cbv iota.
    destruct ms as [|[k x] ms].
    + cbn. destruct (hook (dict_of_members [])); reflexivity.
    + set (txt := members_text ((k, x) :: ms) ++ rest).
      assert (Hs : exists r, txt = String dquote r).
      { unfold txt. cbn [members_text]. unfold quote_string. cbn [append]. eauto. }
      destruct Hs as (r & Es).
      rewrite Es. rewrite skip_ws_quote.
      change (Ascii.eqb dquote "}") with false. cbv iota.
      rewrite <- Es. unfold txt.
      rewrite parse_members_text by (try discriminate; try assumption; lia).
      destruct (py_of_members hook ((k, x) :: ms)) as [ps|e]; [|reflexivity].
      cbn [bind fst snd]. destruct (hook (dict_of_members ps)); reflexivity.
Qed.

End ReadBack.

Lemma slength_app (a b : string) :
  String.length (a ++ b) = (String.length a + String.length b)%nat.
Proof. induction a as [|c a IH]; simpl; [reflexivity | now rewrite IH]. Qed.

Lemma json_text_nonempty (t : json) : (1 <= String.length (json_text t))%nat.
Proof.
  destruct (json_text_start t) as (c & r & E & _). rewrite E. simpl. lia.
Qed.

Lemma jsize_le_text (t : json) : (jsize t <= String.length (json_text t))%nat.
Proof.
  induction t as [| b | z | s | xs IHxs | ms IHms] using json_ind2;
    try (apply json_text_nonempty).
  - rewrite jsize_arr, json_text_arr. cbn [append String.length].
    apply le_n_S.
    induction IHxs as [|x xs Hx Hxs IH]; [cbn; lia|].
    cbn [items_size items_text]. rewrite slength_app.
    destruct xs as [|y ys].
    + cbn in *. lia.
    + cbn [append String.length]. lia.
  - rewrite jsize_obj, json_text_obj. cbn [append String.length].
    apply le_n_S.
    induction IHms as [|[k x] ms Hx Hms IH]; [cbn; lia|].
    cbn [members_size members_text]. cbn [snd] in Hx.
    rewrite !slength_app.
    destruct ms as [|m ms'].
    + cbn in *. lia.
    + cbn [append String.length]. lia.
Qed.

(** [json.loads] of the text of a document, for every hook. *)
Lemma json_loads_text (hook : pyval -> result pyval) (t : json) :
  json_loads hook (json_text t) = py_of_json hook t.
Proof.
  unfold json_loads.
  rewrite <- (sapp_nil_r (json_text t)) at 2.
  rewrite skip_ws_value.
  rewrite (parse_json_text hook t) by (cbn; auto; pose proof (jsize_le_text t); lia).
  destruct (py_of_json hook t); reflexivity.
Qed.

(** ** Dicts *)

Lemma pykey_eqb_sym (a b : pykey) : pykey_eqb a b = pykey_eqb b a.
Proof.
  destruct a, b; simpl; try reflexivity; [apply String.eqb_sym | apply Z.eqb_sym].
Qed.

Section DictFacts.

Context {V : Type}.
Implicit Types (d : list (pykey * V)) (k : pykey) (v : V).

Lemma dict_get_app_none d d' k :
  dict_get k d = None -> dict_get k (d ++ d')%list = dict_get k d'.
Proof.
  induction d as [|[k0 v0] d IH]; simpl; [reflexivity|].
  destruct (pykey_eqb k k0); [discriminate | exact IH].
Qed.

Lemma dict_set_absent d k v :
  dict_get k d = None -> dict_set k v d = (d ++ [(k, v)])%list.
Proof.
  induction d as [|[k0 v0] d IH]; simpl; [reflexivity|].
  destruct (pykey_eqb k k0); [discriminate|]. intro H. now rewrite IH.
Qed.

Lemma dict_get_in_none d k k' v' :
  dict_get k d = None -> In (k', v') d -> pykey_eqb k k' = false.
Proof.
  induction d as [|[k0 v0] d IH]; simpl; [contradiction|].
  destruct (pykey_eqb k k0) eqn:E; [discriminate|].
  intros H [Hin | Hin]; [inversion Hin; subst; exact E | now apply IH].
Qed.

Lemma fold_dict_set_unique d acc :
  (forall k v, In (k, v) d -> dict_get k acc = None) ->
  unique_keys d = true ->
  fold_left (fun a kv => dict_set (fst kv) (snd kv) a) d acc = (acc ++ d)%list.
Proof.
  revert acc. induction d as [|[k v] d IH]; intros acc Hacc Hu; simpl.
  - now rewrite List.app_nil_r.
  - simpl in Hu. destruct (dict_get k d) eqn:Hk; [discriminate|].
    rewrite dict_set_absent by (apply (Hacc k v); left; reflexivity).
    rewrite IH; [now rewrite <- List.app_assoc | | exact Hu].
    intros k' v' Hin.
    rewrite dict_get_app_none by (apply (Hacc k' v'); right; exact Hin).
    simpl. rewrite pykey_eqb_sym.
    now rewrite (dict_get_in_none d k k' v' Hk Hin).
Qed.

(** [dict(pairs)] of pairs with distinct keys is the list of the pairs. *)
Lemma dict_of_pairs_unique d : unique_keys d = true -> dict_of_pairs d = d.
Proof.
  intro Hu. unfold dict_of_pairs.
  rewrite fold_dict_set_unique; [reflexivity | reflexivity | exact Hu].
Qed.

Lemma dict_remove_absent d k : dict_get k d = None -> dict_remove k d = d.
Proof.
  induction d as [|[k0 v0] d IH]; simpl; [reflexivity|].
  destruct (pykey_eqb k k0); [discriminate|]. intro H. now rewrite IH.
Qed.

Lemma dict_get_remove_same d k : dict_get k (dict_remove k d) = None.
Proof.
  induction d as [|[k0 v0] d IH]; simpl; [reflexivity|].
  destruct (pykey_eqb k k0) eqn:E; [exact IH|]. simpl. now rewrite E.
Qed.

Lemma dict_get_remove_none d k k' :
  dict_get k' d = None -> dict_get k' (dict_remove k d) = None.
Proof.
  induction d as [|[k0 v0] d IH]; simpl; [reflexivity|].
  destruct (pykey_eqb k' k0) eqn:E; [discriminate|]. intro H.
  destruct (pykey_eqb k k0); [now apply IH|]. simpl. rewrite E. now apply IH.
Qed.

Lemma unique_keys_remove d k : unique_keys d = true -> unique_keys (dict_remove k d) = true.
Proof.
  induction d as [|[k0 v0] d IH]; simpl; [reflexivity|].
  destruct (dict_get k0 d) eqn:E; [discriminate|]. intro H.
  destruct (pykey_eqb k k0); [now apply IH|]. simpl.
  rewrite dict_get_remove_none by exact E. now apply IH.
Qed.

Lemma dict_get_set_other d k k' v :
  pykey_eqb k' k = false -> dict_get k' (dict_set k v d) = dict_get k' d.
Proof.
  intro Hne. induction d as [|[k0 v0] d IH]; simpl.
  - now rewrite Hne.
  - destruct (pykey_eqb k k0) eqn:E; simpl.
    + apply pykey_eqb_eq in E; subst k0. now rewrite Hne.
    + destruct (pykey_eqb k' k0); [reflexivity | exact IH].
Qed.

Lemma unique_keys_set d k v : unique_keys d = true -> unique_keys (dict_set k v d) = true.
Proof.
  induction d as [|[k0 v0] d IH]; simpl; [reflexivity|].
  destruct (dict_get k0 d) eqn:E; [discriminate|]. intro H.
  destruct (pykey_eqb k k0) eqn:Ek; simpl.
  - now rewrite E.
  - rewrite dict_get_set_other by (rewrite pykey_eqb_sym; exact Ek).
    rewrite E. now apply IH.
Qed.

Lemma unique_keys_of_pairs d : unique_keys (dict_of_pairs d) = true.
Proof.
  unfold dict_of_pairs.
  assert (H : forall acc, unique_keys acc = true ->
              unique_keys (fold_left (fun a kv => dict_set (fst kv) (snd kv) a) d acc) = true).
  { induction d as [|[k v] d IH]; intros acc Hacc; simpl; [exact Hacc|].
    apply IH. now apply unique_keys_set. }
  now apply H.
Qed.

End DictFacts.

(** ** What the decoder returns *)

(** Induction on Python values, with the hypothesis for every item. *)
Lemma pyval_ind2 (P : pyval -> Prop) :
  P PNone -> (forall b, P (PBool b)) -> (forall z, P (PInt z)) -> (forall s, P (PStr s)) ->
  (forall b, P (PBytes b)) ->
  (forall xs, Forall P xs -> P (PList xs)) ->
  (forall items, Forall (fun kv => P (snd kv)) items -> P (PDict items)) ->
  (forall y m d, P (PDate y m d)) ->
  (forall y m d hh mm ss us, P (PDateTime y m d hh mm ss us)) ->
  (forall cls attrs, Forall (fun av => P (snd av)) attrs -> P (PInst cls attrs)) ->
  forall v, P v.
Proof.
  intros Hn Hb Hi Hs Hy Hl Hd Hda Hdt Hin.
  fix IH 1. intros [| b | z | s | b | xs | items | y m d | y m d hh mm ss us | cls attrs].
  - exact Hn.
  - apply Hb.
  - apply Hi.
  - apply Hs.
  - apply Hy.
  - apply Hl. induction xs as [|x xs IHxs]; constructor; [apply IH | exact IHxs].
  - apply Hd. induction items as [|[k x] items IHi]; constructor; [apply IH | exact IHi].
  - apply Hda.
  - apply Hdt.
  - apply Hin. induction attrs as [|[a x] attrs IHa]; constructor; [apply IH | exact IHa].
Qed.

Lemma decode_object_list (ns : namespace) (xs : list pyval) :
  decode_object ns (PList xs) = (do ys <- decode_values ns xs; Ok (PList ys)).
Proof.
  cbn [decode_object]. f_equal.
  induction xs as [|x xs IH]; [reflexivity|].
  cbn [decode_values]. rewrite <- IH. destruct x; reflexivity.
Qed.

Lemma decode_object_dict (ns : namespace) (items : list (pykey * pyval)) :
  decode_object ns (PDict items) = (do r <- decode_items ns items; decode_tagged ns r).
Proof.
  cbn [decode_object]. f_equal.
  induction items as [|[k x] items IH]; [reflexivity|].
  cbn [decode_items]. rewrite <- IH. destruct x; reflexivity.
Qed.

Lemma settled_list (xs : list pyval) : settled (PList xs) = all_settled xs.
Proof. reflexivity. Qed.

Lemma settled_dict (items : list (pykey * pyval)) :
  settled (PDict items)
  = (items_settled items /\ unique_keys items = true
     /\ dict_get (KStr "__class__") items = None).
Proof. reflexivity. Qed.

Lemma decode_tagged_plain (ns : namespace) (items : list (pykey * pyval)) :
  unique_keys items = true ->
  dict_get (KStr "__class__") items = None ->
  decode_tagged ns items = Ok (PDict items).
Proof.
  intros Hu Hc. unfold decode_tagged, dict_pop.
  rewrite dict_of_pairs_unique by exact Hu. rewrite Hc.
  now rewrite dict_remove_absent.
Qed.

(** [decode_object] returns a settled value as it is. *)
Lemma decode_settled (ns : namespace) (v : pyval) :
  settled v -> decode_value ns v = Ok v.
Proof.
  induction v as [| | | | | xs IH | items IH | | |] using pyval_ind2;
    intro Hs; try reflexivity.
  - unfold decode_value. rewrite decode_object_list. rewrite settled_list in Hs.
    assert (E : decode_values ns xs = Ok xs).
    { induction IH as [|x xs Hx Hxs IHl]; [reflexivity|].
      cbn [all_settled] in Hs. destruct Hs as [Hs1 Hs2].
      cbn [decode_values]. rewrite (Hx Hs1), (IHl Hs2). reflexivity. }
    now rewrite E.
  - unfold decode_value. rewrite decode_object_dict. rewrite settled_dict in Hs.
    destruct Hs as (Hall & Hu & Hc).
    assert (E : decode_items ns items = Ok items).
    { clear Hu Hc. induction IH as [|[k x] items Hx Hxs IHl]; [reflexivity|].
      cbn [items_settled] in Hall. destruct Hall as [Hs1 Hs2]. cbn [snd] in Hx.
      cbn [decode_items]. rewrite (Hx Hs1), (IHl Hs2). reflexivity. }
    rewrite E. cbn [bind]. now apply decode_tagged_plain.
Qed.

Lemma decode_items_settled (ns : namespace) (items : list (pykey * pyval)) :
  items_settled items -> decode_items ns items = Ok items.
Proof.
  induction items as [|[k x] items IH]; [reflexivity|].
  intros [H1 H2]. cbn [decode_items].
  rewrite (decode_settled ns x H1), (IH H2). reflexivity.
Qed.

Lemma atomic_settled (v : pyval) : atomic v -> settled v.
Proof.
  destruct v as [| | | | | | [|] | | |]; simpl; tauto.
Qed.

Lemma class_new_atomic (cls : nsobj) (args : list pyval) (inst : pyval) :
  class_new cls args = Ok inst -> atomic inst.
Proof.
  destruct cls; cbn [class_new].
  - discriminate.
  - unfold date_new. destruct (pickled_state 4 args); [discriminate|].
    destruct args as [|a1 [|a2 [|a3 [|a4 args]]]]; try discriminate.
    destruct (c_ints [a1; a2; a3]) as [[|y [|m [|d [|]]]]|]; cbn; try discriminate.
    destruct (valid_date y m d); [|discriminate]. intro H; inversion H; exact I.
  - unfold datetime_new. destruct (pickled_state 10 args); [discriminate|].
    destruct (_ || _)%bool; [discriminate|].
    destruct (c_ints (firstn 7 args)) as [zs|]; cbn [bind]; [|discriminate].
    destruct (negb _); [discriminate|]. destruct (negb _); [discriminate|].
    destruct (nth_error args 7) as [[]|]; try discriminate;
      intro H; inversion H; exact I.
  - intro H; inversion H; exact I.
  - destruct args; [|destruct (cls_has_init c); [|discriminate]];
      intro H; inversion H; exact I.
  - discriminate.
Qed.

Lemma set_public_attrs_atomic (state : list (pykey * pyval)) (inst v : pyval) :
  atomic inst -> set_public_attrs inst state = Ok v -> atomic v.
Proof.
  revert inst. induction state as [|[[k|z] x] state IH]; intros inst Ha; cbn [set_public_attrs].
  - intro H; inversion H; subst; exact Ha.
  - destruct (public_attr k); [|now apply IH].
    destruct inst; cbn; try discriminate. apply IH. exact I.
  - discriminate.
Qed.

Lemma items_settled_remove (k : pykey) (d : list (pykey * pyval)) :
  items_settled d -> items_settled (dict_remove k d).
Proof.
  induction d as [|[k0 x] d IH]; [trivial|]. intros [H1 H2]. cbn [dict_remove].
  destruct (pykey_eqb k k0); [now apply IH | split; [exact H1 | now apply IH]].
Qed.

Lemma items_settled_set (k : pykey) (x : pyval) (d : list (pykey * pyval)) :
  settled x -> items_settled d -> items_settled (dict_set k x d).
Proof.
  intro Hx. induction d as [|[k0 x0] d IH]; [cbn; tauto|]. intros [H1 H2]. cbn [dict_set].
  destruct (pykey_eqb k k0); cbn [items_settled]; [tauto | split; [exact H1 | now apply IH]].
Qed.

Lemma items_settled_of_pairs (l : list (pykey * pyval)) :
  items_settled l -> items_settled (dict_of_pairs l).
Proof.
  unfold dict_of_pairs.
  assert (H : forall acc, items_settled acc -> items_settled l ->
              items_settled (fold_left (fun a kv => dict_set (fst kv) (snd kv) a) l acc)).
  { induction l as [|[k x] l IH]; intros acc Hacc Hl; cbn [fold_left]; [exact Hacc|].
    destruct Hl as [H1 H2]. apply IH; [|exact H2]. now apply items_settled_set. }
  intro Hl. apply H; [exact I | exact Hl].
Qed.

(** What [decode_tagged] returns from settled items is settled. *)
Lemma decode_tagged_settled (ns : namespace) (d : list (pykey * pyval)) (v : pyval) :
  items_settled d -> unique_keys d = true ->
  decode_tagged ns d = Ok v -> settled v.
Proof.
  intros Hd Hu. unfold decode_tagged, dict_pop.
  rewrite dict_of_pairs_unique by exact Hu.
  assert (Hplain : settled (PDict (dict_remove (KStr "__class__") d))).
  { rewrite settled_dict. repeat split.
    - now apply items_settled_remove.
    - now apply unique_keys_remove.
    - apply dict_get_remove_same. }
  destruct (dict_get (KStr "__class__") d) as [marker|];
    [|intro H; inversion H; subst; exact Hplain].
  destruct (truthy marker); [|intro H; inversion H; subst; exact Hplain].
  destruct marker; try discriminate.
  destruct (resolve_class ns s) eqn:Hr; try discriminate;
    (intro H; apply bind_ok in H; destruct H as (args & _ & H);
     apply bind_ok in H; destruct H as (inst & Hnew & H);
     apply atomic_settled;
     apply (set_public_attrs_atomic _ inst v (class_new_atomic _ _ _ Hnew) H)).
Qed.

Section Outputs.

Variable ns : namespace.

Lemma py_of_json_settled (t : json) :
  forall v, py_of_json (decode_object ns) t = Ok v -> settled v.
Proof.
  induction t as [| b | z | s | xs IH | ms IH] using json_ind2; intros v H;
    try (inversion H; subst; exact I).
  - rewrite py_of_json_arr in H. apply bind_ok in H. destruct H as (ys & Hys & H).
    inversion H; subst; clear H. rewrite settled_list.
    revert ys Hys. induction IH as [|x xs Hx Hxs IHl]; intros ys Hys.
    + inversion Hys; subst. exact I.
    + cbn [py_of_items] in Hys. apply bind_ok in Hys. destruct Hys as (y & Hy & Hys).
      apply bind_ok in Hys. destruct Hys as (ys' & Hys' & Hys).
      inversion Hys; subst; clear Hys. split; [now apply Hx | now apply IHl].
  - rewrite py_of_json_obj in H. apply bind_ok in H. destruct H as (ps & Hps & H).
    assert (Hall : items_settled (map (fun kv => (KStr (fst kv), snd kv)) ps)).
    { clear H. revert ps Hps. induction IH as [|[k x] ms Hx Hxs IHl]; intros ps Hps.
      - inversion Hps; subst. exact I.
      - cbn [py_of_members] in Hps. apply bind_ok in Hps. destruct Hps as (y & Hy & Hps).
        apply bind_ok in Hps. destruct Hps as (ps' & Hps' & Hps).
        inversion Hps; subst; clear Hps. cbn [snd] in Hx.
        split; [now apply Hx | now apply IHl]. }
    unfold dict_of_members in H. rewrite decode_object_dict in H.
    rewrite decode_items_settled in H by (now apply items_settled_of_pairs).
    cbn [bind] in H.
    eapply decode_tagged_settled; [| |exact H].
    + now apply items_settled_of_pairs.
    + apply unique_keys_of_pairs.
Qed.

Lemma py_of_members_settled (ms : list (string * json)) (ps : list (string * pyval)) :
  py_of_members (decode_object ns) ms = Ok ps ->
  items_settled (map (fun kv => (KStr (fst kv), snd kv)) ps).
Proof.
  revert ps. induction ms as [|[k x] ms IH]; intros ps Hps.
  - inversion Hps; subst. exact I.
  - cbn [py_of_members] in Hps. apply bind_ok in Hps. destruct Hps as (y & Hy & Hps).
    apply bind_ok in Hps. destruct Hps as (ps' & Hps' & Hps).
    inversion Hps; subst; clear Hps.
    split; [now apply (py_of_json_settled x) | now apply IH].
Qed.

(** The hook on a complete JSON object whose members are decoded: the
    tagging step alone is left. *)
Lemma hook_decoded_members (ms : list (string * json)) (ps : list (string * pyval)) :
  py_of_members (decode_object ns) ms = Ok ps ->
  py_of_json (decode_object ns) (JObj ms)
  = decode_tagged ns (dict_of_pairs (map (fun kv => (KStr (fst kv), snd kv)) ps)).
Proof.
  intro Hps. rewrite py_of_json_obj, Hps. cbn [bind]. unfold dict_of_members.
  rewrite decode_object_dict.
  rewrite decode_items_settled
    by (apply items_settled_of_pairs; now apply (py_of_members_settled ms)).
  reflexivity.
Qed.

End Outputs.

(** ** Tagged objects whose marker does not name a class *)

(** [loads] on the text of an object whose members decode: the tagging
    step on the dict of the members. *)
Lemma loads_object (ns : namespace) (ms : list (string * json)) (ps : list (string * pyval)) :
  py_of_members (decode_object (JsonifyDecoder_init (Some ns))) ms = Ok ps ->
  loads (json_text (JObj ms)) (Some ns)
  = decode_tagged (JsonifyDecoder_init (Some ns)) (members_dict ps).
Proof.
  intro Hps. unfold loads. rewrite json_loads_text. now apply hook_decoded_members.
Qed.

(** The tagging step on a dict with a marker that is a non-empty string. *)
Lemma decode_tagged_marker (ns : namespace) (d : list (pykey * pyval)) (name : string) :
  unique_keys d = true ->
  dict_get (KStr "__class__") d = Some (PStr name) ->
  name <> "" ->
  decode_tagged ns d
  = match resolve_class ns name with
    | ObjNone => Raise (NameError name)
    | cls =>
        let d2 := dict_remove (KStr "__class__") d in
        do args <- star_args (dict_get (KStr "__newargs__") d2);
        do inst <- class_new cls args;
        set_public_attrs inst (dict_remove (KStr "__newargs__") d2)
    end.
Proof.
  intros Hu Hm Hne. unfold decode_tagged, dict_pop.
  rewrite dict_of_pairs_unique by exact Hu. rewrite Hm.
  cbn [truthy]. apply String.eqb_neq in Hne. rewrite Hne. cbn [negb].
  destruct (resolve_class ns name); reflexivity.
Qed.

Lemma ns_get_setdefault (name n : string) (o : nsobj) (ns : namespace) :
  ns_get name (ns_setdefault n o ns)
  = match ns_get name ns with
    | Some o' => Some o'
    | None => if String.eqb name n then Some o else None
    end.
Proof.
  unfold ns_setdefault. destruct (ns_get n ns) as [o'|] eqn:En.
  - destruct (ns_get name ns) as [o''|] eqn:E; [reflexivity|].
    destruct (String.eqb name n) eqn:Eq; [|reflexivity].
    apply String.eqb_eq in Eq; subst. congruence.
  - induction ns as [|[m om] ns IH]; cbn.
    + reflexivity.
    + cbn in En. destruct (String.eqb n m) eqn:Enm; [discriminate|].
      destruct (String.eqb name m); [reflexivity | now apply IH].
Qed.

(** A name that is no attribute of a dict, is not bound in the namespace
    and is neither of the two built-in names resolves to nothing. *)
Lemma resolve_class_unbound (ns : namespace) (name : string) :
  dict_getattr name = None ->
  ns_get name ns = None ->
  name <> "_date" -> name <> "_datetime" ->
  resolve_class (JsonifyDecoder_init (Some ns)) name = ObjNone.
Proof.
  intros Hattr Hns Hd Hdt. unfold resolve_class, JsonifyDecoder_init.
  rewrite Hattr, !ns_get_setdefault, Hns.
  apply String.eqb_neq in Hd, Hdt. now rewrite Hd, Hdt.
Qed.

(** C6, as the code has it.  For every supplied namespace (a dict), the
    text of a JSON object whose members decode and whose marker
    [__class__] is a non-empty string that resolves to nothing -- it
    names no attribute of the dict object and is not bound, or bound to
    [None], in the namespace with the two built-in names added -- makes
    [loads] raise [NameError] for that name. *)
Theorem C6_unresolved_marker_raises (ns : namespace) (ms : list (string * json))
    (ps : list (string * pyval)) (name : string) :
  py_of_members (decode_object (JsonifyDecoder_init (Some ns))) ms = Ok ps ->
  marker_of ps = Some (PStr name) ->
  name <> "" ->
  resolve_class (JsonifyDecoder_init (Some ns)) name = ObjNone ->
  loads (json_text (JObj ms)) (Some ns) = Raise (NameError name).
Proof.
  intros Hps Hm Hne Hr.
  rewrite (loads_object ns ms ps Hps).
  rewrite (decode_tagged_marker _ _ name (unique_keys_of_pairs _) Hm Hne).
  now rewrite Hr.
Qed.

Lemma C6_unresolved_marker_witness :
  loads (json_text (JObj [("__class__", JStr "Point"); ("x", JInt 1)])) (Some [])
  = Raise (NameError "Point").
Proof.
  apply (C6_unresolved_marker_raises [] [("__class__", JStr "Point"); ("x", JInt 1)]
           [("__class__", PStr "Point"); ("x", PInt 1)] "Point").
  - reflexivity.
  - reflexivity.
  - discriminate.
  - apply resolve_class_unbound; [reflexivity | reflexivity | discriminate | discriminate].
Defined.

(** ** The namespace of [loads] when none is given *)

Lemma resolve_default_other (name : string) :
  ~ In name default_classes ->
  resolve_class default_namespace name = ObjNone \/
  resolve_class default_namespace name = ObjOther.
Proof.
  intro Hnot.
  unfold resolve_class, dict_getattr, mem_string, dict_methods, dict_special_names.
  let n := eval vm_compute in default_namespace in change default_namespace with n.
  cbn [existsb ns_get orb].
  repeat match goal with
         | |- context [String.eqb name ?s] =>
             let E := fresh "E" in
             destruct (String.eqb name s) eqn:E;
             [ apply String.eqb_eq in E; subst name;
               first [ now left | now right
                     | exfalso; apply Hnot; cbn; tauto ]
             | ]
         end.
  cbn. now left.
Qed.

Lemma star_args_error (x : option pyval) (e : exn) :
  star_args x = Raise e -> e = TypeError.
Proof.
  destruct x as [[]|]; cbn; intro H; inversion H; reflexivity.
Qed.

(** C3, as the code has it.  With the namespace omitted [loads] resolves
    markers in the global names of the [jsonify] module with the two
    built-in names added: [_date] and [_datetime] resolve to the date and
    date-time classes, and so do the names of the three classes of the
    module (and [__class__], the type of the namespace dict).  Decoding a
    tagged object whose members decode and whose marker is any other
    non-empty string fails: with [NameError] when the name is unbound,
    with [TypeError] when it is bound to an object that is no class. *)
Theorem C3_default_namespace :
  (resolve_class default_namespace "_date" = ObjDateClass /\
   resolve_class default_namespace "_datetime" = ObjDateTimeClass /\
   resolve_class default_namespace "Jsonable" = ObjClass Jsonable /\
   resolve_class default_namespace "JsonifyEncoder" = ObjClass JsonifyEncoder /\
   resolve_class default_namespace "JsonifyDecoder" = ObjClass JsonifyDecoder /\
   resolve_class default_namespace "__class__" = ObjDictClass) /\
  (forall (ms : list (string * json)) (ps : list (string * pyval)) (name : string),
      py_of_members (decode_object default_namespace) ms = Ok ps ->
      marker_of ps = Some (PStr name) ->
      name <> "" ->
      ~ In name default_classes ->
      loads (json_text (JObj ms)) None = Raise (NameError name) \/
      loads (json_text (JObj ms)) None = Raise TypeError).
Proof.
  split; [repeat split|].
  intros ms ps name Hps Hm Hne Hnot.
  change (loads (json_text (JObj ms)) None)
    with (loads (json_text (JObj ms)) (Some jsonify_globals)).
  rewrite (loads_object jsonify_globals ms ps Hps).
  rewrite (decode_tagged_marker _ _ name (unique_keys_of_pairs _) Hm Hne).
  fold default_namespace.
  destruct (resolve_default_other name Hnot) as [Hr | Hr]; rewrite Hr.
  - now left.
  - right. cbv zeta.
    destruct (star_args _) as [args|e] eqn:Ha; [reflexivity|].
    apply star_args_error in Ha. now subst e.
Qed.

Lemma C3_default_namespace_witness :
  loads (json_text (JObj [("__class__", JStr "Bunch"); ("spamm", JStr "eggs")])) None
  = Raise (NameError "Bunch") \/
  loads (json_text (JObj [("__class__", JStr "Bunch"); ("spamm", JStr "eggs")])) None
  = Raise TypeError.
Proof.
  apply (proj2 C3_default_namespace
           [("__class__", JStr "Bunch"); ("spamm", JStr "eggs")]
           [("__class__", PStr "Bunch"); ("spamm", PStr "eggs")] "Bunch").
  - reflexivity.
  - reflexivity.
  - discriminate.
  - cbn. intros [H|[H|[H|[H|[H|[H|[]]]]]]]; discriminate H.
Defined.

(** ** The round trip of the JSON codec *)

Lemma utf8_char (ch : ascii) (rest : string) :
  utf8_decode (utf8_encode (String ch rest))
  = (do s <- utf8_decode (utf8_encode rest); Ok (String ch s)).
Proof.
  destruct ch as [[] [] [] [] [] [] [] []]; reflexivity.
Qed.

Lemma utf8_round_trip (s : string) : utf8_decode (utf8_encode s) = Ok s.
Proof.
  induction s as [|ch s IH]; [reflexivity|].
  rewrite utf8_char, IH. reflexivity.
Qed.




Lemma to_json_dict (items : list (pykey * pyval)) :
  to_json (PDict items) = (do ms <- to_members items; Ok (JObj ms)).
Proof. reflexivity. Qed.

Lemma valid_date_range (y m d : Z) :
  valid_date y m d = true -> 1 <= y <= 9999 /\ 1 <= m <= 12 /\ 1 <= d <= 31.
Proof.
  unfold valid_date, days_in_month. intro H.
  repeat (apply andb_prop in H; destruct H as [H ?]).
  repeat match goal with
         | H : (_ <=? _) = true |- _ => apply Z.leb_le in H
         end.
  repeat split; try assumption.
  destruct (m =? 2); [destruct (is_leap y); lia|].
  destruct (_ || _)%bool; lia.
Qed.


Lemma as_c_int_small (z : Z) : -1 <= z <= 999999 -> as_c_int (PInt z) = Ok z.
Proof.
  intro H. unfold as_c_int.
  assert (E : ((-2147483648 <=? z) && (z <=? 2147483647))%bool = true).
  { apply andb_true_intro. split; apply Z.leb_le; lia. }
  now rewrite E.
Qed.

Section RoundTrip.

(** A namespace in which the two built-in markers resolve to the built-in
    classes. *)
Variable ns : namespace.
Hypothesis ns_date : resolve_class ns "_date" = ObjDateClass.
Hypothesis ns_datetime : resolve_class ns "_datetime" = ObjDateTimeClass.





End RoundTrip.







(** ** [to_json] and [JsonifyEncoder.default] *)

Lemma to_json_inst (cls : pyclass) (attrs : list (string * pyval)) :
  to_json (PInst cls attrs)
  = if cls_has_json cls then
      do ms <- to_attrs attrs; Ok (JObj (ms ++ [("__class__", JStr (cls_name cls))]))
    else Raise TypeError.
Proof. reflexivity. Qed.

Lemma to_members_app (l : list (pykey * pyval)) (k : pykey) (x : pyval) :
  to_members (l ++ [(k, x)])
  = (do ms <- to_members l; do y <- to_json x; Ok (ms ++ [(key_text k, y)])%list).
Proof.
  induction l as [|[k0 x0] l IH]; cbn [app to_members].
  - destruct (to_json x); reflexivity.
  - rewrite IH. destruct (to_json x0) as [y0|]; [|reflexivity]. cbn [bind].
    destruct (to_members l) as [ms|]; [|reflexivity]. cbn [bind].
    destruct (to_json x); reflexivity.
Qed.

Lemma public_attr_not_marker (a : string) :
  public_attr a = true -> pykey_eqb (KStr "__class__") (KStr a) = false.
Proof.
  unfold public_attr. intro H. cbn [pykey_eqb].
  destruct (String.eqb "__class__" a) eqn:E; [|reflexivity].
  apply String.eqb_eq in E. subst a. discriminate H.
Qed.

Lemma public_items (attrs : list (string * pyval)) :
  let items := map (fun av => (KStr (fst av), snd av))
                   (filter (fun av => public_attr (fst av)) attrs) in
  dict_get (KStr "__class__") items = None /\ to_members items = to_attrs attrs.
Proof.
  cbv zeta. induction attrs as [|[a x] attrs [IH1 IH2]]; [split; reflexivity|].
  cbn [filter fst to_attrs]. destruct (public_attr a) eqn:Ha; [|split; assumption].
  cbn [map fst snd dict_get to_members key_text].
  rewrite (public_attr_not_marker a Ha), IH2. split; [exact IH1 | reflexivity].
Qed.

(** On the objects the [json] library cannot write itself, [to_json] is
    the encoding of what [JsonifyEncoder.default] returns. *)
Lemma to_json_default (v : pyval) :
  match v with
  | PBytes _ | PDate _ _ _ | PDateTime _ _ _ _ _ _ _ | PInst _ _ =>
      to_json v = (do o <- JsonifyEncoder_default v; to_json o)
  | _ => True
  end.
Proof.
  destruct v as [| | | | b | | | y m d | y m d hh mm ss us | cls attrs];
    try exact I; try reflexivity.
  rewrite to_json_inst. cbn [JsonifyEncoder_default].
  destruct (cls_has_json cls); [|reflexivity].
  cbn [bind]. unfold Jsonable_json. rewrite to_json_dict.
  destruct (public_items attrs) as [Hnone Hloop].
  rewrite dict_set_absent by exact Hnone.
  rewrite to_members_app, Hloop.
  destruct (to_attrs attrs); reflexivity.
Qed.

(** ** The adapters of a store are written by [get_collection] alone *)

Lemma connection_adapters (db : LittleDB) :
  _adapters (LittleDB_connection db) = _adapters db.
Proof. destruct (connection_shape db) as (dk & tx & E). now rewrite E. Qed.

Lemma run_op_adapters (c : codec) (self : Collection) (db : LittleDB) (op : collection_op) :
  _adapters (run_op c self db op) = _adapters db.
Proof.
  destruct op as [k data| k | | |]; cbn [run_op].
  - unfold Collection_set.
    destruct (connection_shape db) as (dk & tx & E). rewrite E. clear E.
    destruct (match data with
              | PDict _ => do b <- from_dict c data; Ok (PBytes b)
              | _ => Ok data
              end) as [data1|e1]; [|reflexivity].
    unfold with_con, execute_insert.
    destruct tx as [d|]; cbn -[find_table update_table insert_or_replace bind_parameter];
      match goal with
      | |- context [find_table ?n ?d] => destruct (find_table n d)
      end; try reflexivity;
      destruct (bind_parameter data1); reflexivity.
  - rewrite Collection_get_state. apply connection_adapters.
  - unfold Collection_keys.
    destruct (find_table _ _); cbn [fst]; apply connection_adapters.
  - unfold Collection_begin, LittleDB_begin.
    destruct (connection_shape db) as (dk & tx & E). rewrite E. clear E.
    destruct tx; reflexivity.
  - unfold Collection_commit.
    destruct (connection_shape db) as (dk & tx & E). rewrite E. clear E.
    destruct tx; reflexivity.
Qed.

Lemma run_ops_adapters_registered (have_umsgpack : bool) (c : codec) (self : Collection)
    (ops : list collection_op) (db : LittleDB) :
  adapters_registered have_umsgpack db ->
  adapters_registered have_umsgpack (run_ops c self ops db).
Proof.
  unfold run_ops. revert db. induction ops as [|op ops IH]; intros db H; [exact H|].
  cbn [fold_left]. apply IH. intros f a Hf. apply H.
  now rewrite run_op_adapters in Hf.
Qed.

(** * Further properties of the code *)

(** ** The registry, class by class *)

Lemma from_format_declared (have_umsgpack : bool) (fmt : option string) (cls : adapter_class) :
  from_format have_umsgpack fmt = Some cls ->
  adapter_format cls = fmt /\ (cls = MsgPackAdapter -> have_umsgpack = true).
Proof.
  unfold from_format. destruct have_umsgpack; cbn;
    repeat match goal with
           | |- context [format_eqb fmt ?f] =>
               let E := fresh "E" in
               destruct (format_eqb fmt f) eqn:E;
               [ apply format_eqb_eq in E; subst fmt;
                 intro H; inversion H; subst; split;
                 [reflexivity | intro; try reflexivity; discriminate]
               | ]
           end; discriminate.
Qed.

(** X1.  The registry maps a format to a class exactly when the class
    declares that format, and holds [MsgPackAdapter] only when [umsgpack]
    could be imported: every class is found under its own [format]
    attribute and under no other name. *)
Theorem X1_registry_by_format (have_umsgpack : bool) (fmt : option string)
    (cls : adapter_class) :
  from_format have_umsgpack fmt = Some cls <->
  (adapter_format cls = fmt /\ (cls = MsgPackAdapter -> have_umsgpack = true)).
Proof.
  split; [apply from_format_declared|].
  intros [Hf Hm]. subst fmt. unfold from_format.
  destruct cls; destruct have_umsgpack; try reflexivity.
  discriminate (Hm eq_refl).
Qed.

(** ** The order of the keys *)

Lemma string_compare_lt_trans (a b c : string) :
  String.compare a b = Lt -> String.compare b c = Lt -> String.compare a c = Lt.
Proof.
  revert b c. induction a as [|x a IH]; intros [|y b] [|z c]; simpl; try congruence.
  unfold Ascii.compare.
  destruct (N.compare_spec (N_of_ascii x) (N_of_ascii y)) as [Exy|Lxy|Gxy]; try discriminate;
    destruct (N.compare_spec (N_of_ascii y) (N_of_ascii z)) as [Eyz|Lyz|Gyz]; try discriminate;
    intros H1 H2.
  - rewrite Exy, Eyz, N.compare_refl. now apply (IH b c).
  - rewrite Exy. apply N.compare_lt_iff in Lyz. now rewrite Lyz.
  - rewrite <- Eyz. apply N.compare_lt_iff in Lxy. now rewrite Lxy.
  - assert (L : (N_of_ascii x < N_of_ascii z)%N) by lia. apply N.compare_lt_iff in L.
    now rewrite L.
Qed.

Lemma string_ltb_trans (a b c : string) :
  String.ltb a b = true -> String.ltb b c = true -> String.ltb a c = true.
Proof.
  unfold String.ltb. intros H1 H2.
  destruct (String.compare a b) eqn:E1; try discriminate.
  destruct (String.compare b c) eqn:E2; try discriminate.
  now rewrite (string_compare_lt_trans a b c E1 E2).
Qed.

Lemma string_ltb_irrefl (a : string) : String.ltb a a = false.
Proof. unfold String.ltb. now rewrite string_compare_refl. Qed.

Lemma string_leb_false_ltb (a b : string) :
  String.leb a b = false -> String.ltb b a = true.
Proof.
  unfold String.leb, String.ltb. rewrite (String.compare_antisym b a).
  destruct (String.compare a b); cbn; congruence.
Qed.

Lemma string_leb_ne_ltb (a b : string) :
  String.leb a b = true -> a <> b -> String.ltb a b = true.
Proof.
  unfold String.leb, String.ltb. intros H Hne.
  destruct (String.compare a b) eqn:E; try congruence.
  apply String.compare_eq_iff in E. contradiction.
Qed.

(** In an ascending list the head is below every other key. *)
Lemma ascending_head (k : string) (ks : list string) :
  ascending (k :: ks) = true -> Forall (fun k' => String.ltb k k' = true) ks.
Proof.
  revert k. induction ks as [|k1 ks IH]; intros k H; [constructor|].
  cbn [ascending] in H. apply andb_prop in H. destruct H as [H1 H2].
  constructor; [exact H1|].
  specialize (IH k1 H2).
  eapply Forall_impl; [|exact IH]. cbn. intros k' Hk'.
  now apply (string_ltb_trans k k1 k').
Qed.

Lemma ascending_tail (k : string) (ks : list string) :
  ascending (k :: ks) = true -> ascending ks = true.
Proof.
  destruct ks as [|k1 ks]; [reflexivity|]. cbn [ascending]. intro H.
  apply andb_prop in H. tauto.
Qed.

Lemma ascending_cons (k : string) (ks : list string) :
  Forall (fun k' => String.ltb k k' = true) ks -> ascending ks = true ->
  ascending (k :: ks) = true.
Proof.
  intros Hall Hks. destruct ks as [|k1 ks]; [reflexivity|].
  change (String.ltb k k1 && ascending (k1 :: ks) = true)%bool.
  inversion Hall; subst. now rewrite H1, Hks.
Qed.

Lemma ascending_NoDup (ks : list string) : ascending ks = true -> NoDup ks.
Proof.
  induction ks as [|k ks IH]; intro H; constructor.
  - intro Hin. pose proof (ascending_head k ks H) as Hall.
    rewrite Forall_forall in Hall. specialize (Hall k Hin).
    rewrite string_ltb_irrefl in Hall. discriminate.
  - apply IH. now apply (ascending_tail k).
Qed.

Lemma in_keys_delete (key k : string) (rows : table) :
  In k (select_keys (delete_rows key rows)) <-> (k <> key /\ In k (select_keys rows)).
Proof.
  unfold select_keys. induction rows as [|[k0 c0] rows IH]; cbn [delete_rows map fst In].
  - tauto.
  - destruct (String.eqb key k0) eqn:E.
    + apply String.eqb_eq in E. subst k0. rewrite IH. split; [tauto|].
      intros [Hne [He|Hin]]; [congruence | tauto].
    + apply String.eqb_neq in E. cbn [map fst In]. rewrite IH. split.
      * intros [He|[Hne Hin]]; [subst; split; [congruence | tauto] | tauto].
      * tauto.
Qed.

Lemma in_keys_insert (key k : string) (c : sqlval) (rows : table) :
  In k (select_keys (insert_row key c rows)) <-> (k = key \/ In k (select_keys rows)).
Proof.
  unfold select_keys. induction rows as [|[k0 c0] rows IH]; cbn [insert_row map fst In].
  - intuition congruence.
  - destruct (String.leb key k0); cbn [map fst In]; [intuition congruence|].
    rewrite IH. tauto.
Qed.

Lemma ascending_delete (key : string) (rows : table) :
  ascending (select_keys rows) = true ->
  ascending (select_keys (delete_rows key rows)) = true.
Proof.
  unfold select_keys. induction rows as [|[k0 c0] rows IH]; intro H; [reflexivity|].
  cbn [map fst] in H. cbn [delete_rows].
  pose proof (ascending_tail _ _ H) as Ht.
  destruct (String.eqb key k0); [now apply IH|].
  cbn [map fst]. apply ascending_cons; [|now apply IH].
  pose proof (ascending_head _ _ H) as Hall.
  rewrite Forall_forall in Hall |- *. intros k Hin.
  apply Hall. apply (in_keys_delete key k rows) in Hin. exact (proj2 Hin).
Qed.

Lemma ascending_insert (key : string) (c : sqlval) (rows : table) :
  ascending (select_keys rows) = true ->
  ~ In key (select_keys rows) ->
  ascending (select_keys (insert_row key c rows)) = true.
Proof.
  unfold select_keys. induction rows as [|[k0 c0] rows IH]; intros H Hnot; [reflexivity|].
  cbn [map fst] in H, Hnot. cbn [insert_row].
  destruct (String.leb key k0) eqn:L.
  - change (String.ltb key k0 && ascending (k0 :: map fst rows) = true)%bool.
    rewrite H, andb_true_r. apply string_leb_ne_ltb; [exact L|].
    intro E. apply Hnot. left. now symmetry.
  - cbn [map fst]. apply ascending_cons.
    + pose proof (ascending_head _ _ H) as Hall.
      rewrite Forall_forall in Hall |- *. intros k Hin.
      apply (in_keys_insert key k c rows) in Hin. destruct Hin as [->|Hin].
      * now apply string_leb_false_ltb.
      * now apply Hall.
    + apply IH; [now apply (ascending_tail k0) | intro Hin; apply Hnot; now right].
Qed.

(** [INSERT OR REPLACE] keeps the keys in ascending order, and adds the key
    to them and nothing else. *)
Lemma keys_replace (key : string) (c : sqlval) (rows : table) :
  ascending (select_keys rows) = true ->
  ascending (select_keys (insert_or_replace key c rows)) = true /\
  forall k, In k (select_keys (insert_or_replace key c rows))
            <-> (k = key \/ In k (select_keys rows)).
Proof.
  intro H. unfold insert_or_replace. split.
  - apply ascending_insert; [now apply ascending_delete|].
    rewrite in_keys_delete. tauto.
  - intro k. rewrite in_keys_insert, in_keys_delete.
    destruct (string_dec k key); tauto.
Qed.

Lemma Collection_keys_rows (self : Collection) (db : LittleDB) (ks : list string) :
  snd (Collection_keys self db) = Ok ks ->
  exists rows, find_table (name self) (current_db (LittleDB_connection db)) = Some rows /\
               ks = select_keys rows.
Proof.
  unfold Collection_keys.
  destruct (find_table (name self) (current_db (LittleDB_connection db))) as [rows|];
    cbn [snd]; intro H; inversion H. eauto.
Qed.

Lemma set_items_keys (c : codec) (self : Collection) (kvs : list (string * pyval)) :
  forall (db : LittleDB) (rows : table),
    find_table (name self) (current_db (LittleDB_connection db)) = Some rows ->
    ascending (select_keys rows) = true ->
    snd (set_items c self kvs db) = Ok tt ->
    exists rows',
      find_table (name self) (current_db (LittleDB_connection (fst (set_items c self kvs db))))
      = Some rows' /\
      ascending (select_keys rows') = true /\
      forall k, In k (select_keys rows') <-> (In k (select_keys rows) \/ In k (map fst kvs)).
Proof.
  induction kvs as [|[k v] kvs IH]; intros db rows Hf Hasc Hok.
  - exists rows. cbn. repeat split; [exact Hf | exact Hasc | tauto | tauto].
  - cbn [set_items] in Hok |- *.
    destruct (Collection_set_cases c self k v db rows Hf) as [Hcon Hcase].
    destruct (Collection_set c self k v db) as [db1 r] eqn:Hset. cbn [fst snd] in *.
    destruct Hcase as [(ct & _ & Hr & Hf1)|(e & _ & Hr & _)]; subst r; [|discriminate Hok].
    rewrite <- Hcon in Hf1.
    destruct (keys_replace k ct rows Hasc) as [Hasc1 Hin1].
    destruct (IH db1 _ Hf1 Hasc1 Hok) as (rows' & Hf' & Hasc' & Hin').
    exists rows'. repeat split; try assumption.
    + intro H. apply Hin' in H. rewrite Hin1 in H. cbn [map fst In]. intuition.
    + intro H. apply Hin'. rewrite Hin1. cbn [map fst In] in H. intuition.
Qed.

(** X2.  [keys()] after a client has written items one after the other,
    all of them stored, on a collection whose keys were in ascending order
    (those of a new table, which has none): the keys come in ascending
    order of their code points whatever the order of the writes, none
    twice, and they are the keys that were there and the keys written. *)
Theorem X2_keys_after_writes (c : codec) (self : Collection)
    (kvs : list (string * pyval)) (db : LittleDB) (ks : list string) :
  snd (Collection_keys self db) = Ok ks ->
  ascending ks = true ->
  snd (set_items c self kvs db) = Ok tt ->
  exists ks',
    snd (Collection_keys self (fst (set_items c self kvs db))) = Ok ks' /\
    ascending ks' = true /\
    NoDup ks' /\
    forall k, In k ks' <-> (In k ks \/ In k (map fst kvs)).
Proof.
  intros Hks Hasc Hok.
  destruct (Collection_keys_rows self db ks Hks) as (rows & Hf & ->).
  destruct (set_items_keys c self kvs db rows Hf Hasc Hok) as (rows' & Hf' & Hasc' & Hin').
  exists (select_keys rows'). unfold Collection_keys. rewrite Hf'. cbn [snd].
  repeat split; try assumption.
  - now apply ascending_NoDup.
  - apply Hin'.
  - apply Hin'.
Qed.

Lemma X2_keys_after_writes_witness :
  exists ks',
    snd (Collection_keys documents
           (fst (set_items JsonAdapter_codec documents
                   [("b", PInt 1); ("a", PStr "x"); ("b", PNone)] documents_db))) = Ok ks' /\
    ascending ks' = true /\
    NoDup ks' /\
    forall k, In k ks' <-> (In k [] \/ In k (map fst [("b", PInt 1); ("a", PStr "x"); ("b", PNone)])).
Proof.
  apply (X2_keys_after_writes JsonAdapter_codec documents
           [("b", PInt 1); ("a", PStr "x"); ("b", PNone)] documents_db []).
  - reflexivity.
  - reflexivity.
  - vm_compute. reflexivity.
Defined.

(** ** What a failed [set] leaves behind *)

(** X3.  A [set] that raises -- the codec rejects the dict, SQLite cannot
    bind the value (a list, an object, an integer beyond 64 bits), or the
    table is missing -- stores nothing: the database as the connection sees
    it, the committed database and the state of the transaction are what
    they were when the call took the connection. *)
Theorem X3_failed_set_stores_nothing (c : codec) (self : Collection) (key : string)
    (data : pyval) (db : LittleDB) (e : exn) :
  snd (Collection_set c self key data db) = Raise e ->
  let db1 := LittleDB_connection db in
  let db2 := fst (Collection_set c self key data db) in
  current_db db2 = current_db db1 /\
  disk db2 = disk db1 /\
  in_transaction db2 = in_transaction db1.
Proof.
  cbv zeta. unfold Collection_set.
  destruct (connection_shape db) as (dk & tx & E). rewrite E. clear E.
  destruct (match data with
            | PDict _ => do b <- from_dict c data; Ok (PBytes b)
            | _ => Ok data
            end) as [data1|e1]; [|intros _; repeat split].
  unfold with_con, execute_insert.
  destruct tx as [d|]; cbn -[find_table update_table insert_or_replace bind_parameter];
    match goal with
    | |- context [find_table ?n ?d] => destruct (find_table n d)
    end; cbn; try (intros _; repeat split; reflexivity);
    destruct (bind_parameter data1); cbn; intro H;
    try discriminate H; repeat split; reflexivity.
Qed.

Lemma X3_failed_set_witness :
  let db1 := LittleDB_connection documents_db in
  let db2 := fst (Collection_set JsonAdapter_codec documents "k" (PList [PInt 1]) documents_db) in
  current_db db2 = current_db db1 /\
  disk db2 = disk db1 /\
  in_transaction db2 = in_transaction db1.
Proof.
  apply (X3_failed_set_stores_nothing JsonAdapter_codec documents "k" (PList [PInt 1])
           documents_db InterfaceError).
  reflexivity.
Defined.

(** ** Dates stored outside a dict *)

(** What [get] returns, from the database as the connection sees it. *)
Lemma Collection_get_result (c : codec) (self : Collection) (key : string) (db : LittleDB) :
  snd (Collection_get c self key db)
  = match find_table (name self) (current_db (LittleDB_connection db)) with
    | None => Raise (OperationalError "no such table")
    | Some rows =>
        match select_content key rows with
        | None => Raise (KeyError key)
        | Some content => loaded_value c content
        end
    end.
Proof.
  unfold Collection_get, loaded_value.
  destruct (find_table (name self) (current_db (LittleDB_connection db))) as [rows|];
    [|reflexivity].
  destruct (select_content key rows) as [ct|]; [|reflexivity].
  destruct (column_value ct); reflexivity.
Qed.

Lemma set_get_content (c : codec) (self : Collection) (key : string) (v : pyval)
    (db : LittleDB) (content : sqlval) :
  table_exists self db ->
  stored_content c v = Ok content ->
  snd (Collection_set c self key v db) = Ok tt /\
  snd (Collection_get c self key (fst (Collection_set c self key v db)))
  = loaded_value c content.
Proof.
  unfold table_exists. intros Hex Hst.
  destruct (find_table (name self) (current_db (LittleDB_connection db)))
    as [rows|] eqn:Hf; [clear Hex | contradiction Hex; reflexivity].
  destruct (Collection_set_ok c self key v db rows content Hf Hst)
    as (db2 & Hset & Hcon & _ & Hf2).
  rewrite Hset. cbn [fst snd]. split; [reflexivity|].
  rewrite <- Hcon in Hf2.
  rewrite (Collection_get_row c self key db2 _ content Hf2 (select_replace_same _ _ _)).
  reflexivity.
Qed.

(** X4.  A date or a date-time given to [set] as the value itself, not
    inside a dict, is not encoded by the codec: [sqlite3] stores its ISO
    text, and [get] returns that string ([YYYY-MM-DD], and
    [YYYY-MM-DD HH:MM:SS] with the microseconds after a point when they
    are not zero), not the date. *)
Theorem X4_raw_date_reads_back_as_text (c : codec) (self : Collection) (key : string)
    (db : LittleDB) :
  table_exists self db ->
  (forall y m d,
      snd (Collection_set c self key (PDate y m d) db) = Ok tt /\
      snd (Collection_get c self key (fst (Collection_set c self key (PDate y m d) db)))
      = Ok (PStr (date_isoformat y m d))) /\
  (forall y m d hh mm ss us,
      snd (Collection_set c self key (PDateTime y m d hh mm ss us) db) = Ok tt /\
      snd (Collection_get c self key
             (fst (Collection_set c self key (PDateTime y m d hh mm ss us) db)))
      = Ok (PStr (datetime_isoformat y m d hh mm ss us))).
Proof.
  intro Hex. split; intros.
  - apply (set_get_content c self key (PDate y m d) db
             (SqlText (date_isoformat y m d)) Hex). reflexivity.
  - apply (set_get_content c self key (PDateTime y m d hh mm ss us) db
             (SqlText (datetime_isoformat y m d hh mm ss us)) Hex). reflexivity.
Qed.

Lemma X4_raw_date_witness :
  snd (Collection_set JsonAdapter_codec documents "today" (PDate 2020 1 1) documents_db) = Ok tt /\
  snd (Collection_get JsonAdapter_codec documents "today"
         (fst (Collection_set JsonAdapter_codec documents "today" (PDate 2020 1 1) documents_db)))
  = Ok (PStr (date_isoformat 2020 1 1)).
Proof.
  apply (proj1 (X4_raw_date_reads_back_as_text JsonAdapter_codec documents "today" documents_db
                  documents_table_exists)).
Defined.

(** ** Keys do not interfere *)

(** X5.  [set] on one key changes what [get] returns for no other key,
    whether the [set] returns or raises. *)
Theorem X5_set_leaves_other_keys (c : codec) (self : Collection) (key key' : string)
    (data : pyval) (db : LittleDB) :
  table_exists self db ->
  key' <> key ->
  snd (Collection_get c self key' (fst (Collection_set c self key data db)))
  = snd (Collection_get c self key' db).
Proof.
  unfold table_exists. intros Hex Hne.
  destruct (find_table (name self) (current_db (LittleDB_connection db)))
    as [rows|] eqn:Hf; [clear Hex | contradiction Hex; reflexivity].
  destruct (Collection_set_cases c self key data db rows Hf) as [Hcon Hcase].
  set (db2 := fst (Collection_set c self key data db)) in *.
  rewrite !Collection_get_result, Hcon, Hf.
  destruct Hcase as [(ct & _ & _ & Hf2)|(e & _ & _ & Hf2)]; rewrite Hf2.
  - now rewrite select_replace_other by exact Hne.
  - reflexivity.
Qed.

Lemma X5_set_leaves_other_keys_witness :
  let db1 := fst (Collection_set JsonAdapter_codec documents "a" (PInt 1) documents_db) in
  snd (Collection_get JsonAdapter_codec documents "a"
         (fst (Collection_set JsonAdapter_codec documents "b" (PInt 2) db1)))
  = snd (Collection_get JsonAdapter_codec documents "a" db1).
Proof.
  apply (X5_set_leaves_other_keys JsonAdapter_codec documents "b" "a" (PInt 2)).
  - vm_compute. discriminate.
  - discriminate.
Defined.

(** ** Closing the store *)

Lemma file_backed_connect (db : LittleDB) :
  file_backed db -> disk (connect db) = disk db.
Proof.
  intros [Hm _]. unfold connect. cbn [disk].
  apply String.eqb_neq in Hm. now rewrite Hm.
Qed.

(** After [close] the next call opens a new connection, which sees the
    committed database of a store kept in a file. *)
Lemma close_then_connection (db : LittleDB) :
  file_backed db ->
  local_connection db <> None ->
  current_db (LittleDB_connection (LittleDB_close db)) = disk db.
Proof.
  intros Hfb Hc. destruct db as [fn dk [con|] ad]; [|contradiction Hc; reflexivity].
  destruct Hfb as [Hm _]. cbn in Hm. apply String.eqb_neq in Hm.
  cbn. now rewrite Hm.
Qed.

Lemma get_by_view (c : codec) (self : Collection) (key : string) (db db' : LittleDB) :
  current_db (LittleDB_connection db) = current_db (LittleDB_connection db') ->
  snd (Collection_get c self key db) = snd (Collection_get c self key db').
Proof.
  intro H. rewrite !Collection_get_result. now rewrite H.
Qed.

(** X6.  A store kept in a file, [begin()], a [set] that returns, and
    then [close()] without [commit()]: the write is gone, every key reads
    as it did before [begin()].  With [commit()] before [close()] the key
    reads what [set] stored. *)
Theorem X6_close_drops_uncommitted (c : codec) (self : Collection) (key : string)
    (data : pyval) (db db1 db2 : LittleDB) :
  file_backed db ->
  LittleDB_begin db = (db1, Ok tt) ->
  Collection_set c self key data db1 = (db2, Ok tt) ->
  (forall key',
      snd (Collection_get c self key' (LittleDB_close db2))
      = snd (Collection_get c self key' db)) /\
  (exists content,
      stored_content c data = Ok content /\
      snd (Collection_get c self key (LittleDB_close (LittleDB_commit db2)))
      = loaded_value c content).
Proof.
  intros Hfb Hbegin Hset.
  assert (Hfb' := Hfb). destruct Hfb' as [Hm _]. apply String.eqb_neq in Hm.
  unfold LittleDB_begin in Hbegin.
  destruct (connection_shape db) as (dk & tx & E). rewrite E in Hbegin.
  destruct tx as [d|]; cbn in Hbegin; [discriminate Hbegin|].
  inversion Hbegin; subst db1; clear Hbegin.
  unfold Collection_set in Hset. cbn [LittleDB_connection local_connection con_open set_txn] in Hset.
  destruct (match data with
            | PDict _ => do b <- from_dict c data; Ok (PBytes b)
            | _ => Ok data
            end) as [data1|e1] eqn:Hd; [|discriminate Hset].
  cbn [in_transaction local_connection con_txn] in Hset.
  unfold execute_insert in Hset.
  cbn -[find_table update_table insert_or_replace bind_parameter] in Hset.
  destruct (find_table (name self) dk) as [rows|] eqn:Hf; [|discriminate Hset].
  destruct (bind_parameter data1) as [content|e1] eqn:Hb; [|discriminate Hset].
  cbn -[find_table update_table insert_or_replace] in Hset.
  inversion Hset; subst db2; clear Hset.
  split.
  - intro key'. apply get_by_view. rewrite E. cbn. now rewrite Hm.
  - exists content. split.
    + unfold stored_content. now rewrite Hd.
    + rewrite Collection_get_result. cbn. rewrite Hm. cbn.
      rewrite (find_update_same _ _ rows dk Hf), select_replace_same.
      reflexivity.
Qed.

Lemma X6_close_drops_uncommitted_witness :
  let db1 := fst (LittleDB_begin documents_file_db) in
  let db2 := fst (Collection_set JsonAdapter_codec documents "doc1" doc1 db1) in
  (forall key',
      snd (Collection_get JsonAdapter_codec documents key' (LittleDB_close db2))
      = snd (Collection_get JsonAdapter_codec documents key' documents_file_db)) /\
  (exists content,
      stored_content JsonAdapter_codec doc1 = Ok content /\
      snd (Collection_get JsonAdapter_codec documents "doc1"
             (LittleDB_close (LittleDB_commit db2)))
      = loaded_value JsonAdapter_codec content).
Proof.
  apply (X6_close_drops_uncommitted JsonAdapter_codec documents "doc1" doc1 documents_file_db
           (fst (LittleDB_begin documents_file_db))
           (fst (Collection_set JsonAdapter_codec documents "doc1" doc1
                   (fst (LittleDB_begin documents_file_db))))).
  - split; discriminate.
  - reflexivity.
  - vm_compute. reflexivity.
Defined.

(** X7.  A store kept in a file, no transaction open: a [set] that
    returns has committed its row, and after [close()] every key reads as
    it did right after the [set]. *)
Theorem X7_autocommit_survives_close (c : codec) (self : Collection) (key : string)
    (data : pyval) (db db2 : LittleDB) :
  file_backed db ->
  in_transaction (LittleDB_connection db) = false ->
  Collection_set c self key data db = (db2, Ok tt) ->
  forall key',
    snd (Collection_get c self key' (LittleDB_close db2))
    = snd (Collection_get c self key' db2).
Proof.
  intros Hfb Htx Hset key'.
  assert (Hfb' := Hfb). destruct Hfb' as [Hm _]. apply String.eqb_neq in Hm.
  unfold Collection_set in Hset.
  destruct (connection_shape db) as (dk & tx & E). rewrite E in Hset, Htx.
  destruct tx as [d|]; [discriminate Htx|]. clear Htx.
  destruct (match data with
            | PDict _ => do b <- from_dict c data; Ok (PBytes b)
            | _ => Ok data
            end) as [data1|e1]; [|discriminate Hset].
  cbn [in_transaction local_connection con_txn] in Hset.
  unfold with_con, execute_insert in Hset.
  cbn -[find_table update_table insert_or_replace bind_parameter] in Hset.
  destruct (find_table (name self) dk) as [rows|]; [|discriminate Hset].
  destruct (bind_parameter data1) as [content|e1]; [|discriminate Hset].
  cbn -[find_table update_table insert_or_replace] in Hset.
  inversion Hset; subst db2; clear Hset.
  apply get_by_view. cbn. now rewrite Hm.
Qed.

Lemma X7_autocommit_survives_close_witness :
  snd (Collection_get JsonAdapter_codec documents "doc1"
         (LittleDB_close
            (fst (Collection_set JsonAdapter_codec documents "doc1" doc1 documents_file_db))))
  = snd (Collection_get JsonAdapter_codec documents "doc1"
           (fst (Collection_set JsonAdapter_codec documents "doc1" doc1 documents_file_db))).
Proof.
  apply (X7_autocommit_survives_close JsonAdapter_codec documents "doc1" doc1 documents_file_db
           (fst (Collection_set JsonAdapter_codec documents "doc1" doc1 documents_file_db))).
  - split; discriminate.
  - reflexivity.
  - vm_compute. reflexivity.
Defined.

(** X8.  A store in memory does not outlive its connection: after
    [close()] the next call connects to a new, empty database, and [get]
    and [keys] fail for want of the table, whatever was stored. *)
Theorem X8_memory_store_lost_on_close (c : codec) (self : Collection) (key : string)
    (db : LittleDB) :
  filename db = ":memory:" ->
  snd (Collection_get c self key (LittleDB_close db)) = Raise (OperationalError "no such table") /\
  snd (Collection_keys self (LittleDB_close db)) = Raise (OperationalError "no such table").
Proof.
  intro Hm. destruct db as [fn dk [[op tx]|] ad]; cbn in Hm; subst fn; split; reflexivity.
Qed.

Lemma X8_memory_store_lost_witness :
  let db1 := fst (Collection_set JsonAdapter_codec documents "doc1" doc1 documents_db) in
  snd (Collection_get JsonAdapter_codec documents "doc1" (LittleDB_close db1))
  = Raise (OperationalError "no such table") /\
  snd (Collection_keys documents (LittleDB_close db1)) = Raise (OperationalError "no such table").
Proof.
  apply (X8_memory_store_lost_on_close JsonAdapter_codec documents "doc1").
  reflexivity.
Defined.

(** ** [get_collection], call after call *)

Lemma create_keeps_rows (cname : string) (st : LittleDB) (rows : table) :
  find_table cname (current_db (LittleDB_connection st)) = Some rows ->
  find_table cname (disk (fst (with_con (execute_create cname) (LittleDB_connection st))))
  = Some rows.
Proof.
  destruct (connection_shape st) as (dk & tx & E). rewrite E. clear E.
  destruct tx as [d|]; cbn; intro H; unfold create_table; rewrite H; exact H.
Qed.

(** X9.  The first [get_collection] of a store for a format that names a
    codec class: the call returns a collection of that name, format and
    class, and caches the class under the format; the table exists in the
    committed database, with the rows it had if it was there already; and
    no transaction is left open -- what was pending on the connection is
    committed with the table. *)
Theorem X9_get_collection_first_call (have_umsgpack : bool) (self : LittleDB)
    (cname f : string) (cls : adapter_class) :
  table_name_ok cname = true ->
  registry_get (Some f) (_adapters self) = None ->
  from_format have_umsgpack (Some f) = Some cls ->
  exists self',
    LittleDB_get_collection have_umsgpack self cname (Some f)
    = (self', Ok {| name := cname; format := Some f; adapter := cls |}) /\
    registry_get (Some f) (_adapters self') = Some cls /\
    find_table cname (disk self') <> None /\
    (forall rows, find_table cname (current_db (LittleDB_connection self)) = Some rows ->
                  find_table cname (disk self') = Some rows) /\
    in_transaction self' = false /\
    current_db self' = disk self'.
Proof.
  intros _ Hfresh Hreg.
  assert (Hm : has_codec_methods cls = true).
  { apply from_format_declared in Hreg. destruct Hreg as [Hf _].
    destruct cls; [discriminate Hf | reflexivity | reflexivity | reflexivity]. }
  unfold LittleDB_get_collection. rewrite Hfresh, Hreg.
  set (self1 := {| filename := filename self; disk := disk self;
                   local_connection := local_connection self;
                   _adapters := registry_set (Some f) cls (_adapters self) |}).
  pose proof (create_committed cname self1) as (Htab & Hcur & Htx & Had).
  pose proof (create_keeps_rows cname self1) as Hrows.
  assert (Hview : current_db (LittleDB_connection self1) = current_db (LittleDB_connection self)).
  { destruct self as [fn dk [[[|] [d|]]|] ad]; reflexivity. }
  rewrite Hview in Hrows.
  destruct (with_con (execute_create cname) (LittleDB_connection self1)) as [s2 r2].
  cbn [fst] in *.
  exists s2. unfold Collection_init. rewrite Hm.
  repeat split; try assumption.
  rewrite Had. apply registry_get_set_same.
Qed.

Lemma X9_get_collection_first_call_witness :
  exists self',
    LittleDB_get_collection false (LittleDB_init ":memory:") "documents" (Some "json")
    = (self', Ok {| name := "documents"; format := Some "json"; adapter := JsonAdapter |}) /\
    registry_get (Some "json") (_adapters self') = Some JsonAdapter /\
    find_table "documents" (disk self') <> None /\
    (forall rows,
        find_table "documents" (current_db (LittleDB_connection (LittleDB_init ":memory:")))
        = Some rows ->
        find_table "documents" (disk self') = Some rows) /\
    in_transaction self' = false /\
    current_db self' = disk self'.
Proof.
  apply (X9_get_collection_first_call false (LittleDB_init ":memory:") "documents" "json"
           JsonAdapter); reflexivity.
Defined.

(** X10.  A store hands out one collection per format: once
    [get_collection] has returned a collection for a format, every later
    [get_collection] of the store with that format, for whatever table,
    finds the format cached, never binds the local variable [adapter], and
    raises [UnboundLocalError] -- after creating the table. *)
Theorem X10_get_collection_second_call (have_umsgpack : bool) (self self1 : LittleDB)
    (cname cname2 : string) (fmt : option string) (coll : Collection) :
  table_name_ok cname = true ->
  table_name_ok cname2 = true ->
  LittleDB_get_collection have_umsgpack self cname fmt = (self1, Ok coll) ->
  exists self2,
    LittleDB_get_collection have_umsgpack self1 cname2 fmt
    = (self2, Raise (UnboundLocalError "adapter")) /\
    find_table cname2 (disk self2) <> None.
Proof.
  intros _ _ Hfirst.
  assert (Hcached : registry_get fmt (_adapters self1) <> None).
  { revert Hfirst. unfold LittleDB_get_collection.
    destruct (registry_get fmt (_adapters self)) as [a|] eqn:Hc.
    - destruct (with_con (execute_create cname) (LittleDB_connection self)); discriminate.
    - destruct (from_format have_umsgpack fmt) as [cls|]; [|discriminate].
      set (s1 := {| filename := filename self; disk := disk self;
                    local_connection := local_connection self;
                    _adapters := registry_set fmt cls (_adapters self) |}).
      pose proof (create_committed cname s1) as (_ & _ & _ & Had).
      destruct (with_con (execute_create cname) (LittleDB_connection s1)) as [s2 r2].
      cbn [fst] in Had. intro H. inversion H; subst s2.
      rewrite Had. cbn [_adapters s1]. rewrite registry_get_set_same. discriminate. }
  unfold LittleDB_get_collection.
  destruct (registry_get fmt (_adapters self1)) as [a|]; [|contradiction Hcached; reflexivity].
  pose proof (create_committed cname2 self1) as (Htab & _).
  destruct (with_con (execute_create cname2) (LittleDB_connection self1)) as [s2 r2].
  exists s2. split; [reflexivity | exact Htab].
Qed.

Lemma X10_get_collection_second_call_witness :
  exists self2,
    LittleDB_get_collection false documents_db "comments" (Some "json")
    = (self2, Raise (UnboundLocalError "adapter")) /\
    find_table "comments" (disk self2) <> None.
Proof.
  apply (X10_get_collection_second_call false (LittleDB_init ":memory:") documents_db
           "documents" "comments" (Some "json") documents).
  - reflexivity.
  - reflexivity.
  - reflexivity.
Defined.

(** ** The benchmark client *)

Lemma string_of_Z_inj (a b : Z) : string_of_Z a = string_of_Z b -> a = b.
Proof.
  unfold string_of_Z. intro H. apply DecimalZ.to_int_inj.
  pose proof (NilEmpty.isi (Z.to_int a)) as Ha.
  pose proof (NilEmpty.isi (Z.to_int b)) as Hb.
  rewrite H in Ha. congruence.
Qed.

Lemma write_each_rows (c : codec) (coll : Collection) (vals : list pyval) :
  forall (i : Z) (conn : LittleDB) (rows : table),
    find_table (name coll) (current_db (LittleDB_connection conn)) = Some rows ->
    Forall (kept c) vals ->
    exists conn' rows',
      write_each c coll i vals conn = (conn', Ok tt) /\
      in_transaction (LittleDB_connection conn') = in_transaction (LittleDB_connection conn) /\
      find_table (name coll) (current_db (LittleDB_connection conn')) = Some rows' /\
      (forall (j : nat) (v : pyval),
          nth_error vals j = Some v ->
          exists content, loaded_value c content = Ok v /\
                          select_content (string_of_Z (i + Z.of_nat j)) rows' = Some content).
Proof.
  induction vals as [|v vals IH]; intros i conn rows Hf Hk.
  - exists conn, rows. cbn [write_each]. repeat split; try assumption.
    intros [|j] v H; discriminate H.
  - inversion Hk as [|v0 vs Hv Hvs]; subst.
    destruct (kept_stored c v Hv) as (ct & Hst & Hl).
    destruct (Collection_set_ok c coll (string_of_Z i) v conn rows ct Hf Hst)
      as (conn1 & Hset & Hcon & Htx & Hf1).
    cbn [write_each]. unfold DBTest_write. rewrite Hset.
    rewrite <- Hcon in Hf1.
    destruct (IH (i + 1) conn1 _ Hf1 Hvs) as (conn' & rows' & Hw & Htx' & Hf' & Hsel).
    exists conn', rows'. rewrite Hcon in Htx'.
    split; [exact Hw|]. split; [congruence|]. split; [exact Hf'|].
    intros [|j] w Hw'.
    + cbn in Hw'. inversion Hw'; subst w. exists ct. split; [exact Hl|].
      rewrite Z.add_0_r.
      (* the later writes have other keys *)
      clear - Hw Hf1 Hf' Hvs.
      assert (G : forall vs k conn1 rows1 conn' rows',
                 write_each c coll k vs conn1 = (conn', Ok tt) ->
                 find_table (name coll) (current_db (LittleDB_connection conn1)) = Some rows1 ->
                 find_table (name coll) (current_db (LittleDB_connection conn')) = Some rows' ->
                 i < k ->
                 select_content (string_of_Z i) rows' = select_content (string_of_Z i) rows1).
      { clear. induction vs as [|x vs IHv]; intros k conn1 rows1 conn' rows' Hw H1 H' Hlt.
        - cbn in Hw. inversion Hw; subst. congruence.
        - cbn [write_each] in Hw. unfold DBTest_write in Hw.
          destruct (Collection_set_cases c coll (string_of_Z k) x conn1 rows1 H1) as [Hcon Hcase].
          destruct (Collection_set c coll (string_of_Z k) x conn1) as [conn2 r] eqn:Hs.
          cbn [fst snd] in *.
          destruct Hcase as [(ct & _ & Hr & Hf2)|(e & _ & Hr & _)]; subst r; [|discriminate Hw].
          rewrite <- Hcon in Hf2.
          rewrite (IHv (k + 1) conn2 _ conn' rows' Hw Hf2 H') by lia.
          apply select_replace_other. intro E. apply string_of_Z_inj in E. lia. }
      rewrite (G vals (i + 1) conn1 _ conn' rows' Hw Hf1 Hf') by lia.
      apply select_replace_same.
    + cbn in Hw'. destruct (Hsel j w Hw') as (ct' & Hl' & Hs').
      exists ct'. split; [exact Hl'|].
      replace (i + Z.of_nat (S j)) with (i + 1 + Z.of_nat j) by lia. exact Hs'.
Qed.

(** X11.  The benchmark's [test_writes] on a collection whose table
    exists, with no transaction open and values the collection keeps
    ([None], integers of 64 bits, strings, dicts the codec round-trips):
    the transaction is begun, every value is written under the decimal text
    of its index, and the commit leaves no transaction open and everything
    in the committed database; [read] of the text of an index then returns
    the value written at that index. *)
Theorem X11_test_writes_then_read (c : codec) (coll : Collection) (vals : list pyval)
    (conn : LittleDB) :
  table_exists coll conn ->
  in_transaction (LittleDB_connection conn) = false ->
  Forall (kept c) vals ->
  exists conn',
    DBTest_test_writes c coll vals conn = (conn', Ok tt) /\
    in_transaction conn' = false /\
    current_db conn' = disk conn' /\
    forall (i : nat) (v : pyval),
      nth_error vals i = Some v ->
      snd (DBTest_read c coll (string_of_Z (Z.of_nat i)) conn') = Ok v.
Proof.
  unfold table_exists. intros Hex Htx Hk.
  destruct (find_table (name coll) (current_db (LittleDB_connection conn)))
    as [rows|] eqn:Hf; [clear Hex | contradiction Hex; reflexivity].
  unfold DBTest_test_writes, LittleDBTest_begin, LittleDB_begin. rewrite Htx.
  set (conn1 := set_txn (Some (disk (LittleDB_connection conn))) (LittleDB_connection conn)).
  assert (Hf1 : find_table (name coll) (current_db (LittleDB_connection conn1)) = Some rows).
  { revert Hf Htx. destruct (connection_shape conn) as (dk & tx & E). subst conn1. rewrite E.
    destruct tx; [discriminate|]. cbn. auto. }
  destruct (write_each_rows c coll vals 0 conn1 rows Hf1 Hk)
    as (conn2 & rows2 & Hw & Htx2 & Hf2 & Hsel).
  rewrite Hw. unfold LittleDBTest_commit, LittleDB_commit.
  eexists. split; [reflexivity|].
  assert (Hin : in_transaction (LittleDB_connection conn2) = true).
  { rewrite Htx2. subst conn1. destruct (connection_shape conn) as (dk & tx & E). rewrite E.
    reflexivity. }
  destruct (connection_shape conn2) as (dk2 & tx2 & E2). rewrite E2 in Hin, Hf2 |- *.
  destruct tx2 as [d2|]; [|discriminate Hin]. cbn in Hf2.
  split; [reflexivity|]. split; [reflexivity|].
  intros i v Hv. destruct (Hsel i v Hv) as (ct & Hl & Hs).
  unfold DBTest_read. rewrite Collection_get_result. cbn. rewrite Hf2.
  cbn in Hs. rewrite Hs. exact Hl.
Qed.

Lemma X11_test_writes_witness :
  exists conn',
    DBTest_test_writes JsonAdapter_codec documents [PInt 7; doc1; PStr "x"] documents_db
    = (conn', Ok tt) /\
    in_transaction conn' = false /\
    current_db conn' = disk conn' /\
    forall (i : nat) (v : pyval),
      nth_error [PInt 7; doc1; PStr "x"] i = Some v ->
      snd (DBTest_read JsonAdapter_codec documents (string_of_Z (Z.of_nat i)) conn') = Ok v.
Proof.
  apply (X11_test_writes_then_read JsonAdapter_codec documents [PInt 7; doc1; PStr "x"]
           documents_db).
  - exact documents_table_exists.
  - reflexivity.
  - repeat constructor; [vm_compute; intuition discriminate | exact kept_doc1].
Defined.

(** ** Instances of [Jsonable] classes *)

Lemma builtin_names_resolve (ns : namespace) :
  keeps_builtin_names ns ->
  resolve_class (JsonifyDecoder_init (Some ns)) "_date" = ObjDateClass /\
  resolve_class (JsonifyDecoder_init (Some ns)) "_datetime" = ObjDateTimeClass.
Proof.
  intros [Hd Hdt]. unfold resolve_class, JsonifyDecoder_init.
  rewrite !ns_get_setdefault, Hd, Hdt. split; reflexivity.
Qed.














(** ** The namespace and plain values *)



(** ** Texts that hold no document *)

(** X14.  A text of white space only, the empty text included, is no
    document: [loads] raises the [json] library's decode error for every
    namespace, and so does [JsonAdapter.to_dict] on the bytes of such a
    text. *)
Theorem X14_blank_text_raises (s : string) (ns : option namespace) :
  skip_ws s = "" ->
  loads s ns = Raise JSONDecodeError /\
  to_dict JsonAdapter_codec (utf8_encode s) = Raise JSONDecodeError.
Proof.
  intro Hs.
  assert (H : forall n, loads s n = Raise JSONDecodeError).
  { intro n. unfold loads, json_loads. rewrite Hs. reflexivity. }
  split; [apply H|].
  cbn [to_dict JsonAdapter_codec]. unfold JsonAdapter_to_dict.
  rewrite utf8_round_trip. apply H.
Qed.

Lemma X14_blank_text_witness :
  loads (String " " (String "010" "")) None = Raise JSONDecodeError /\
  to_dict JsonAdapter_codec (utf8_encode (String " " (String "010" "")))
  = Raise JSONDecodeError.
Proof.
  apply (X14_blank_text_raises (String " " (String "010" "")) None). reflexivity.
Defined.

(** ** Dates that do not exist *)

(** X15.  The decoder builds no date that does not exist: the text of a
    [_date] object whose three arguments are integers of the size of a C
    [int] but name no day of the calendar (a month 13, a 30th of February,
    a year 0 or 10000) makes [loads] raise [ValueError], with every
    namespace that leaves the name [_date] alone. *)
Theorem X15_invalid_date_raises (ns : namespace) (y m d : Z) :
  keeps_builtin_names ns ->
  -2147483648 <= y <= 2147483647 ->
  -2147483648 <= m <= 2147483647 ->
  -2147483648 <= d <= 2147483647 ->
  valid_date y m d = false ->
  loads (date_text y m d) (Some ns) = Raise ValueError.
Proof.
  intros Hkeep Hy Hm Hd Hv.
  destruct (builtin_names_resolve ns Hkeep) as [Hdate _].
  unfold date_text.
  rewrite (loads_object ns _ [ ("__class__", PStr "_date");
                               ("__newargs__", PList [PInt y; PInt m; PInt d]) ])
    by reflexivity.
  change (members_dict [ ("__class__", PStr "_date");
                         ("__newargs__", PList [PInt y; PInt m; PInt d]) ])
    with [ (KStr "__class__", PStr "_date");
           (KStr "__newargs__", PList [PInt y; PInt m; PInt d]) ].
  rewrite (decode_tagged_marker _ _ "_date") by (try reflexivity; discriminate).
  rewrite Hdate. cbv zeta.
  cbn [dict_remove dict_get pykey_eqb String.eqb Ascii.eqb Bool.eqb star_args bind class_new].
  unfold date_new. cbn [pickled_state c_ints as_c_int].
  assert (E : forall z, -2147483648 <= z <= 2147483647 ->
                        ((-2147483648 <=? z) && (z <=? 2147483647))%bool = true).
  { intros z Hz. apply andb_true_intro. split; apply Z.leb_le; lia. }
  rewrite (E y Hy), (E m Hm), (E d Hd). cbn [bind]. now rewrite Hv.
Qed.

Lemma X15_invalid_date_witness :
  loads (date_text 2021 2 29) (Some []) = Raise ValueError.
Proof.
  apply (X15_invalid_date_raises [] 2021 2 29); try lia.
  - split; reflexivity.
  - reflexivity.
Defined.

(** ** What the decoder sets on an instance *)

Lemma set_public_attrs_names (state : list (pykey * pyval)) :
  forall (cls cls' : pyclass) (acc attrs : list (string * pyval)),
    set_public_attrs (PInst cls acc) state = Ok (PInst cls' attrs) ->
    cls' = cls /\
    forall a, In a (map fst attrs) ->
              In a (map fst acc) \/ (public_attr a = true /\ dict_get (KStr a) state <> None).
Proof.
  induction state as [|[[k|z] x] state IH]; intros cls cls' acc attrs H; cbn [set_public_attrs] in H.
  - inversion H; subst. split; [reflexivity | intros a Ha; now left].
  - destruct (public_attr k) eqn:Hk.
    + cbn [py_setattr bind] in H. destruct (IH _ _ _ _ H) as [Hc Hin].
      split; [exact Hc|]. intros a Ha. destruct (Hin a Ha) as [Hacc|[Hp Hd]].
      * assert (Hcase : In a (map fst acc) \/ a = k).
        { clear - Hacc. induction acc as [|[b y] acc IHa]; cbn [attr_set map fst In] in *.
          - destruct Hacc as [E|[]]. now right.
          - destruct (String.eqb k b); cbn [map fst In] in Hacc.
            + left. exact Hacc.
            + destruct Hacc as [E|Hin]; [left; now left|].
              destruct (IHa Hin) as [H1|H1]; [left; now right | now right]. }
        destruct Hcase as [H1| ->]; [now left|]. right. split; [exact Hk|].
        cbn [dict_get pykey_eqb]. rewrite String.eqb_refl. discriminate.
      * right. split; [exact Hp|]. cbn [dict_get pykey_eqb].
        destruct (String.eqb a k); [discriminate | exact Hd].
    + destruct (IH _ _ _ _ H) as [Hc Hin].
      split; [exact Hc|]. intros a Ha. destruct (Hin a Ha) as [Hacc|[Hp Hd]]; [now left|].
      right. split; [exact Hp|]. cbn [dict_get pykey_eqb].
      destruct (String.eqb a k); [discriminate | exact Hd].
  - discriminate H.
Qed.

Lemma set_public_attrs_other (state : list (pykey * pyval)) (inst v : pyval) :
  (forall c a, inst <> PInst c a) ->
  set_public_attrs inst state = Ok v -> v = inst.
Proof.
  intro Hno. induction state as [|[[k|z] x] state IH]; cbn [set_public_attrs]; intro H.
  - now inversion H.
  - destruct (public_attr k); [|now apply IH].
    destruct inst; cbn in H; try discriminate H. exfalso. now apply (Hno cls attrs).
  - discriminate H.
Qed.

Lemma dict_get_remove_some {V : Type} (d : list (pykey * V)) (k k' : pykey) :
  dict_get k' (dict_remove k d) <> None -> dict_get k' d <> None.
Proof.
  intros H E. apply H. now apply dict_get_remove_none.
Qed.

Lemma dict_get_set_some {V : Type} (d : list (pykey * V)) (k k' : pykey) (v : V) :
  dict_get k' (dict_set k v d) <> None -> k' = k \/ dict_get k' d <> None.
Proof.
  intro H. destruct (pykey_eqb k' k) eqn:E.
  - left. now apply pykey_eqb_eq.
  - right. now rewrite dict_get_set_other in H by exact E.
Qed.

Lemma dict_get_of_pairs_some {V : Type} (l : list (pykey * V)) (k : pykey) :
  dict_get k (dict_of_pairs l) <> None -> dict_get k l <> None.
Proof.
  unfold dict_of_pairs.
  assert (G : forall acc, dict_get k (fold_left (fun d kv => dict_set (fst kv) (snd kv) d) l acc)
                          <> None ->
                          dict_get k acc <> None \/ dict_get k l <> None).
  { induction l as [|[k0 v0] l IH]; intros acc H; cbn [fold_left] in H; [now left|].
    destruct (IH _ H) as [H1|H1].
    - cbn [fst snd] in H1. destruct (dict_get_set_some _ _ _ _ H1) as [->|H2]; [|now left].
      right. cbn [dict_get]. rewrite pykey_eqb_refl. discriminate.
    - right. cbn [dict_get]. destruct (pykey_eqb k k0); [discriminate | exact H1]. }
  intro H. destruct (G [] H) as [H1|H1]; [contradiction H1; reflexivity | exact H1].
Qed.

Lemma decode_items_keys (ns : namespace) (items r : list (pykey * pyval)) (k : pykey) :
  decode_items ns items = Ok r -> dict_get k r <> None -> dict_get k items <> None.
Proof.
  revert r. induction items as [|[k0 x] items IH]; intros r H; cbn [decode_items] in H.
  - inversion H; subst. auto.
  - apply bind_ok in H. destruct H as (x' & _ & H).
    apply bind_ok in H. destruct H as (r' & Hr & H).
    inversion H; subst; clear H. cbn [dict_get].
    destruct (pykey_eqb k k0); [discriminate|]. now apply IH.
Qed.

(** X16.  When [decode_object] turns a dict into an instance of a class
    of the namespace, every attribute of the instance is a key of the dict
    with a public name: a key that starts with two underscores is never
    set as an attribute. *)
Theorem X16_decoder_sets_public_attrs (ns : namespace) (items : list (pykey * pyval))
    (cls : pyclass) (attrs : list (string * pyval)) :
  decode_object ns (PDict items) = Ok (PInst cls attrs) ->
  forall a, In a (map fst attrs) ->
            public_attr a = true /\ dict_get (KStr a) items <> None.
Proof.
  rewrite decode_object_dict. intro H.
  apply bind_ok in H. destruct H as (r & Hr & H).
  unfold decode_tagged, dict_pop in H.
  destruct (dict_get (KStr "__class__") (dict_of_pairs r)) as [marker|]; [|discriminate H].
  destruct (truthy marker); [|discriminate H].
  destruct marker as [| | | name | | | | | |]; try discriminate H.
  assert (G : forall o,
             (do args <- star_args (dict_get (KStr "__newargs__")
                                      (dict_remove (KStr "__class__") (dict_of_pairs r)));
              do inst <- class_new o args;
              set_public_attrs inst
                (dict_remove (KStr "__newargs__")
                   (dict_remove (KStr "__class__") (dict_of_pairs r))))
             = Ok (PInst cls attrs) ->
             forall a, In a (map fst attrs) ->
                       public_attr a = true /\ dict_get (KStr a) items <> None).
  { clear H. intros o H.
    apply bind_ok in H. destruct H as (args & _ & H).
    apply bind_ok in H. destruct H as (inst & Hnew & H).
    pose proof (class_new_atomic _ _ _ Hnew) as Hat.
    destruct inst as [| | | | | | [|] | | | c0 a0]; try contradiction Hat;
      try (apply set_public_attrs_other in H; [discriminate H | intros; discriminate]).
    assert (Ha0 : a0 = []).
    { destruct o; cbn [class_new] in Hnew; try discriminate Hnew.
      - unfold date_new in Hnew. destruct (pickled_state 4 args); [discriminate|].
        destruct args as [|a1 [|a2 [|a3 [|a4 args]]]]; try discriminate.
        destruct (c_ints [a1; a2; a3]) as [[|y [|m [|d [|]]]]|]; cbn in Hnew; try discriminate.
        destruct (valid_date y m d); discriminate.
      - unfold datetime_new in Hnew. destruct (pickled_state 10 args); [discriminate|].
        destruct (_ || _)%bool; [discriminate|].
        destruct (c_ints (firstn 7 args)) as [zs|]; cbn [bind] in Hnew; [|discriminate].
        destruct (negb _); [discriminate|]. destruct (negb _); [discriminate|].
        destruct (nth_error args 7) as [[]|]; discriminate.
      - destruct args; [|destruct (cls_has_init c); [|discriminate]]; now inversion Hnew. }
    subst a0. destruct (set_public_attrs_names _ _ _ _ _ H) as [_ Hin].
    intros a Ha. destruct (Hin a Ha) as [[]|[Hp Hd]]. split; [exact Hp|].
    apply (decode_items_keys ns items r _ Hr).
    apply dict_get_of_pairs_some.
    apply (dict_get_remove_some _ (KStr "__class__")).
    apply (dict_get_remove_some _ (KStr "__newargs__")). exact Hd. }
  destruct (resolve_class ns name); try discriminate H; exact (G _ H).
Qed.

Lemma X16_decoder_sets_public_attrs_witness :
  public_attr "x" = true /\
  dict_get (KStr "x") [ (KStr "__class__", PStr "Bunch"); (KStr "__secret", PInt 0);
                        (KStr "x", PInt 1) ] <> None.
Proof.
  apply (X16_decoder_sets_public_attrs [("Bunch", ObjClass Bunch)]
           [ (KStr "__class__", PStr "Bunch"); (KStr "__secret", PInt 0); (KStr "x", PInt 1) ]
           Bunch [("x", PInt 1)]).
  - reflexivity.
  - left. reflexivity.
Defined.

(** ** The date handlers of the msgpack adapter *)

Lemma utf8_encode_ascii (s : string) :
  forallb (fun c => (N_of_ascii c <? 128)%N) (list_ascii_of_string s) = true ->
  utf8_encode s = list_byte_of_string s.
Proof.
  unfold list_byte_of_string.
  induction s as [|c s IH]; cbn [list_ascii_of_string forallb utf8_encode map]; intro H;
    [reflexivity|].
  apply andb_prop in H. destruct H as [Hc Hs]. rewrite Hc, (IH Hs).
  unfold byte_of_N. now rewrite ascii_N_embedding.
Qed.

Lemma list_byte_app (a b : string) :
  list_byte_of_string (a ++ b) = (list_byte_of_string a ++ list_byte_of_string b)%list.
Proof.
  unfold list_byte_of_string.
  induction a as [|c a IH]; cbn [append list_ascii_of_string map app]; [reflexivity|].
  now rewrite IH.
Qed.

Lemma digit_text_app (a b : string) :
  digit_text (a ++ b) = (digit_text a && digit_text b)%bool.
Proof.
  unfold digit_text. induction a as [|c a IH]; cbn [append list_ascii_of_string forallb];
    [reflexivity|].
  now rewrite IH, andb_assoc.
Qed.

Lemma digit_text_zeros (n : nat) : digit_text (zeros n) = true.
Proof. induction n as [|n IH]; [reflexivity | exact IH]. Qed.

Lemma digit_text_uint (u : Decimal.uint) : digit_text (NilEmpty.string_of_uint u) = true.
Proof. induction u; cbn; [reflexivity | assumption ..]. Qed.

Lemma is_digit_facts (c : ascii) :
  is_digit c = true ->
  (N_of_ascii c <? 128)%N = true /\ py_isspace c = false /\
  Ascii.eqb c "_" = false /\ Ascii.eqb c "-" = false /\ Ascii.eqb c "+" = false /\
  Byte.eqb (byte_of_ascii c) "-"%byte = false.
Proof.
  destruct c as [[] [] [] [] [] [] [] []]; cbn; intro H; try discriminate H;
    repeat split; reflexivity.
Qed.

Lemma digit_text_ascii (s : string) :
  digit_text s = true ->
  forallb (fun c => (N_of_ascii c <? 128)%N) (list_ascii_of_string s) = true.
Proof.
  unfold digit_text. induction s as [|c s IH]; cbn [list_ascii_of_string forallb]; intro H;
    [reflexivity|].
  apply andb_prop in H. destruct H as [Hc Hs].
  destruct (is_digit_facts c Hc) as (Ha & _). now rewrite Ha, (IH Hs).
Qed.

Lemma digit_text_strip (s : string) :
  digit_text s = true ->
  lstrip s = s /\ rstrip s = s /\ forall b, drop_underscores b s = Some s.
Proof.
  unfold digit_text. induction s as [|c s IH]; cbn [list_ascii_of_string forallb]; intro H;
    [repeat split|].
  apply andb_prop in H. destruct H as [Hc Hs].
  destruct (is_digit_facts c Hc) as (_ & Hsp & Hu & _).
  destruct (IH Hs) as (_ & Hr & Hd).
  cbn [lstrip rstrip drop_underscores]. rewrite Hsp, Hu, Hr, (Hd (is_digit c)).
  repeat split. destruct s; reflexivity.
Qed.

Lemma digit_text_sign (s : string) :
  digit_text s = true ->
  match s with
  | String c rest =>
      if Ascii.eqb c "-" then (true, rest)
      else if Ascii.eqb c "+" then (false, rest)
      else (false, s)
  | EmptyString => (false, s)
  end = (false, s).
Proof.
  destruct s as [|c s]; [reflexivity|]. unfold digit_text.
  cbn [list_ascii_of_string forallb]. intro H. apply andb_prop in H. destruct H as [Hc _].
  destruct (is_digit_facts c Hc) as (_ & _ & _ & Hm & Hp & _). now rewrite Hm, Hp.
Qed.

Lemma digit_text_no_dash (s : string) (rest : list byte) :
  digit_text s = true ->
  bytes_split "-"%byte (list_byte_of_string s ++ "-"%byte :: rest)
  = list_byte_of_string s :: bytes_split "-"%byte rest.
Proof.
  unfold digit_text, list_byte_of_string.
  induction s as [|c s IH]; cbn [list_ascii_of_string forallb map app]; intro H.
  - reflexivity.
  - apply andb_prop in H. destruct H as [Hc Hs].
    destruct (is_digit_facts c Hc) as (_ & _ & _ & _ & _ & Hb).
    cbn [bytes_split]. rewrite Hb, (IH Hs). reflexivity.
Qed.

Lemma digit_text_one_field (s : string) :
  digit_text s = true ->
  bytes_split "-"%byte (list_byte_of_string s) = [list_byte_of_string s].
Proof.
  unfold digit_text, list_byte_of_string.
  induction s as [|c s IH]; cbn [list_ascii_of_string forallb map]; intro H.
  - reflexivity.
  - apply andb_prop in H. destruct H as [Hc Hs].
    destruct (is_digit_facts c Hc) as (_ & _ & _ & _ & _ & Hb).
    cbn [bytes_split]. rewrite Hb, (IH Hs). reflexivity.
Qed.

Lemma zeros_uint (n : nat) (u : Decimal.uint) :
  zeros n ++ NilEmpty.string_of_uint u = NilEmpty.string_of_uint (Nat.iter n Decimal.D0 u).
Proof. induction n as [|n IH]; cbn; [reflexivity | now rewrite IH]. Qed.

Lemma of_uint_zeros (n : nat) (u : Decimal.uint) :
  Z.of_uint (Nat.iter n Decimal.D0 u) = Z.of_uint u.
Proof. induction n as [|n IH]; [reflexivity | exact IH]. Qed.

(** The decimal text of a number that is not negative. *)
Lemma string_of_Z_uint (z : Z) :
  0 <= z ->
  exists u, string_of_Z z = NilEmpty.string_of_uint u /\ Z.of_uint u = z /\ u <> Decimal.Nil.
Proof.
  intro Hz. unfold string_of_Z. destruct z as [|p|p]; [| |lia].
  - exists (Decimal.D0 Decimal.Nil). repeat split. discriminate.
  - exists (Pos.to_uint p). cbn [Z.to_int NilEmpty.string_of_int]. repeat split.
    + pose proof (DecimalZ.of_to (Zpos p)) as H. exact H.
    + apply Unsigned.to_uint_nonnil.
Qed.

Lemma small_number_text :
  forallb (fun n => Nat.leb (String.length (string_of_Z (Z.of_nat n))) 4) (seq 0 (100 * 100)) = true.
Proof. vm_compute. reflexivity. Qed.

Lemma small_number_length (z : Z) :
  0 <= z < 10000 -> (String.length (string_of_Z z) <= 4)%nat.
Proof.
  intro Hz. pose proof small_number_text as H. rewrite forallb_forall in H.
  specialize (H (Z.to_nat z)). rewrite Z2Nat.id in H by lia.
  apply Nat.leb_le. apply H. apply in_seq. lia.
Qed.

(** [int] reads the zero-padded text of a small number as the number. *)
Lemma int_of_zero_pad (w : nat) (z : Z) :
  (w <= 4)%nat -> 0 <= z < 10000 ->
  digit_text (zero_pad w z) = true /\
  int_of_bytes (list_byte_of_string (zero_pad w z)) = Ok z.
Proof.
  intros Hw Hz. pose proof (small_number_length z Hz) as Hlen.
  destruct (string_of_Z_uint z (proj1 Hz)) as (u & Hu & Hval & Hnil).
  unfold zero_pad. rewrite Hu in Hlen |- *. cbv zeta.
  set (k := (w - String.length (NilEmpty.string_of_uint u))%nat).
  assert (Hdig : digit_text (zeros k ++ NilEmpty.string_of_uint u) = true).
  { now rewrite digit_text_app, digit_text_zeros, digit_text_uint. }
  split; [exact Hdig|].
  unfold int_of_bytes. rewrite string_of_list_byte_of_string.
  destruct (digit_text_strip _ Hdig) as (Hl & Hr & Hd).
  rewrite Hl, (digit_text_sign _ Hdig). cbn [fst snd]. rewrite Hr, Hd.
  assert (Hlen' : Nat.ltb 4300 (String.length (zeros k ++ NilEmpty.string_of_uint u)) = false).
  { apply Nat.ltb_ge. rewrite slength_app.
    assert (String.length (zeros k) = k) by (clear; induction k; cbn; congruence).
    subst k. lia. }
  rewrite Hlen'. rewrite zeros_uint.
  pose proof (scan_digits_uint (Nat.iter k Decimal.D0 u) "" I) as Hs.
  rewrite sapp_nil_r in Hs. rewrite Hs.
  assert (Hn : Nat.iter k Decimal.D0 u <> Decimal.Nil).
  { destruct k; [exact Hnil | discriminate]. }
  rewrite <- (of_uint_zeros k u) in Hval.
  destruct (Nat.iter k Decimal.D0 u); try (contradiction Hn; reflexivity);
    now rewrite Hval.
Qed.

(** X17.  The msgpack adapter's date handlers undo each other: for every
    date of the calendar, [from_date] gives an [Ext] of type [0x10] whose
    data is the ISO text [YYYY-MM-DD] of the date, and [to_date] reads
    that [Ext] back as the date. *)
Theorem X17_msgpack_date_round_trip (y m d : Z) :
  valid_date y m d = true ->
  exists ext,
    MsgPackAdapter_from_date (PDate y m d) = Ok ext /\
    ext_type ext = 16 /\
    ext_data ext = list_byte_of_string (date_isoformat y m d) /\
    MsgPackAdapter_to_date ext = Ok (PDate y m d).
Proof.
  intro Hv. pose proof (valid_date_range y m d Hv) as (Hy & Hm & Hd).
  destruct (int_of_zero_pad 4 y) as [Dy Iy]; [lia | lia |].
  destruct (int_of_zero_pad 2 m) as [Dm Im]; [lia | lia |].
  destruct (int_of_zero_pad 2 d) as [Dd Id]; [lia | lia |].
  assert (Henc : utf8_encode (date_isoformat y m d)
                 = list_byte_of_string (date_isoformat y m d)).
  { apply utf8_encode_ascii. unfold date_isoformat.
    assert (G : forall a b, forallb (fun c => (N_of_ascii c <? 128)%N)
                              (list_ascii_of_string a) = true ->
                            forallb (fun c => (N_of_ascii c <? 128)%N)
                              (list_ascii_of_string b) = true ->
                            forallb (fun c => (N_of_ascii c <? 128)%N)
                              (list_ascii_of_string (a ++ b)) = true).
    { intros a b Ha Hb. induction a as [|c a IH]; cbn [append list_ascii_of_string forallb] in *;
        [exact Hb|].
      apply andb_prop in Ha. destruct Ha as [Hc Ha]. now rewrite Hc, (IH Ha). }
    apply G; [now apply digit_text_ascii|].
    apply (G "-"); [reflexivity|].
    apply G; [now apply digit_text_ascii|].
    apply (G "-"); [reflexivity | now apply digit_text_ascii]. }
  eexists. cbn [MsgPackAdapter_from_date isoformat bind]. split; [reflexivity|].
  cbn [ext_type ext_data]. split; [reflexivity|]. split; [exact Henc|].
  unfold MsgPackAdapter_to_date. cbn [ext_data]. rewrite Henc.
  unfold date_isoformat. rewrite !list_byte_app.
  change (list_byte_of_string "-") with ["-"%byte].
  cbn [app]. rewrite (digit_text_no_dash _ _ Dy), (digit_text_no_dash _ _ Dm),
    (digit_text_one_field _ Dd).
  cbn [ints_of_bytes]. rewrite Iy, Im, Id. cbn [bind].
  unfold date_new. cbn [pickled_state c_ints].
  rewrite !as_c_int_small by lia. cbn [bind]. now rewrite Hv.
Qed.

Lemma X17_msgpack_date_round_trip_witness :
  exists ext,
    MsgPackAdapter_from_date (PDate 2020 2 29) = Ok ext /\
    ext_type ext = 16 /\
    ext_data ext = list_byte_of_string (date_isoformat 2020 2 29) /\
    MsgPackAdapter_to_date ext = Ok (PDate 2020 2 29).
Proof.
  apply (X17_msgpack_date_round_trip 2020 2 29). reflexivity.
Defined.

(** ** The bytes of the JSON adapter *)

Lemma ascii_text_app (a b : string) :
  ascii_text (a ++ b) = (ascii_text a && ascii_text b)%bool.
Proof.
  unfold ascii_text. induction a as [|c a IH]; cbn [append list_ascii_of_string forallb];
    [reflexivity|].
  now rewrite IH, andb_assoc.
Qed.

Lemma ascii_text_escape_char (c : ascii) : ascii_text (escape_char c) = true.
Proof. destruct c as [[] [] [] [] [] [] [] []]; reflexivity. Qed.

Lemma ascii_text_quote (s : string) : ascii_text (quote_string s) = true.
Proof.
  unfold quote_string.
  change (String dquote (escape_string s ++ String dquote ""))
    with (String dquote "" ++ (escape_string s ++ String dquote "")).
  rewrite !ascii_text_app. cbn [andb].
  replace (ascii_text (String dquote "")) with true by reflexivity.
  rewrite andb_true_r. cbn [andb].
  induction s as [|c s IH]; [reflexivity|].
  cbn [escape_string]. now rewrite ascii_text_app, ascii_text_escape_char, IH.
Qed.

Lemma ascii_text_number (z : Z) : ascii_text (string_of_Z z) = true.
Proof.
  unfold string_of_Z.
  destruct (Z.to_int z) as [u|u]; cbn [NilEmpty.string_of_int].
  - apply digit_text_ascii, digit_text_uint.
  - change (String "-" (NilEmpty.string_of_uint u))
      with ("-" ++ NilEmpty.string_of_uint u).
    rewrite ascii_text_app. apply (digit_text_ascii _ (digit_text_uint u)).
Qed.

(** [json.dumps] escapes what is not ASCII: the text of every document is
    ASCII. *)
Lemma ascii_text_json (t : json) : ascii_text (json_text t) = true.
Proof.
  induction t as [| b | z | s | xs IH | ms IH] using json_ind2.
  - reflexivity.
  - destruct b; reflexivity.
  - apply ascii_text_number.
  - apply ascii_text_quote.
  - rewrite json_text_arr, ascii_text_app. cbn [andb].
    replace (ascii_text "[") with true by reflexivity. cbn [andb].
    induction IH as [|x xs Hx Hxs IHl]; [reflexivity|].
    cbn [items_text]. rewrite ascii_text_app, Hx. cbn [andb].
    destruct xs as [|y ys]; [reflexivity|].
    rewrite ascii_text_app. exact IHl.
  - rewrite json_text_obj, ascii_text_app.
    replace (ascii_text "{") with true by reflexivity. cbn [andb].
    induction IH as [|[k x] ms Hx Hms IHl]; [reflexivity|].
    cbn [members_text]. cbn [snd] in Hx.
    rewrite !ascii_text_app, ascii_text_quote, Hx. cbn [andb].
    replace (ascii_text ": ") with true by reflexivity. cbn [andb].
    destruct ms as [|m ms']; [reflexivity|].
    rewrite ascii_text_app. exact IHl.
Qed.

Lemma byte_of_ascii_N (c : ascii) : Byte.to_N (byte_of_ascii c) = N_of_ascii c.
Proof. destruct c as [[] [] [] [] [] [] [] []]; reflexivity. Qed.

(** X18.  What [JsonAdapter.from_dict] returns, and so what a JSON
    collection stores for a dict, is ASCII: every byte is below 128,
    whatever characters the strings of the value hold. *)
Theorem X18_json_bytes_are_ascii (v : pyval) (b : list byte) :
  from_dict JsonAdapter_codec v = Ok b ->
  Forall (fun x => (Byte.to_N x < 128)%N) b.
Proof.
  cbn [from_dict JsonAdapter_codec]. unfold JsonAdapter_from_dict, dumps. intro H.
  apply bind_ok in H. destruct H as (s & Hs & H). inversion H; subst b; clear H.
  apply bind_ok in Hs. destruct Hs as (t & _ & Hs). inversion Hs; subst s; clear Hs.
  pose proof (ascii_text_json t) as Ha.
  rewrite (utf8_encode_ascii _ Ha).
  unfold ascii_text in Ha. unfold list_byte_of_string.
  induction (list_ascii_of_string (json_text t)) as [|c l IH]; [constructor|].
  cbn [forallb] in Ha. apply andb_prop in Ha. destruct Ha as [Hc Hl].
  cbn [map]. constructor; [|now apply IH].
  rewrite byte_of_ascii_N. now apply N.ltb_lt.
Qed.

Lemma X18_json_bytes_are_ascii_witness :
  Forall (fun x => (Byte.to_N x < 128)%N)
    (utf8_encode (json_text (JObj [("text", JStr (String "233" "t" ++ String "233" ""))]))).
Proof.
  apply (X18_json_bytes_are_ascii
           (PDict [(KStr "text", PStr (String "233" "t" ++ String "233" ""))])).
  reflexivity.
Defined.

(** ** The benchmark client on a new store *)



(** ** What [dumps] turns down *)






(** ** The last write wins *)

Lemma set_items_rows (c : codec) (self : Collection) (kvs : list (string * pyval)) :
  forall (db : LittleDB) (rows : table),
    find_table (name self) (current_db (LittleDB_connection db)) = Some rows ->
    snd (set_items c self kvs db) = Ok tt ->
    exists rows',
      find_table (name self) (current_db (LittleDB_connection (fst (set_items c self kvs db))))
      = Some rows' /\
      forall k,
        match last_value k kvs with
        | Some v => exists content, stored_content c v = Ok content /\
                                    select_content k rows' = Some content
        | None => select_content k rows' = select_content k rows
        end.
Proof.
  induction kvs as [|[k0 v0] kvs IH]; intros db rows Hf Hok.
  - exists rows. split; [exact Hf | reflexivity].
  - cbn [set_items] in Hok |- *.
    destruct (Collection_set_cases c self k0 v0 db rows Hf) as [Hcon Hcase].
    destruct (Collection_set c self k0 v0 db) as [db1 r] eqn:Hset. cbn [fst snd] in *.
    destruct Hcase as [(ct & Hst & Hr & Hf1)|(e & _ & Hr & _)]; subst r; [|discriminate Hok].
    rewrite <- Hcon in Hf1.
    destruct (IH db1 _ Hf1 Hok) as (rows' & Hf' & Hsel).
    exists rows'. split; [exact Hf'|]. intro k. specialize (Hsel k).
    cbn [last_value]. destruct (last_value k kvs) as [w|]; [exact Hsel|].
    destruct (String.eqb k k0) eqn:E.
    + apply String.eqb_eq in E. subst k0. exists ct. split; [exact Hst|].
      rewrite Hsel. apply select_replace_same.
    + apply String.eqb_neq in E. rewrite Hsel. now apply select_replace_other.
Qed.

(** X21.  After a client has written items one after the other, all of
    them stored, [get] of a key returns what the last item written under
    that key stored -- the value itself when the collection keeps it --
    and for a key that was not written, what [get] returned before. *)
Theorem X21_last_write_wins (c : codec) (self : Collection)
    (kvs : list (string * pyval)) (db : LittleDB) (k : string) :
  table_exists self db ->
  snd (set_items c self kvs db) = Ok tt ->
  match last_value k kvs with
  | Some v =>
      (exists content, stored_content c v = Ok content /\
                       snd (Collection_get c self k (fst (set_items c self kvs db)))
                       = loaded_value c content) /\
      (kept c v -> snd (Collection_get c self k (fst (set_items c self kvs db))) = Ok v)
  | None =>
      snd (Collection_get c self k (fst (set_items c self kvs db)))
      = snd (Collection_get c self k db)
  end.
Proof.
  unfold table_exists. intros Hex Hok.
  destruct (find_table (name self) (current_db (LittleDB_connection db)))
    as [rows|] eqn:Hf; [clear Hex | contradiction Hex; reflexivity].
  destruct (set_items_rows c self kvs db rows Hf Hok) as (rows' & Hf' & Hsel).
  specialize (Hsel k). rewrite !Collection_get_result, Hf', Hf.
  destruct (last_value k kvs) as [v|].
  - destruct Hsel as (ct & Hst & Hs). rewrite Hs. split.
    + exists ct. split; [exact Hst | reflexivity].
    + intro Hk. destruct (kept_stored c v Hk) as (ct' & Hst' & Hl). congruence.
  - now rewrite Hsel.
Qed.

Lemma X21_last_write_wins_witness :
  (exists content,
      stored_content JsonAdapter_codec doc1 = Ok content /\
      snd (Collection_get JsonAdapter_codec documents "a"
             (fst (set_items JsonAdapter_codec documents
                     [("a", PInt 1); ("b", PStr "x"); ("a", doc1)] documents_db)))
      = loaded_value JsonAdapter_codec content) /\
  (kept JsonAdapter_codec doc1 ->
   snd (Collection_get JsonAdapter_codec documents "a"
          (fst (set_items JsonAdapter_codec documents
                  [("a", PInt 1); ("b", PStr "x"); ("a", doc1)] documents_db)))
   = Ok doc1).
Proof.
  apply (X21_last_write_wins JsonAdapter_codec documents
           [("a", PInt 1); ("b", PStr "x"); ("a", doc1)] documents_db "a").
  - exact documents_table_exists.
  - vm_compute. reflexivity.
Defined.

(** ** Markers that name no class *)

(** X22.  A class whose name is the name of a method of [dict] ([copy],
    [keys], [items], [get], ...) cannot be decoded through a namespace
    dict, whatever the dict binds: [getattr] finds the method of the dict
    object before the item is looked up, and [loads] raises [TypeError]
    on every object tagged with such a name. *)
Theorem X22_dict_method_name_shadows (ns : namespace) (ms : list (string * json))
    (ps : list (string * pyval)) (name : string) :
  py_of_members (decode_object (JsonifyDecoder_init (Some ns))) ms = Ok ps ->
  marker_of ps = Some (PStr name) ->
  In name dict_methods ->
  loads (json_text (JObj ms)) (Some ns) = Raise TypeError.
Proof.
  intros Hps Hm Hin.
  assert (Hr : forall n, resolve_class n name = ObjOther /\ name <> "").
  { intro n. unfold resolve_class, dict_getattr.
    cbn in Hin.
    repeat (destruct Hin as [<-|Hin]; [split; [reflexivity | discriminate]|]).
    contradiction Hin. }
  destruct (Hr (JsonifyDecoder_init (Some ns))) as [Hres Hne].
  rewrite (loads_object ns ms ps Hps).
  rewrite (decode_tagged_marker _ _ name (unique_keys_of_pairs _) Hm Hne).
  rewrite Hres. cbv zeta.
  destruct (star_args _) as [args|e] eqn:Ha; [reflexivity|].
  apply star_args_error in Ha. now subst e.
Qed.

Lemma X22_dict_method_name_witness :
  loads (json_text (JObj [("x", JInt 1); ("__class__", JStr "copy")]))
        (Some [("copy", ObjClass {| cls_name := "copy"; cls_has_json := true;
                                    cls_has_init := false |})])
  = Raise TypeError.
Proof.
  apply (X22_dict_method_name_shadows
           [("copy", ObjClass {| cls_name := "copy"; cls_has_json := true;
                                 cls_has_init := false |})]
           [("x", JInt 1); ("__class__", JStr "copy")]
           [("x", PInt 1); ("__class__", PStr "copy")] "copy").
  - reflexivity.
  - reflexivity.
  - cbn. tauto.
Defined.

(** X23.  A marker that is no name.  When the value under [__class__] is
    false for Python (an empty string, [0], [None], [false], an empty
    list), [loads] returns the object as a plain dict without the key
    [__class__], silently; when it is true but not a string (a number, a
    list with items), [loads] raises [TypeError]. *)
Theorem X23_marker_that_is_no_name (ns : namespace) (ms : list (string * json))
    (ps : list (string * pyval)) (marker : pyval) :
  py_of_members (decode_object (JsonifyDecoder_init (Some ns))) ms = Ok ps ->
  marker_of ps = Some marker ->
  (truthy marker = false ->
     loads (json_text (JObj ms)) (Some ns)
     = Ok (PDict (dict_remove (KStr "__class__") (members_dict ps)))) /\
  (truthy marker = true -> (forall s, marker <> PStr s) ->
     loads (json_text (JObj ms)) (Some ns) = Raise TypeError).
Proof.
  intros Hps Hm. rewrite (loads_object ns ms ps Hps).
  unfold marker_of in Hm. unfold decode_tagged, dict_pop.
  rewrite (dict_of_pairs_unique (members_dict ps)) by apply unique_keys_of_pairs.
  rewrite Hm. split.
  - intro Hf. now rewrite Hf.
  - intros Ht Hns. rewrite Ht.
    destruct marker; try reflexivity. exfalso. now apply (Hns s).
Qed.

Lemma X23_marker_that_is_no_name_witness :
  loads (json_text (JObj [("__class__", JInt 0); ("x", JInt 1)])) (Some [])
  = Ok (PDict (dict_remove (KStr "__class__")
                 (members_dict [("__class__", PInt 0); ("x", PInt 1)]))).
Proof.
  apply (proj1 (X23_marker_that_is_no_name [] [("__class__", JInt 0); ("x", JInt 1)]
                  [("__class__", PInt 0); ("x", PInt 1)] (PInt 0) eq_refl eq_refl)).
  reflexivity.
Defined.
